(** * document_sql_extractor: text extraction from Word and Excel payloads

    A shallow embedding of [src/server/lib/document_sql_extractor.py] and
    the properties its specification states about it.

    Conventions of the embedding.
    - A Python [str] is a [string]: a sequence of code points below 256.
      A [bytes] object is a [string] as well, read as a sequence of octets.
    - A function that can raise returns in the monad [M]: a log of the
      library calls made so far, and either the exception raised or the
      value returned.
    - The libraries the script calls ([json], [base64], [zipfile],
      [xml.etree.ElementTree], [bytes.decode]) are the fields of a record
      [Lib]; every theorem about the script holds for any such record.
    - [int(...)] is modelled with the interpreter's default limit of 4300
      digits, which the script does not change. *)

From Stdlib Require Import Bool Arith ZArith List Ascii String Lia.
From Stdlib Require Floats.SpecFloat.
Import ListNotations.

Set Warnings "-register-all".


Local Open Scope string_scope.
Local Open Scope list_scope.

(** ** Python string built-ins *)

Module Py.

(** [str.isspace] on one code point below 256: TAB..CR, FS..US, SPACE, NEL
    and NBSP. *)
Definition isspace (c : ascii) : bool :=
  let n := nat_of_ascii c in
  (((9 <=? n) && (n <=? 13)) || ((28 <=? n) && (n <=? 32))
   || (n =? 133) || (n =? 160))%nat.

(** [str.lower] on one code point below 256. *)
Definition lower_char (c : ascii) : ascii :=
  let n := nat_of_ascii c in
  if (((65 <=? n) && (n <=? 90))
      || ((192 <=? n) && (n <=? 222) && negb (n =? 215)))%nat
  then ascii_of_nat (n + 32) else c.

Fixpoint lower (s : string) : string :=
  match s with
  | EmptyString => EmptyString
  | String c s' => String (lower_char c) (lower s')
  end.

Definition is_empty (s : string) : bool :=
  match s with EmptyString => true | _ => false end.

(** Truth value of a [str]: non-empty. *)
Definition nonempty (s : string) : bool := negb (is_empty s).

Fixpoint lstrip (s : string) : string :=
  match s with
  | EmptyString => EmptyString
  | String c s' => if isspace c then lstrip s' else s
  end.

Fixpoint rstrip (s : string) : string :=
  match s with
  | EmptyString => EmptyString
  | String c s' =>
      let r := rstrip s' in
      if isspace c && is_empty r then EmptyString else String c r
  end.

(** [s.strip()] *)
Definition strip (s : string) : string := rstrip (lstrip s).

(** [s.startswith(p)] *)
Definition startswith (s p : string) : bool := prefix p s.

(** [s.endswith(suf)] *)
Fixpoint endswith (s suf : string) : bool :=
  if String.eqb s suf then true
  else match s with
       | EmptyString => false
       | String _ s' => endswith s' suf
       end.

(** [sub in s] *)
Fixpoint contains (sub s : string) : bool :=
  if prefix sub s then true
  else match s with
       | EmptyString => false
       | String _ s' => contains sub s'
       end.

(** [s.find(sub)]: the lowest index where [sub] occurs, or [-1]. *)
Fixpoint find (s sub : string) : Z :=
  if prefix sub s then 0%Z
  else match s with
       | EmptyString => (-1)%Z
       | String _ s' =>
           let r := find s' sub in
           if (r =? -1)%Z then (-1)%Z else (r + 1)%Z
       end.

Fixpoint drop (n : nat) (s : string) : string :=
  match n, s with
  | O, _ => s
  | S _, EmptyString => EmptyString
  | S k, String _ s' => drop k s'
  end.

(** [s[k:]], with Python's reading of a negative start. *)
Definition slice_from (k : Z) (s : string) : string :=
  if (k <? 0)%Z
  then drop (Z.to_nat (Z.max 0 (Z.of_nat (String.length s) + k))) s
  else drop (Z.to_nat k) s.

(** [sep.join(parts)] *)
Definition join (sep : string) (parts : list string) : string :=
  String.concat sep parts.

(** [s.replace(old, new)] for a non-empty [old]: occurrences are replaced
    from the left and do not overlap.  [skip] counts the characters of a
    match that are still to be passed over. *)
Fixpoint replace_from (old new : string) (skip : nat) (s : string) : string :=
  match s with
  | EmptyString => EmptyString
  | String c s' =>
      match skip with
      | S k => replace_from old new k s'
      | O =>
          if prefix old s
          then new ++ replace_from old new (String.length old - 1) s'
          else String c (replace_from old new 0 s')
      end
  end.

Definition replace (s old new : string) : string := replace_from old new 0 s.

(** [s.split()]: the maximal runs of non-space characters.  [w] is the
    run being read. *)
Fixpoint split_from (w : string) (s : string) : list string :=
  match s with
  | EmptyString => if is_empty w then [] else [w]
  | String c s' =>
      if isspace c
      then (if is_empty w then split_from EmptyString s'
            else w :: split_from EmptyString s')
      else split_from (w ++ String c EmptyString) s'
  end.

Definition split (s : string) : list string := split_from EmptyString s.

Definition is_digit (c : ascii) : bool :=
  let n := nat_of_ascii c in ((48 <=? n) && (n <=? 57))%nat.

Definition digit_val (c : ascii) : Z := Z.of_nat (nat_of_ascii c - 48).

(** Digits of a decimal literal, single underscores allowed between
    digits.  [prev] tells whether the previous character was a digit. *)
Fixpoint int_digits (acc : Z) (prev : bool) (s : string) : option Z :=
  match s with
  | EmptyString => if prev then Some acc else None
  | String c s' =>
      if is_digit c then int_digits (10 * acc + digit_val c)%Z true s'
      else if Ascii.eqb c "_"%char && prev then int_digits acc false s'
      else None
  end.

(** White space around the literal given to [int]: the ASCII white space
    TAB..CR and SPACE, and the code points below 256 that are white space
    in Unicode without being ASCII, NEL and NBSP.  The separators FS..US,
    white space for [str.isspace], are none for [int]. *)
Definition int_space (c : ascii) : bool :=
  let n := nat_of_ascii c in
  (((9 <=? n) && (n <=? 13)) || (n =? 32) || (n =? 133) || (n =? 160))%nat.

Fixpoint int_lstrip (s : string) : string :=
  match s with
  | EmptyString => EmptyString
  | String c s' => if int_space c then int_lstrip s' else s
  end.

Fixpoint int_rstrip (s : string) : string :=
  match s with
  | EmptyString => EmptyString
  | String c s' =>
      let r := int_rstrip s' in
      if int_space c && is_empty r then EmptyString else String c r
  end.

(** The number of digits of a literal, leading zeros counted, underscores
    not. *)
Fixpoint count_digits (s : string) : N :=
  match s with
  | EmptyString => 0%N
  | String c s' =>
      if is_digit c then N.succ (count_digits s') else count_digits s'
  end.

(** The default of [sys.get_int_max_str_digits()]. *)
Definition int_max_str_digits : N := 4300%N.

(** The value of an unsigned literal; a literal of more digits than the
    limit is refused. *)
Definition int_literal (body : string) : option Z :=
  match int_digits 0 false body with
  | Some v =>
      if (int_max_str_digits <? count_digits body)%N then None else Some v
  | None => None
  end.

(** [int(s)] for a [str]; [None] stands for [ValueError]. *)
Definition int (s : string) : option Z :=
  match int_rstrip (int_lstrip s) with
  | String "-"%char body => option_map Z.opp (int_literal body)
  | String "+"%char body => int_literal body
  | body => int_literal body
  end.

End Py.

(** ** Values, documents and archives *)

(** The values [json.loads] can return. *)
Inductive pyval : Type :=
| PNone
| PBool (b : bool)
| PInt (z : Z)
| PFloat (f : SpecFloat.spec_float)
| PStr (s : string)
| PList (l : list pyval)
| PDict (d : list (string * pyval)).

(** Truth value of an object, as [not], [or] and [if] test it. *)
Definition truthy (v : pyval) : bool :=
  match v with
  | PNone => false
  | PBool b => b
  | PInt z => negb (z =? 0)%Z
  | PFloat (SpecFloat.S754_zero _) => false
  | PFloat _ => true
  | PStr s => Py.nonempty s
  | PList [] => false
  | PList _ => true
  | PDict [] => false
  | PDict _ => true
  end.

Fixpoint assoc {V : Type} (k : string) (d : list (string * V)) : option V :=
  match d with
  | [] => None
  | (k', v) :: d' => if String.eqb k' k then Some v else assoc k d'
  end.

Definition bytes : Type := string.

(** An [xml.etree.ElementTree.Element]: tag (in [{uri}local] form),
    attributes, text before the first child, children. *)
Inductive Element : Type :=
| Elem (tag : string) (attrib : list (string * string))
       (text : option string) (children : list Element).

Definition tag (e : Element) : string :=
  match e with Elem t _ _ _ => t end.
Definition attrib (e : Element) : list (string * string) :=
  match e with Elem _ a _ _ => a end.
Definition text (e : Element) : option string :=
  match e with Elem _ _ t _ => t end.
Definition children (e : Element) : list Element :=
  match e with Elem _ _ _ c => c end.

(** [e.iter()]: the element and its descendants in document order. *)
Fixpoint iter (e : Element) : list Element :=
  match e with
  | Elem _ _ _ cs => e :: flat_map iter cs
  end.

Definition has_tag (t : string) (e : Element) : bool := String.eqb (tag e) t.

(** [e.findall(".//p:local", ns)]: every element below [e] with the tag. *)
Definition findall_below (e : Element) (t : string) : list Element :=
  filter (has_tag t) (flat_map iter (children e)).

(** [e.findall("p:local", ns)]: the children of [e] with the tag. *)
Definition findall (e : Element) (t : string) : list Element :=
  filter (has_tag t) (children e).

(** [e.find("p:local", ns)]: the first child of [e] with the tag. *)
Definition find (e : Element) (t : string) : option Element :=
  List.find (has_tag t) (children e).

(** The tag a prefixed name stands for under a prefix map. *)
Definition qname (ns : list (string * string)) (p local : string) : string :=
  match assoc p ns with
  | Some uri => "{" ++ uri ++ "}" ++ local
  | None => p ++ ":" ++ local
  end.

(** [node.text or ""] *)
Definition text_or_empty (e : Element) : string :=
  match text e with
  | Some s => s
  | None => ""
  end.

(** ** Exceptions *)

(** The classes of [Exception] the script and its libraries raise.
    [OtherError] stands for any further class, named by its argument, that
    is no subclass of [KeyError]. *)
Inductive exn : Type :=
| AttributeError | KeyError | BinasciiError | BadZipFile | ParseError
| ZlibError | NotImplementedError | RuntimeError | LookupError | ValueError
| UnicodeDecodeError | OtherError (class : string).

(** A member of an opened archive.  [content] is what [archive.read] gives
    for it: the bytes, or the exception raised: [BadZipFile] on a failed
    CRC check, [ZlibError] on a corrupt deflate stream,
    [NotImplementedError] on an unsupported compression method,
    [RuntimeError] on an encrypted member. *)
Record ZipInfo : Type := { filename : string; content : exn + bytes }.

Definition Archive : Type := list ZipInfo.

(** [archive.namelist()] *)
Definition namelist (a : Archive) : list string := map filename a.

(** The member a name denotes: the last one carrying it. *)
Fixpoint getinfo (a : Archive) (name : string) : option ZipInfo :=
  match a with
  | [] => None
  | zi :: a' =>
      match getinfo a' name with
      | Some r => Some r
      | None => if String.eqb (filename zi) name then Some zi else None
      end
  end.

(** ** The call log and the monad *)

Inductive extractor : Type := Word | Excel | Fallback.

(** What a run leaves behind: the library calls the claims speak of, the
    extractors entered, and the objects written to standard output. *)
Inductive event : Type :=
| Ev_b64decode (s : string)
| Ev_ZipFile (buff : bytes)
| Ev_fromstring (data : bytes)
| Ev_enter (f : extractor) (buff : bytes)
| Ev_dump (obj : pyval).

Definition M (A : Type) : Type := (list event * (exn + A))%type.

Definition ret {A} (a : A) : M A := ([], inr a).
Definition raise {A} (e : exn) : M A := ([], inl e).
Definition emit (ev : event) : M unit := ([ev], inr tt).

Definition bind {A B} (m : M A) (k : A -> M B) : M B :=
  match m with
  | (l, inl e) => (l, inl e)
  | (l, inr a) => let (l', r) := k a in (l ++ l', r)
  end.

(** [try: m  except <handles>: h] *)
Definition try_except {A} (m : M A) (handles : exn -> bool) (h : M A) : M A :=
  match m with
  | (l, inl e) => if handles e then let (l', r) := h in (l ++ l', r)
                  else (l, inl e)
  | ok => ok
  end.

Definition any_exception (_ : exn) : bool := true.
Definition is_KeyError (e : exn) : bool :=
  match e with KeyError => true | _ => false end.

Notation "x <- m ;; k" := (bind m (fun x => k))
  (at level 61, m at next level, right associativity).
Notation "m ;;; k" := (bind m (fun _ => k))
  (at level 61, right associativity).

(** [for x in xs: s = body(s, x)] *)
Fixpoint for_each {A S} (xs : list A) (body : S -> A -> M S) (s : S) : M S :=
  match xs with
  | [] => ret s
  | x :: xs' => s' <- body s x ;; for_each xs' body s'
  end.

Definition trace {A} (m : M A) : list event := fst m.
Definition outcome {A} (m : M A) : exn + A := snd m.

(** The objects written to standard output, in order. *)
Fixpoint stdout (l : list event) : list pyval :=
  match l with
  | [] => []
  | Ev_dump o :: l' => o :: stdout l'
  | _ :: l' => stdout l'
  end.

(** ** The libraries *)

Record Lib : Type := {
  (** [json.loads]; [None] when it raises *)
  json_loads : string -> option pyval;
  (** [base64.b64decode] on a [str]; [None] when it raises *)
  b64decode : string -> option bytes;
  (** [zipfile.ZipFile(io.BytesIO(buff))]; [None] when it raises *)
  ZipFile : bytes -> option Archive;
  (** the exception [zipfile.ZipFile] raises on bytes it refuses:
      [BadZipFile] where there is no archive, other classes on some
      damaged ones *)
  ZipFile_error : bytes -> exn;
  (** [ET.fromstring]; [None] when it raises *)
  fromstring : bytes -> option Element;
  (** the exception [ET.fromstring] raises on a text it refuses:
      [ParseError] where the text is not well-formed, [LookupError] or
      [ValueError] where it declares an encoding that is not supported *)
  fromstring_error : bytes -> exn;
  (** [bytes.decode(errors="ignore")] *)
  decode_ignore : bytes -> string
}.

Definition nl : string := String (ascii_of_nat 10) "".
Definition cr : string := String (ascii_of_nat 13) "".
Definition tab : string := String (ascii_of_nat 9) "".
Definition dquote : string := String (ascii_of_nat 34) "".

Definition WORD_NS : list (string * string) :=
  [("w", "http://schemas.openxmlformats.org/wordprocessingml/2006/main")].
Definition SHEET_NS : list (string * string) :=
  [("s", "http://schemas.openxmlformats.org/spreadsheetml/2006/main")].

(** ** The script *)

Section Script.

Context (L : Lib).

(** [_safe_load_json], lines 13-17. *)
Definition _safe_load_json (text : string) : pyval :=
  match json_loads L text with
  | Some v => v
  | None => PDict []
  end.

(** [v.lower()]: only a [str] has the method. *)
Definition py_lower (v : pyval) : M string :=
  match v with
  | PStr s => ret (Py.lower s)
  | _ => raise AttributeError
  end.

(** [v or ""] *)
Definition or_empty_str (v : pyval) : pyval :=
  if truthy v then v else PStr "".

(** [detect_kind], lines 20-26.  The MIME string is lowered only when the
    tests before it in an [or] chain are false. *)
Definition detect_kind (name mime : pyval) : M string :=
  lower_name <- py_lower (or_empty_str name) ;;
  is_word <-
    (if Py.endswith lower_name ".docx" then ret true
     else if Py.endswith lower_name ".doc" then ret true
     else m <- py_lower (or_empty_str mime) ;;
          ret (Py.contains "wordprocessingml" m)) ;;
  if is_word then ret "word"
  else
    is_excel <-
      (if Py.endswith lower_name ".xlsx" then ret true
       else if Py.endswith lower_name ".xls" then ret true
       else m <- py_lower (or_empty_str mime) ;;
            ret (Py.contains "spreadsheetml" m)) ;;
    if is_excel then ret "excel" else ret "".

(** [zipfile.ZipFile(io.BytesIO(buff))] *)
Definition open_archive (buff : bytes) : M Archive :=
  emit (Ev_ZipFile buff) ;;;
  match ZipFile L buff with
  | Some a => ret a
  | None => raise (ZipFile_error L buff)
  end.

(** [archive.read(name)]: [KeyError] when no member has the name, and
    else what reading the member gives. *)
Definition read (a : Archive) (name : string) : M bytes :=
  match getinfo a name with
  | None => raise KeyError
  | Some zi =>
      match content zi with
      | inr b => ret b
      | inl e => raise e
      end
  end.

(** [ET.fromstring(data)] *)
Definition parse_xml (data : bytes) : M Element :=
  emit (Ev_fromstring data) ;;;
  match fromstring L data with
  | Some root => ret root
  | None => raise (fromstring_error L data)
  end.

(** [extract_word_text], lines 29-37. *)
Definition extract_word_text (buff : bytes) : M string :=
  emit (Ev_enter Word buff) ;;;
  archive <- open_archive buff ;;
  document <- try_except
                (d <- read archive "word/document.xml" ;; ret (Some d))
                is_KeyError (ret None) ;;
  match document with
  | None => ret ""
  | Some document =>
      root <- parse_xml document ;;
      let texts :=
        map text_or_empty (findall_below root (qname WORD_NS "w" "t")) in
      ret (Py.join nl (filter (fun t => Py.nonempty (Py.strip t)) texts))
  end.

(** [_load_shared_strings], lines 40-49. *)
Definition _load_shared_strings (archive : Archive) : M (list string) :=
  data <- try_except
            (d <- read archive "xl/sharedStrings.xml" ;; ret (Some d))
            is_KeyError (ret None) ;;
  match data with
  | None => ret []
  | Some data =>
      root <- parse_xml data ;;
      ret (fold_left (fun values t => values ++ [text_or_empty t])
                     (findall_below root (qname SHEET_NS "s" "t")) [])
  end.

(** [_cell_value], lines 52-72.  [None] is Python's [None], returned for
    a value node without text. *)
Definition _cell_value (cell : Element) (shared_strings : list string)
  : option string :=
  let cell_type := assoc "t" (attrib cell) in
  if match cell_type with Some t => String.eqb t "s" | None => false end
  then
    match find cell (qname SHEET_NS "s" "v") with
    | Some value =>
        match text value with
        | Some value_text =>
            match Py.int value_text with
            | Some index =>
                if ((0 <=? index)
                    && (index <? Z.of_nat (List.length shared_strings)))%Z
                then Some (nth (Z.to_nat index) shared_strings "")
                else Some ""
            | None => Some ""
            end
        | None => Some ""
        end
    | None => Some ""
    end
  else
    let plain :=
      match find cell (qname SHEET_NS "s" "v") with
      | Some value => text value
      | None => Some ""
      end in
    match find cell (qname SHEET_NS "s" "is") with
    | Some inline =>
        let texts :=
          map text_or_empty (findall_below inline (qname SHEET_NS "s" "t")) in
        match texts with
        | _ :: _ => Some (Py.join "" texts)
        | [] => plain
        end
    | None => plain
    end.

(** [_decode_entities], lines 75-83. *)
Definition _decode_entities (text : string) : string :=
  Py.replace
    (Py.replace
       (Py.replace
          (Py.replace
             (Py.replace text "&quot;" dquote)
             "&apos;" "'")
          "&lt;" "<")
       "&gt;" ">")
    "&amp;" "&".

(** [_strip_xml_tags], lines 86-95; it returns the list [split] makes. *)
Definition _strip_xml_tags (xml_text : string) : list string :=
  Py.split
    (Py.replace
       (Py.replace
          (Py.replace
             (Py.replace
                (Py.replace (_decode_entities xml_text) cr " ")
                nl " ")
             tab " ")
          "<" " <")
       ">" "> ").

(** [(value or "")] for what [_cell_value] returns. *)
Definition or_empty (v : option string) : string :=
  match v with
  | Some s => s
  | None => ""
  end.

(** Lines 108-114: the body of the loop over the rows of a worksheet. *)
Definition append_row (shared_strings : list string)
  (rows : list string) (row : Element) : list string :=
  let cells :=
    map (fun cell => Py.strip (or_empty (_cell_value cell shared_strings)))
        (findall row (qname SHEET_NS "s" "c")) in
  let joined := Py.join " " (filter Py.nonempty cells) in
  if Py.nonempty joined then rows ++ [joined] else rows.

(** [extract_excel_text], lines 98-115. *)
Definition extract_excel_text (buff : bytes) : M string :=
  emit (Ev_enter Excel buff) ;;;
  archive <- open_archive buff ;;
  shared_strings <- _load_shared_strings archive ;;
  rows <- for_each (namelist archive)
            (fun rows name =>
               if negb (Py.startswith name "xl/worksheets/")
                  || negb (Py.endswith name ".xml")
               then ret rows
               else
                 content <- read archive name ;;
                 root <- parse_xml content ;;
                 ret (fold_left (append_row shared_strings)
                        (findall_below root (qname SHEET_NS "s" "row")) rows))
            [] ;;
  ret (Py.join nl rows).

(** [extract_fallback_xml_text], lines 118-131. *)
Definition extract_fallback_xml_text (buff : bytes) : M string :=
  emit (Ev_enter Fallback buff) ;;;
  archive <- open_archive buff ;;
  rows <- for_each (namelist archive)
            (fun rows name =>
               if negb (Py.endswith (Py.lower name) ".xml") then ret rows
               else
                 xml_bytes <- try_except
                                (b <- read archive name ;; ret (Some b))
                                is_KeyError (ret None) ;;
                 match xml_bytes with
                 | None => ret rows
                 | Some xml_bytes =>
                     let flattened :=
                       Py.join " "
                         (_strip_xml_tags (decode_ignore L xml_bytes)) in
                     if Py.nonempty (Py.strip flattened)
                     then ret (rows ++ [Py.strip flattened])
                     else ret rows
                 end)
            [] ;;
  ret (Py.join nl rows).

(** [_normalise_base64_payload], lines 134-141.  [strip] is a method of
    [str] alone. *)
Definition _normalise_base64_payload (text : pyval) : M string :=
  if negb (truthy text) then ret ""
  else
    match text with
    | PStr text =>
        let trimmed := Py.strip text in
        if negb (Py.startswith trimmed "data:") then ret trimmed
        else
          let comma := Py.find trimmed "," in
          ret (if (comma =? -1)%Z then trimmed
               else Py.slice_from (comma + 1) trimmed)
    | _ => raise AttributeError
    end.

(** [payload.get(key)]: only a [dict] has the method here. *)
Definition py_get (payload : pyval) (key : string) : M pyval :=
  match payload with
  | PDict d => ret (match assoc key d with Some v => v | None => PNone end)
  | _ => raise AttributeError
  end.

(** [json.dump({"text": text}, sys.stdout)] *)
Definition dump_text (text : string) : M unit :=
  emit (Ev_dump (PDict [("text", PStr text)])).

(** Lines 167-181 of [main]: the structured extractor of the kind, the
    fallback when it gave nothing, and the one write to standard output. *)
Definition run_extractors (kind : string) (raw_bytes : bytes) : M unit :=
  text <- try_except
            (if String.eqb kind "word"
             then extract_word_text raw_bytes
             else extract_excel_text raw_bytes)
            any_exception (ret "") ;;
  text <- (if negb (Py.nonempty (Py.strip text))
           then try_except (extract_fallback_xml_text raw_bytes)
                  any_exception (ret "")
           else ret text) ;;
  dump_text (if Py.nonempty text then text else "").

(** [main], lines 144-181, on the text read from standard input. *)
Definition main (stdin : string) : M unit :=
  let payload := _safe_load_json stdin in
  b <- py_get payload "base64" ;;
  base64_data <-
    (if truthy b then ret b
     else d <- py_get payload "data" ;; ret (or_empty_str d)) ;;
  n <- py_get payload "name" ;;
  let name := or_empty_str n in
  m <- py_get payload "mime" ;;
  let mime := or_empty_str m in
  normalised_base64 <- _normalise_base64_payload base64_data ;;
  if negb (Py.nonempty normalised_base64) then dump_text ""
  else
    kind <- detect_kind name mime ;;
    if negb (Py.nonempty kind) then dump_text ""
    else
      emit (Ev_b64decode normalised_base64) ;;;
      match b64decode L normalised_base64 with
      | None => dump_text ""
      | Some raw_bytes => run_extractors kind raw_bytes
      end.

(** Lines 184-185 with line 145: the script calls [main()], which begins
    by evaluating [sys.stdin.read()], outside any [try].  [stdin_read] is
    what that call gives: the text, or the exception it raises (a
    [UnicodeDecodeError] where the bytes of standard input are no text in
    the encoding of the stream). *)
Definition run_script (stdin_read : exn + string) : M unit :=
  match stdin_read with
  | inl e => raise e
  | inr stdin => main stdin
  end.

End Script.

(** An input object with the three recognised fields. *)
Definition request (base64 name mime : string) : pyval :=
  PDict [("base64", PStr base64); ("name", PStr name); ("mime", PStr mime)].

(** The data-URI form of a payload. *)
Definition data_uri (media payload : string) : string :=
  "data:" ++ media ++ ";base64," ++ payload.

(** ** A library instance for the examples

    [Fixture.lib] answers as the Python libraries do on the inputs the
    examples use: four small archives written with [zipfile] (stored, not
    compressed), given by their base64 text, and the JSON texts that carry
    them.  Its [b64decode] follows [binascii.a2b_base64] in its default
    mode; its other fields are finite tables. *)

Module Fixture.

Local Open Scope string_scope.

Definition b64_value (c : ascii) : option N :=
  let n := N_of_ascii c in
  if ((65 <=? n) && (n <=? 90))%N then Some (n - 65)%N
  else if ((97 <=? n) && (n <=? 122))%N then Some (n - 71)%N
  else if ((48 <=? n) && (n <=? 57))%N then Some (n + 4)%N
  else if (n =? 43)%N then Some 62%N
  else if (n =? 47)%N then Some 63%N
  else None.

Definition octet (n : N) : ascii := ascii_of_N (N.land n 255).

Definition push (n : N) (r : option string) : option string :=
  option_map (String (octet n)) r.

(** The decoding loop: characters outside the alphabet are skipped, a
    padding sign that completes a quad ends the input, and an incomplete
    quad at the end is an error. *)
Fixpoint a2b_base64 (quad_pos : nat) (leftchar : N) (pads : nat) (s : string)
  : option string :=
  match s with
  | EmptyString => if (quad_pos =? 0)%nat then Some "" else None
  | String c s' =>
      if Ascii.eqb c "="%char then
        if ((2 <=? quad_pos) && (4 <=? quad_pos + (pads + 1)))%nat
        then Some ""
        else a2b_base64 quad_pos leftchar
               (if (2 <=? quad_pos)%nat then pads + 1 else pads)%nat s'
      else
        match b64_value c with
        | None => a2b_base64 quad_pos leftchar pads s'
        | Some v =>
            match quad_pos with
            | 0%nat => a2b_base64 1 v 0 s'
            | 1%nat =>
                push (N.lor (N.shiftl leftchar 2) (N.shiftr v 4))
                     (a2b_base64 2 (N.land v 15) 0 s')
            | 2%nat =>
                push (N.lor (N.shiftl leftchar 4) (N.shiftr v 2))
                     (a2b_base64 3 (N.land v 3) 0 s')
            | _ =>
                push (N.lor (N.shiftl leftchar 6) v) (a2b_base64 0 0 0 s')
            end
        end
  end.

Fixpoint is_ascii (s : string) : bool :=
  match s with
  | EmptyString => true
  | String c s' => (N_of_ascii c <? 128)%N && is_ascii s'
  end.

Definition b64decode_str (s : string) : option bytes :=
  if is_ascii s then a2b_base64 0 0 0 s else None.

Definition decoded (b64 : string) : bytes :=
  match b64decode_str b64 with
  | Some b => b
  | None => ""
  end.

Definition w (local : string) : string := qname WORD_NS "w" local.
Definition s (local : string) : string := qname SHEET_NS "s" local.

(** A Word document with three text runs, one of them a single space. *)
Definition word_b64 : string :=
  "UEsDBBQAAAAAAAAAIQBoLiAzyQAAAMkAAAARAAAAd29yZC9kb2N1bWVudC54bWw8" ++
  "dzpkb2N1bWVudCB4bWxuczp3PSdodHRwOi8vc2NoZW1hcy5vcGVueG1sZm9ybWF0" ++
  "cy5vcmcvd29yZHByb2Nlc3NpbmdtbC8yMDA2L21haW4nPjx3OmJvZHk+PHc6cD48" ++
  "dzpyPjx3OnQ+SGVsbG88L3c6dD48L3c6cj48dzpyPjx3OnQ+IDwvdzp0Pjwvdzpy" ++
  "Pjx3OnI+PHc6dD5Xb3JsZDwvdzp0PjwvdzpyPjwvdzpwPjwvdzpib2R5Pjwvdzpk" ++
  "b2N1bWVudD5QSwECFAMUAAAAAAAAACEAaC4gM8kAAADJAAAAEQAAAAAAAAAAAAAA" ++
  "gAEAAAAAd29yZC9kb2N1bWVudC54bWxQSwUGAAAAAAEAAQA/AAAA+AAAAAAA".

Definition word_document_xml : bytes :=
  "<w:document xmlns:w='http://schemas.openxmlformats.org/wordprocessingml/2006/main'>" ++
  "<w:body><w:p><w:r><w:t>Hello</w:t></w:r><w:r><w:t> </w:t></w:r>" ++
  "<w:r><w:t>World</w:t></w:r></w:p></w:body></w:document>".

Definition word_root : Element :=
  Elem (w "document") [] None
    [Elem (w "body") [] None
       [Elem (w "p") [] None
          [Elem (w "r") [] None [Elem (w "t") [] (Some "Hello") []];
           Elem (w "r") [] None [Elem (w "t") [] (Some " ") []];
           Elem (w "r") [] None [Elem (w "t") [] (Some "World") []]]]].

Definition word_archive : Archive :=
  [{| filename := "word/document.xml"; content := inr word_document_xml |}].

(** A Word archive whose main document is not well-formed XML. *)
Definition badxml_b64 : string :=
  "UEsDBBQAAAAAAAAAIQAI/1FgEQAAABEAAAARAAAAd29yZC9kb2N1bWVudC54bWw8" ++
  "dzpkb2N1bWVudD5IZWxsb1BLAQIUAxQAAAAAAAAAIQAI/1FgEQAAABEAAAARAAAA" ++
  "AAAAAAAAAACAAQAAAAB3b3JkL2RvY3VtZW50LnhtbFBLBQYAAAAAAQABAD8AAABA" ++
  "AAAAAAA=".

Definition badxml_document_xml : bytes := "<w:document>Hello".

Definition badxml_archive : Archive :=
  [{| filename := "word/document.xml";
      content := inr badxml_document_xml |}].

(** A Word archive without text runs and with one more XML member. *)
Definition textless_b64 : string :=
  "UEsDBBQAAAAAAAAAIQCxgsQOaQAAAGkAAAARAAAAd29yZC9kb2N1bWVudC54bWw8" ++
  "dzpkb2N1bWVudCB4bWxuczp3PSdodHRwOi8vc2NoZW1hcy5vcGVueG1sZm9ybWF0" ++
  "cy5vcmcvd29yZHByb2Nlc3NpbmdtbC8yMDA2L21haW4nPjx3OmJvZHkvPjwvdzpk" ++
  "b2N1bWVudD5QSwMEFAAAAAAAAAAhAFqXYDYfAAAAHwAAABIAAABkb2NQcm9wcy9u" ++
  "b3Rlcy54bWw8bm90ZXM+UXVhcnRlcmx5IHJlcG9ydDwvbm90ZXM+UEsBAhQDFAAA" ++
  "AAAAAAAhALGCxA5pAAAAaQAAABEAAAAAAAAAAAAAAIABAAAAAHdvcmQvZG9jdW1l" ++
  "bnQueG1sUEsBAhQDFAAAAAAAAAAhAFqXYDYfAAAAHwAAABIAAAAAAAAAAAAAAIAB" ++
  "mAAAAGRvY1Byb3BzL25vdGVzLnhtbFBLBQYAAAAAAgACAH8AAADnAAAAAAA=".

Definition textless_document_xml : bytes :=
  "<w:document xmlns:w='http://schemas.openxmlformats.org/wordprocessingml/2006/main'>" ++
  "<w:body/></w:document>".

Definition textless_root : Element :=
  Elem (w "document") [] None [Elem (w "body") [] None []].

Definition notes_xml : bytes := "<notes>Quarterly report</notes>".

Definition notes_root : Element :=
  Elem "notes" [] (Some "Quarterly report") [].

Definition textless_archive : Archive :=
  [{| filename := "word/document.xml";
      content := inr textless_document_xml |};
   {| filename := "docProps/notes.xml"; content := inr notes_xml |}].

(** A workbook: shared strings A and B, and one sheet of three rows. *)
Definition excel_b64 : string :=
  "UEsDBBQAAAAAAAAAIQAOugGObwAAAG8AAAAUAAAAeGwvc2hhcmVkU3RyaW5ncy54" ++
  "bWw8c3N0IHhtbG5zPSdodHRwOi8vc2NoZW1hcy5vcGVueG1sZm9ybWF0cy5vcmcv" ++
  "c3ByZWFkc2hlZXRtbC8yMDA2L21haW4nPjxzaT48dD5BPC90Pjwvc2k+PHNpPjx0" ++
  "PkI8L3Q+PC9zaT48L3NzdD5QSwMEFAAAAAAAAAAhAG2Au3MsAQAALAEAABgAAAB4" ++
  "bC93b3Jrc2hlZXRzL3NoZWV0MS54bWw8d29ya3NoZWV0IHhtbG5zPSdodHRwOi8v" ++
  "c2NoZW1hcy5vcGVueG1sZm9ybWF0cy5vcmcvc3ByZWFkc2hlZXRtbC8yMDA2L21h" ++
  "aW4nPjxzaGVldERhdGE+PHJvdz48YyB0PSdzJz48dj4wPC92PjwvYz48YyB0PSdp" ++
  "bmxpbmVTdHInPjxpcz48dD5DPC90PjwvaXM+PC9jPjxjPjx2PjU8L3Y+PC9jPjwv" ++
  "cm93Pjxyb3c+PGMgdD0ncyc+PHY+OTk8L3Y+PC9jPjxjIHQ9J2lubGluZVN0cic+" ++
  "PGlzPjx0Plg8L3Q+PC9pcz48L2M+PC9yb3c+PHJvdz48YyB0PSdzJz48dj43PC92" ++
  "PjwvYz48L3Jvdz48L3NoZWV0RGF0YT48L3dvcmtzaGVldD5QSwECFAMUAAAAAAAA" ++
  "ACEADroBjm8AAABvAAAAFAAAAAAAAAAAAAAAgAEAAAAAeGwvc2hhcmVkU3RyaW5n" ++
  "cy54bWxQSwECFAMUAAAAAAAAACEAbYC7cywBAAAsAQAAGAAAAAAAAAAAAAAAgAGh" ++
  "AAAAeGwvd29ya3NoZWV0cy9zaGVldDEueG1sUEsFBgAAAAACAAIAiAAAAAMCAAAA" ++
  "AA==".

Definition shared_strings_xml : bytes :=
  "<sst xmlns='http://schemas.openxmlformats.org/spreadsheetml/2006/main'>" ++
  "<si><t>A</t></si><si><t>B</t></si></sst>".

Definition shared_strings_root : Element :=
  Elem (s "sst") [] None
    [Elem (s "si") [] None [Elem (s "t") [] (Some "A") []];
     Elem (s "si") [] None [Elem (s "t") [] (Some "B") []]].

Definition sheet1_xml : bytes :=
  "<worksheet xmlns='http://schemas.openxmlformats.org/spreadsheetml/2006/main'>" ++
  "<sheetData><row><c t='s'><v>0</v></c><c t='inlineStr'><is><t>C</t></is>" ++
  "</c><c><v>5</v></c></row><row><c t='s'><v>99</v></c><c t='inlineStr'>" ++
  "<is><t>X</t></is></c></row><row><c t='s'><v>7</v></c></row></sheetData>" ++
  "</worksheet>".

Definition shared_cell (index : string) : Element :=
  Elem (s "c") [("t", "s")] None [Elem (s "v") [] (Some index) []].

Definition inline_cell (value : string) : Element :=
  Elem (s "c") [("t", "inlineStr")] None
    [Elem (s "is") [] None [Elem (s "t") [] (Some value) []]].

Definition plain_cell (value : string) : Element :=
  Elem (s "c") [] None [Elem (s "v") [] (Some value) []].

(** An inline string in two runs, in a cell that has a value node too. *)
Definition rich_inline : Element :=
  Elem (s "is") [] None
    [Elem (s "r") [] None [Elem (s "t") [] (Some "In") []];
     Elem (s "r") [] None [Elem (s "t") [] (Some "line") []]].

Definition rich_cell : Element :=
  Elem (s "c") [("t", "inlineStr")] None
    [rich_inline; Elem (s "v") [] (Some "5") []].

Definition row_of (cells : list Element) : Element :=
  Elem (s "row") [] None cells.

Definition sheet1_root : Element :=
  Elem (s "worksheet") [] None
    [Elem (s "sheetData") [] None
       [row_of [shared_cell "0"; inline_cell "C"; plain_cell "5"];
        row_of [shared_cell "99"; inline_cell "X"];
        row_of [shared_cell "7"]]].

Definition excel_archive : Archive :=
  [{| filename := "xl/sharedStrings.xml";
      content := inr shared_strings_xml |};
   {| filename := "xl/worksheets/sheet1.xml"; content := inr sheet1_xml |}].

(** The JSON text that denotes a request. *)
Definition json_field (key value : string) : string :=
  dquote ++ key ++ dquote ++ ": " ++ dquote ++ value ++ dquote.

Definition request_text (base64 name mime : string) : string :=
  "{" ++ json_field "base64" base64 ++ ", " ++ json_field "name" name
  ++ ", " ++ json_field "mime" mime ++ "}".

Definition nbsp : string := String (ascii_of_nat 160) "".

Definition requests : list (string * string * string) :=
  [(word_b64, "report.docx", "");
   (data_uri "application/msword" word_b64, "report.docx", "");
   (data_uri "a,b" word_b64, "report.docx", "");
   (nbsp ++ word_b64, "report.docx", "");
   (data_uri "application/msword" (nbsp ++ word_b64), "report.docx", "");
   ("data:a," ++ word_b64, "report.docx", "");
   (data_uri "application/msword" ("data:a," ++ word_b64), "report.docx", "");
   (badxml_b64, "broken.docx", "");
   (textless_b64, "empty.docx", "");
   (excel_b64, "book.xlsx", "");
   (word_b64, "notes.txt", "text/plain");
   ("", "report.docx", "")].

Definition json_table : list (string * pyval) :=
  (map (fun r => match r with
                 | (b, n, m) => (request_text b n m, request b n m)
                 end) requests
   ++ [("[]", PList []); ("{}", PDict [])])%list.

Definition zip_table : list (bytes * Archive) :=
  [(decoded word_b64, word_archive);
   (decoded badxml_b64, badxml_archive);
   (decoded textless_b64, textless_archive);
   (decoded excel_b64, excel_archive)].

Definition xml_table : list (bytes * Element) :=
  [(word_document_xml, word_root);
   (textless_document_xml, textless_root);
   (notes_xml, notes_root);
   (shared_strings_xml, shared_strings_root);
   (sheet1_xml, sheet1_root)].

(** UTF-8 decoding of octets below 128; the members above hold no other. *)
Fixpoint decode_ascii (b : bytes) : string :=
  match b with
  | EmptyString => EmptyString
  | String c b' =>
      if (N_of_ascii c <? 128)%N then String c (decode_ascii b')
      else decode_ascii b'
  end.

Definition lib : Lib :=
  {| json_loads := fun text => assoc text json_table;
     b64decode := b64decode_str;
     ZipFile := fun buff => assoc buff zip_table;
     ZipFile_error := fun _ => BadZipFile;
     fromstring := fun data => assoc data xml_table;
     fromstring_error := fun _ => ParseError;
     decode_ignore := decode_ascii |}.

End Fixture.

(** ** The criteria of the classifier *)

(** The two families as the specification words them: the file name is
    compared without regard to case, the MIME string is searched as it
    stands. *)
Definition word_family_as_specified (name mime : string) : bool :=
  Py.endswith (Py.lower name) ".docx"
  || Py.endswith (Py.lower name) ".doc"
  || Py.contains "wordprocessingml" mime.

Definition spreadsheet_family_as_specified (name mime : string) : bool :=
  Py.endswith (Py.lower name) ".xlsx"
  || Py.endswith (Py.lower name) ".xls"
  || Py.contains "spreadsheetml" mime.

(** The two families with the MIME string compared without regard to case
    as well. *)
Definition word_family (name mime : string) : bool :=
  Py.endswith (Py.lower name) ".docx"
  || Py.endswith (Py.lower name) ".doc"
  || Py.contains "wordprocessingml" (Py.lower mime).

Definition spreadsheet_family (name mime : string) : bool :=
  Py.endswith (Py.lower name) ".xlsx"
  || Py.endswith (Py.lower name) ".xls"
  || Py.contains "spreadsheetml" (Py.lower mime).

(** ** Cells *)

(** The test of line 54. *)
Definition is_shared_string_cell (cell : Element) : bool :=
  match assoc "t" (attrib cell) with
  | Some t => String.eqb t "s"
  | None => false
  end.


(** ** Rows and worksheets, as the specification words them *)

(** The text of one row: the resolved values of its cells are trimmed,
    the empty ones are skipped, the others are joined with one space. *)
Definition row_text (shared_strings : list string) (row : Element) : string :=
  Py.join " "
    (filter Py.nonempty
       (map (fun cell => Py.strip (or_empty (_cell_value cell shared_strings)))
          (findall row (qname SHEET_NS "s" "c")))).

(** The rows of a worksheet, in document order. *)
Definition sheet_rows (root : Element) : list Element :=
  findall_below root (qname SHEET_NS "s" "row").

(** A member under the worksheets directory whose name ends in [.xml]. *)
Definition is_worksheet_name (name : string) : bool :=
  Py.startswith name "xl/worksheets/" && Py.endswith name ".xml".

(** The text of a workbook: the texts of the rows of its worksheets, the
    empty ones dropped, one per line. *)
Definition workbook_text (shared_strings : list string)
  (sheets : list Element) : string :=
  Py.join nl
    (filter Py.nonempty
       (map (row_text shared_strings) (flat_map sheet_rows sheets))).

(** ** Requests *)

(** [payload.get(key)] on the dictionary [d]. *)
Definition field (d : list (string * pyval)) (key : string) : pyval :=
  match assoc key d with
  | Some v => v
  | None => PNone
  end.

(** A field that is absent, null or a string. *)
Definition is_text (v : pyval) : bool :=
  match v with
  | PNone | PStr _ => true
  | _ => false
  end.

Definition text_of (v : pyval) : string :=
  match v with
  | PStr s => s
  | _ => ""
  end.

(** An input object: a dictionary whose recognised fields, where present,
    are strings. *)
Definition string_fields (payload : pyval) : Prop :=
  match payload with
  | PDict d =>
      is_text (field d "base64") = true /\ is_text (field d "data") = true
      /\ is_text (field d "name") = true /\ is_text (field d "mime") = true
  | _ => False
  end.

(** The payload string of an input object: [base64], or else [data]. *)
Definition payload_text (d : list (string * pyval)) : string :=
  if truthy (field d "base64") then text_of (field d "base64")
  else text_of (field d "data").

(** [_normalise_base64_payload] on a [str]. *)
Definition normalise (text : string) : string :=
  if Py.is_empty text then ""
  else
    let trimmed := Py.strip text in
    if negb (Py.startswith trimmed "data:") then trimmed
    else
      let comma := Py.find trimmed "," in
      if (comma =? -1)%Z then trimmed else Py.slice_from (comma + 1) trimmed.

(** [detect_kind] on two [str]. *)
Definition kind_of (name mime : string) : string :=
  if word_family name mime then "word"
  else if spreadsheet_family name mime then "excel" else "".

(** The structured extractor of a kind, as line 168 selects it. *)
Definition structured (L : Lib) (kind : string) (raw : bytes) : M string :=
  if String.eqb kind "word" then extract_word_text L raw
  else extract_excel_text L raw.

Definition extractor_of (kind : string) : extractor :=
  if String.eqb kind "word" then Word else Excel.

(** The text an extractor leaves when run under
    [try: ... except Exception: text = ""]. *)
Definition text_or_blank (m : M string) : string :=
  match outcome m with
  | inr t => t
  | inl _ => ""
  end.

(** Empty or made of white space only. *)
Definition blank (s : string) : bool := Py.is_empty (Py.strip s).

(** [main] on an input object with the payload, name and MIME strings
    given. *)
Definition serve (L : Lib) (payload name mime : string) : M unit :=
  let p := normalise payload in
  if Py.is_empty p then dump_text ""
  else
    let kind := kind_of name mime in
    if Py.is_empty kind then dump_text ""
    else
      emit (Ev_b64decode p) ;;;
      match b64decode L p with
      | None => dump_text ""
      | Some raw => run_extractors L kind raw
      end.

(** The extractors entered, in order, with the bytes they were given. *)
Fixpoint entered (l : list event) : list (extractor * bytes) :=
  match l with
  | [] => []
  | Ev_enter f b :: l' => (f, b) :: entered l'
  | _ :: l' => entered l'
  end.

Definition is_parse_event (ev : event) : bool :=
  match ev with
  | Ev_fromstring _ => true
  | _ => false
  end.

(** A log of XML parsing alone. *)
Definition parses (l : list event) : Prop := forallb is_parse_event l = true.

(** The text [run_extractors] writes: the structured text, or the fallback
    text when the structured one is blank. *)
Definition final_text (L : Lib) (kind : string) (raw : bytes) : string :=
  let t := text_or_blank (structured L kind raw) in
  if blank t then text_or_blank (extract_fallback_xml_text L raw) else t.

(** ** Members of an archive *)

(** The bytes of the member a name denotes, when it is there and can be
    read. *)
Definition member (a : Archive) (name : string) : option bytes :=
  match getinfo a name with
  | Some zi =>
      match content zi with
      | inr data => Some data
      | inl _ => None
      end
  | None => None
  end.

(** The texts of the text runs of a Word document, in document order. *)
Definition text_runs (root : Element) : list string :=
  map text_or_empty (findall_below root (qname WORD_NS "w" "t")).

(** The member [name] of [a] can be read and parses to [root]. *)
Definition sheet_parsed (L : Lib) (a : Archive) (name : string)
  (root : Element) : Prop :=
  exists data, member a name = Some data /\ fromstring L data = Some root.

(** ** Payloads *)

(** The first character of a string is white space. *)
Definition leading_space (s : string) : bool :=
  match s with
  | String c _ => Py.isspace c
  | EmptyString => false
  end.

(** The single-character string. *)
Definition char (c : ascii) : string := String c EmptyString.

(** ** The fallback, as the specification words it *)

(** A member whose name ends in [.xml], whatever the case. *)
Definition is_xml_name (name : string) : bool :=
  Py.endswith (Py.lower name) ".xml".


(** The exception that ends the reading of the members named, in their
    order: the first one raised that is no [KeyError]. *)
Fixpoint first_read_error (a : Archive) (names : list string) : option exn :=
  match names with
  | [] => None
  | name :: names' =>
      match getinfo a name with
      | Some zi =>
          match content zi with
          | inl e =>
              if is_KeyError e then first_read_error a names' else Some e
          | inr _ => first_read_error a names'
          end
      | None => first_read_error a names'
      end
  end.

(** The five entity escapes, each with the character it stands for. *)
Definition entities : list (string * string) :=
  [("&quot;", dquote); ("&apos;", "'"); ("&lt;", "<"); ("&gt;", ">");
   ("&amp;", "&")].

(** The entity escape a text begins with, if it begins with one. *)
Definition entity_at (s : string) : option (string * string) :=
  List.find (fun e => prefix (fst e) s) entities.

(** The entity escapes decoded in one pass from the left: what an escape
    leaves is not read again.  [skip] counts the characters of an escape
    still to be passed over. *)
Fixpoint unescape_from (skip : nat) (s : string) : string :=
  match s with
  | EmptyString => EmptyString
  | String c s' =>
      match skip with
      | S k => unescape_from k s'
      | O =>
          match entity_at s with
          | Some (escape, character) =>
              character ++ unescape_from (String.length escape - 1) s'
          | None => String c (unescape_from 0 s')
          end
      end
  end.

Definition unescape (s : string) : string := unescape_from 0 s.

(** What one character becomes when tags are set apart: a carriage
    return, a newline and a tab become a space, [<] gets a space before
    it and [>] a space after it. *)
Definition set_apart_char (c : ascii) : string :=
  let n := nat_of_ascii c in
  if ((n =? 13) || (n =? 10) || (n =? 9))%nat then " "
  else if (n =? 60)%nat then " <"
  else if (n =? 62)%nat then "> "
  else String c EmptyString.

Fixpoint set_apart (s : string) : string :=
  match s with
  | EmptyString => EmptyString
  | String c s' => set_apart_char c ++ set_apart s'
  end.

(** The text begins with a character that is not white space. *)
Definition begins_word (s : string) : bool :=
  match s with
  | String c _ => negb (Py.isspace c)
  | EmptyString => false
  end.

(** The words of a text: its maximal runs of characters that are not
    white space.  A character that is not white space begins a word of its
    own before white space and at the end of the text, and else joins the
    word that follows it. *)
Fixpoint words (s : string) : list string :=
  match s with
  | EmptyString => []
  | String c s' =>
      if Py.isspace c then words s'
      else
        match words s' with
        | w :: ws =>
            if begins_word s' then String c w :: ws
            else String c EmptyString :: w :: ws
        | [] => [String c EmptyString]
        end
  end.

(** The flattened text: entities decoded, tags set apart, and the words
    joined by single spaces. *)
Definition flatten (text : string) : string :=
  Py.join " " (words (set_apart (unescape text))).

(** The flattened text of a member. *)
Definition flatten_member (L : Lib) (data : bytes) : string :=
  flatten (decode_ignore L data).

(** The lines of the fallback: the non-empty flattened texts of the XML
    members, in the order of the archive. *)
Definition fallback_lines (L : Lib) (a : Archive) : list string :=
  filter Py.nonempty
    (flat_map (fun name =>
                 match member a name with
                 | Some data => [flatten_member L data]
                 | None => []
                 end)
       (filter is_xml_name (namelist a))).

(** Some character of the string is not white space. *)
Fixpoint has_nonspace (s : string) : bool :=
  match s with
  | EmptyString => false
  | String c s' => negb (Py.isspace c) || has_nonspace s'
  end.

(** ** Documents as trees *)

(** [below root e]: the element [e] lies below [root], at any depth. *)
Inductive below (root : Element) : Element -> Prop :=
| below_child (e : Element) :
    In e (children root) -> below root e
| below_deeper (c e : Element) :
    In c (children root) -> below c e -> below root e.

(** Induction on a document, with the property known of all children. *)
Fixpoint Element_tree_ind (P : Element -> Prop)
  (step : forall t a x cs, Forall P cs -> P (Elem t a x cs))
  (e : Element) : P e :=
  match e with
  | Elem t a x cs =>
      step t a x cs
        ((fix all (l : list Element) : Forall P l :=
            match l with
            | [] => Forall_nil P
            | c :: l' => Forall_cons c (Element_tree_ind P step c) (all l')
            end) cs)
  end.

(** A computation that raises whenever one of the XML texts it parsed was
    rejected by the parser. *)
Definition stops_at_bad_xml {A} (L : Lib) (m : M A) : Prop :=
  forall data,
    In (Ev_fromstring data) (trace m) ->
    fromstring L data = None ->
    exists e, outcome m = inl e.

(** ** Further notions *)

(** No character of the string is white space. *)
Fixpoint no_space (s : string) : bool :=
  match s with
  | EmptyString => true
  | String c s' => negb (Py.isspace c) && no_space s'
  end.

(** A token of [split]: not empty, and free of white space. *)
Definition is_token (s : string) : Prop :=
  Py.nonempty s = true /\ no_space s = true.

(** A trimmed cell value that is not empty: it begins with a character
    that is not white space and has nothing to trim on the right. *)
Definition is_trimmed_cell (c : string) : Prop :=
  (exists h r, c = String h r /\ Py.isspace h = false) /\ Py.rstrip c = c.

(** ** More inputs for the examples

    [Sample.lib] extends [Fixture.lib] with six more archives: a workbook
    whose worksheet is not well-formed, a workbook whose shared strings are
    not well-formed, a workbook whose shared strings declare an encoding
    that does not exist, an archive without a main document, a Word
    archive one member of which fails its CRC check when read, and a Word
    archive whose main document is a corrupt deflate stream; and with input
    objects that lack fields or hold numbers in them. *)

Module Sample.

Local Open Scope string_scope.

Definition badsheet_b64 : string :=
  "UEsDBBQAAAAAAAAAIQAOugGObwAAAG8AAAAUAAAAeGwvc2hhcmVkU3RyaW5ncy54" ++
  "bWw8c3N0IHhtbG5zPSdodHRwOi8vc2NoZW1hcy5vcGVueG1sZm9ybWF0cy5vcmcv" ++
  "c3ByZWFkc2hlZXRtbC8yMDA2L21haW4nPjxzaT48dD5BPC90Pjwvc2k+PHNpPjx0" ++
  "PkI8L3Q+PC9zaT48L3NzdD5QSwMEFAAAAAAAAAAhALO8CEgbAAAAGwAAABgAAAB4" ++
  "bC93b3Jrc2hlZXRzL3NoZWV0MS54bWw8d29ya3NoZWV0PjxzaGVldERhdGE+PHJv" ++
  "dz5QSwECFAMUAAAAAAAAACEADroBjm8AAABvAAAAFAAAAAAAAAAAAAAAgAEAAAAA" ++
  "eGwvc2hhcmVkU3RyaW5ncy54bWxQSwECFAMUAAAAAAAAACEAs7wISBsAAAAbAAAA" ++
  "GAAAAAAAAAAAAAAAgAGhAAAAeGwvd29ya3NoZWV0cy9zaGVldDEueG1sUEsFBgAA" ++
  "AAACAAIAiAAAAPIAAAAAAA==".

Definition badsheet_xml : bytes := "<worksheet><sheetData><row>".

Definition badsheet_archive : Archive :=
  [{| filename := "xl/sharedStrings.xml";
      content := inr Fixture.shared_strings_xml |};
   {| filename := "xl/worksheets/sheet1.xml"; content := inr badsheet_xml |}].

Definition badshared_b64 : string :=
  "UEsDBBQAAAAAAAAAIQC42vwHBQAAAAUAAAAUAAAAeGwvc2hhcmVkU3RyaW5ncy54" ++
  "bWw8c3N0PlBLAwQUAAAAAAAAACEAE2o6fKEAAAChAAAAGAAAAHhsL3dvcmtzaGVl" ++
  "dHMvc2hlZXQxLnhtbDx3b3Jrc2hlZXQgeG1sbnM9J2h0dHA6Ly9zY2hlbWFzLm9w" ++
  "ZW54bWxmb3JtYXRzLm9yZy9zcHJlYWRzaGVldG1sLzIwMDYvbWFpbic+PHNoZWV0" ++
  "RGF0YT48cm93PjxjIHQ9J2lubGluZVN0cic+PGlzPjx0Plg8L3Q+PC9pcz48L2M+" ++
  "PC9yb3c+PC9zaGVldERhdGE+PC93b3Jrc2hlZXQ+UEsBAhQDFAAAAAAAAAAhALja" ++
  "/AcFAAAABQAAABQAAAAAAAAAAAAAAIABAAAAAHhsL3NoYXJlZFN0cmluZ3MueG1s" ++
  "UEsBAhQDFAAAAAAAAAAhABNqOnyhAAAAoQAAABgAAAAAAAAAAAAAAIABNwAAAHhs" ++
  "L3dvcmtzaGVldHMvc2hlZXQxLnhtbFBLBQYAAAAAAgACAIgAAAAOAQAAAAA=".

Definition badshared_xml : bytes := "<sst>".

Definition inline_sheet_xml : bytes :=
  "<worksheet xmlns='http://schemas.openxmlformats.org/spreadsheetml/2006/main'>" ++
  "<sheetData><row><c t='inlineStr'><is><t>X</t></is></c></row></sheetData>" ++
  "</worksheet>".

Definition inline_sheet_root : Element :=
  Elem (Fixture.s "worksheet") [] None
    [Elem (Fixture.s "sheetData") [] None
       [Fixture.row_of [Fixture.inline_cell "X"]]].

Definition badshared_archive : Archive :=
  [{| filename := "xl/sharedStrings.xml"; content := inr badshared_xml |};
   {| filename := "xl/worksheets/sheet1.xml";
      content := inr inline_sheet_xml |}].

Definition loose_b64 : string :=
  "UEsDBBQAAAAAAAAAIQDqr/gBEwAAABMAAAAIAAAAREFUQS5YTUw8YT5oaSAmYW1w" ++
  "OyBieWU8L2E+UEsDBBQAAAAAAAAAIQC4DwtECgAAAAoAAAAKAAAAcmVhZG1lLnR4" ++
  "dHBsYWluIHRleHRQSwECFAMUAAAAAAAAACEA6q/4ARMAAAATAAAACAAAAAAAAAAA" ++
  "AAAAgAEAAAAAREFUQS5YTUxQSwECFAMUAAAAAAAAACEAuA8LRAoAAAAKAAAACgAA" ++
  "AAAAAAAAAAAAgAE5AAAAcmVhZG1lLnR4dFBLBQYAAAAAAgACAG4AAABrAAAAAAA=".

Definition loose_xml : bytes := "<a>hi &amp; bye</a>".

Definition loose_archive : Archive :=
  [{| filename := "DATA.XML"; content := inr loose_xml |};
   {| filename := "readme.txt"; content := inr "plain text" |}].

Definition badcrc_b64 : string :=
  "UEsDBBQAAAAAAAAAIQCxgsQOaQAAAGkAAAARAAAAd29yZC9kb2N1bWVudC54bWw8" ++
  "dzpkb2N1bWVudCB4bWxuczp3PSdodHRwOi8vc2NoZW1hcy5vcGVueG1sZm9ybWF0" ++
  "cy5vcmcvd29yZHByb2Nlc3NpbmdtbC8yMDA2L21haW4nPjx3OmJvZHkvPjwvdzpk" ++
  "b2N1bWVudD5QSwMEFAAAAAAAAAAhAFqXYDYfAAAAHwAAABIAAABkb2NQcm9wcy9u" ++
  "b3Rlcy54bWw8bm90ZXM+cXVhcnRlcmx5IHJlcG9ydDwvbm90ZXM+UEsBAhQDFAAA" ++
  "AAAAAAAhALGCxA5pAAAAaQAAABEAAAAAAAAAAAAAAIABAAAAAHdvcmQvZG9jdW1l" ++
  "bnQueG1sUEsBAhQDFAAAAAAAAAAhAFqXYDYfAAAAHwAAABIAAAAAAAAAAAAAAIAB" ++
  "mAAAAGRvY1Byb3BzL25vdGVzLnhtbFBLBQYAAAAAAgACAH8AAADnAAAAAAA=".

Definition badcrc_archive : Archive :=
  [{| filename := "word/document.xml";
      content := inr Fixture.textless_document_xml |};
   {| filename := "docProps/notes.xml"; content := inl BadZipFile |}].

Definition oddenc_b64 : string :=
  "UEsDBBQAAAAAAAAAIQAvrs8OKgAAACoAAAAUAAAAeGwvc2hhcmVkU3RyaW5ncy54" ++
  "bWw8P3htbCB2ZXJzaW9uPScxLjAnIGVuY29kaW5nPSdmb28nPz48c3N0Lz5QSwME" ++
  "FAAAAAAAAAAhABNqOnyhAAAAoQAAABgAAAB4bC93b3Jrc2hlZXRzL3NoZWV0MS54" ++
  "bWw8d29ya3NoZWV0IHhtbG5zPSdodHRwOi8vc2NoZW1hcy5vcGVueG1sZm9ybWF0" ++
  "cy5vcmcvc3ByZWFkc2hlZXRtbC8yMDA2L21haW4nPjxzaGVldERhdGE+PHJvdz48" ++
  "YyB0PSdpbmxpbmVTdHInPjxpcz48dD5YPC90PjwvaXM+PC9jPjwvcm93Pjwvc2hl" ++
  "ZXREYXRhPjwvd29ya3NoZWV0PlBLAQIUAxQAAAAAAAAAIQAvrs8OKgAAACoAAAAU" ++
  "AAAAAAAAAAAAAACAAQAAAAB4bC9zaGFyZWRTdHJpbmdzLnhtbFBLAQIUAxQAAAAA" ++
  "AAAAIQATajp8oQAAAKEAAAAYAAAAAAAAAAAAAACAAVwAAAB4bC93b3Jrc2hlZXRz" ++
  "L3NoZWV0MS54bWxQSwUGAAAAAAIAAgCIAAAAMwEAAAAA".

Definition oddenc_xml : bytes := "<?xml version='1.0' encoding='foo'?><sst/>".

Definition oddenc_archive : Archive :=
  [{| filename := "xl/sharedStrings.xml"; content := inr oddenc_xml |};
   {| filename := "xl/worksheets/sheet1.xml";
      content := inr inline_sheet_xml |}].

Definition deflate_b64 : string :=
  "UEsDBBQAAAAIAAAAIQBxL3zccgAAAJcAAAARAAAAd29yZC9kb2N1bWVudC54bWz/" ++
  "//////8MBdCrsHXDFQNDFDJzjZCYtlJsR3ZQ4PY0ZWB535b/YN9dlvQi5HZ6U2Fz" ++
  "/TatrVUHYGlFinaWirzfnqIU277qAl00V5WEZhsvVOAyz1eguPEUfHcPyZ+RdaCD" ++
  "Fu5YingY41AP6+GvDv9XwhdQSwMEFAAAAAAAAAAhAFqXYDYfAAAAHwAAABIAAABk" ++
  "b2NQcm9wcy9ub3Rlcy54bWw8bm90ZXM+UXVhcnRlcmx5IHJlcG9ydDwvbm90ZXM+" ++
  "UEsBAhQDFAAAAAgAAAAhAHEvfNxyAAAAlwAAABEAAAAAAAAAAAAAAIABAAAAAHdv" ++
  "cmQvZG9jdW1lbnQueG1sUEsBAhQDFAAAAAAAAAAhAFqXYDYfAAAAHwAAABIAAAAA" ++
  "AAAAAAAAAIABoQAAAGRvY1Byb3BzL25vdGVzLnhtbFBLBQYAAAAAAgACAH8AAADw" ++
  "AAAAAAA=".

Definition deflate_archive : Archive :=
  [{| filename := "word/document.xml"; content := inl ZlibError |};
   {| filename := "docProps/notes.xml"; content := inr Fixture.notes_xml |}].

Definition json_str (s : string) : string := dquote ++ s ++ dquote.

Definition json_pair (key literal : string) : string :=
  json_str key ++ ": " ++ literal.

(** [{"base64": 5}] *)
Definition number_payload_text : string :=
  "{" ++ json_pair "base64" "5" ++ "}".

(** A number under [base64], with a name and a MIME string of no kind. *)
Definition number_payload_notes_text : string :=
  "{" ++ json_pair "base64" "5" ++ ", "
  ++ json_pair "name" (json_str "notes.txt") ++ ", "
  ++ json_pair "mime" (json_str "text/plain") ++ "}".

(** An object with [data] and [name] only. *)
Definition data_only_text : string :=
  "{" ++ json_pair "data" (json_str Fixture.word_b64) ++ ", "
  ++ json_pair "name" (json_str "report.docx") ++ "}".

(** An object with [base64], and a number under [data]. *)
Definition both_keys_text : string :=
  "{" ++ json_pair "base64" (json_str Fixture.word_b64) ++ ", "
  ++ json_pair "data" "7" ++ ", "
  ++ json_pair "name" (json_str "report.docx") ++ "}".

(** A blank payload and a number under [name]. *)
Definition blank_payload_text : string :=
  "{" ++ json_pair "base64" (json_str "  ") ++ ", "
  ++ json_pair "name" "5" ++ "}".

(** A payload and a number under [name]. *)
Definition number_name_text : string :=
  "{" ++ json_pair "base64" (json_str Fixture.word_b64) ++ ", "
  ++ json_pair "name" "5" ++ "}".

(** A Word file name and a number under [mime]. *)
Definition number_mime_text : string :=
  "{" ++ json_pair "base64" (json_str Fixture.word_b64) ++ ", "
  ++ json_pair "name" (json_str "report.docx") ++ ", "
  ++ json_pair "mime" "5" ++ "}".

Definition json_table : list (string * pyval) :=
  [(number_payload_text, PDict [("base64", PInt 5)]);
   (number_payload_notes_text,
    PDict [("base64", PInt 5); ("name", PStr "notes.txt");
           ("mime", PStr "text/plain")]);
   (data_only_text,
    PDict [("data", PStr Fixture.word_b64); ("name", PStr "report.docx")]);
   (both_keys_text,
    PDict [("base64", PStr Fixture.word_b64); ("data", PInt 7);
           ("name", PStr "report.docx")]);
   (blank_payload_text, PDict [("base64", PStr "  "); ("name", PInt 5)]);
   (number_name_text,
    PDict [("base64", PStr Fixture.word_b64); ("name", PInt 5)]);
   (number_mime_text,
    PDict [("base64", PStr Fixture.word_b64); ("name", PStr "report.docx");
           ("mime", PInt 5)]);
   (Fixture.request_text badsheet_b64 "book.xlsx" "",
    request badsheet_b64 "book.xlsx" "");
   (Fixture.request_text badcrc_b64 "empty.docx" "",
    request badcrc_b64 "empty.docx" "");
   (Fixture.request_text loose_b64 "letter.docx" "",
    request loose_b64 "letter.docx" "");
   (Fixture.request_text deflate_b64 "report.docx" "",
    request deflate_b64 "report.docx" "")].

Definition zip_table : list (bytes * Archive) :=
  [(Fixture.decoded badsheet_b64, badsheet_archive);
   (Fixture.decoded badshared_b64, badshared_archive);
   (Fixture.decoded loose_b64, loose_archive);
   (Fixture.decoded badcrc_b64, badcrc_archive);
   (Fixture.decoded oddenc_b64, oddenc_archive);
   (Fixture.decoded deflate_b64, deflate_archive)].

Definition xml_table : list (bytes * Element) :=
  [(inline_sheet_xml, inline_sheet_root);
   (loose_xml, Elem "a" [] (Some "hi & bye") [])].

Definition lib : Lib :=
  {| json_loads := fun text =>
       match assoc text json_table with
       | Some v => Some v
       | None => json_loads Fixture.lib text
       end;
     b64decode := Fixture.b64decode_str;
     ZipFile := fun buff =>
       match assoc buff zip_table with
       | Some a => Some a
       | None => ZipFile Fixture.lib buff
       end;
     ZipFile_error := ZipFile_error Fixture.lib;
     fromstring := fun data =>
       match assoc data xml_table with
       | Some root => Some root
       | None => fromstring Fixture.lib data
       end;
     fromstring_error := fun data =>
       if String.eqb data oddenc_xml then LookupError else ParseError;
     decode_ignore := Fixture.decode_ascii |}.

End Sample.
(** * Properties *)

(** ** The monad *)

Lemma bind_ret_l {A B} (a : A) (k : A -> M B) : bind (ret a) k = k a.
Proof. unfold bind, ret. destruct (k a); reflexivity. Qed.

Lemma bind_raise_l {A B} (e : exn) (k : A -> M B) : bind (raise e) k = raise e.
Proof. reflexivity. Qed.

Lemma bind_ok {A B} (l : list event) (a : A) (k : A -> M B) :
  bind (l, inr a) k = (l ++ trace (k a), outcome (k a)).
Proof. unfold bind, trace, outcome. destruct (k a); reflexivity. Qed.

Lemma bind_err {A B} (l : list event) (e : exn) (k : A -> M B) :
  bind (l, inl e) k = (l, inl e).
Proof. reflexivity. Qed.

Lemma M_eta {A} (m : M A) : m = (trace m, outcome m).
Proof. destruct m; reflexivity. Qed.

(** ** Classification *)

Lemma py_lower_or_empty (s : string) :
  py_lower (or_empty_str (PStr s)) = ret (Py.lower s).
Proof. destruct s; reflexivity. Qed.

Lemma detect_kind_str (name mime : string) :
  detect_kind (PStr name) (PStr mime) =
  ret (if word_family name mime then "word"
       else if spreadsheet_family name mime then "excel" else "").
Proof.
  unfold detect_kind, word_family, spreadsheet_family.
  rewrite !py_lower_or_empty, bind_ret_l.
  destruct (Py.endswith (Py.lower name) ".docx"); [reflexivity|].
  destruct (Py.endswith (Py.lower name) ".doc"); [reflexivity|].
  rewrite !bind_ret_l. cbn [orb].
  destruct (Py.contains "wordprocessingml" (Py.lower mime)); [reflexivity|].
  destruct (Py.endswith (Py.lower name) ".xlsx"); [reflexivity|].
  destruct (Py.endswith (Py.lower name) ".xls"); [reflexivity|].
  rewrite !bind_ret_l. cbn [orb].
  destruct (Py.contains "spreadsheetml" (Py.lower mime)); reflexivity.
Qed.

(** C7, as stated, fails: a MIME string that spells the word-processing
    markup name in capitals meets neither criterion as the specification
    words them, and yet the classifier answers "word". *)
Lemma detect_kind_mime_case_counterexample :
  let name := "report" in
  let mime :=
    "application/vnd.openxmlformats-officedocument.WORDPROCESSINGML.document"
  in
  word_family_as_specified name mime = false
  /\ spreadsheet_family_as_specified name mime = false
  /\ detect_kind (PStr name) (PStr mime) = ret "word".
Proof. vm_compute. repeat split; reflexivity. Qed.

(** C7 (amended): with both the file name and the MIME string compared
    without regard to case, a pair that meets the word criterion and the
    spreadsheet criterion is classified "word", and a pair that meets
    neither is classified "" (unknown). *)
Theorem detect_kind_word_first (name mime : string) :
  (word_family name mime = true ->
   spreadsheet_family name mime = true ->
   detect_kind (PStr name) (PStr mime) = ret "word")
  /\ (word_family name mime = false ->
      spreadsheet_family name mime = false ->
      detect_kind (PStr name) (PStr mime) = ret "").
Proof.
  rewrite detect_kind_str. split; intros Hw Hs; rewrite Hw; [reflexivity|].
  rewrite Hs; reflexivity.
Qed.

Lemma detect_kind_word_first_witness :
  detect_kind (PStr "Budget.XLSX")
    (PStr "application/vnd.openxmlformats-officedocument.wordprocessingml.document")
  = ret "word"
  /\ detect_kind (PStr "notes.txt") (PStr "text/plain") = ret "".
Proof.
  split.
  - apply (proj1 (detect_kind_word_first "Budget.XLSX"
      "application/vnd.openxmlformats-officedocument.wordprocessingml.document"));
      vm_compute; reflexivity.
  - apply (proj2 (detect_kind_word_first "notes.txt" "text/plain"));
      vm_compute; reflexivity.
Defined.

(** The classifier tests the word family whatever the spreadsheet tests
    would say. *)
Lemma detect_kind_word (name mime : string) :
  word_family name mime = true ->
  detect_kind (PStr name) (PStr mime) = ret "word".
Proof. intros H. rewrite detect_kind_str, H. reflexivity. Qed.

Lemma detect_kind_excel (name mime : string) :
  word_family name mime = false ->
  spreadsheet_family name mime = true ->
  detect_kind (PStr name) (PStr mime) = ret "excel".
Proof. intros Hw Hs. rewrite detect_kind_str, Hw, Hs. reflexivity. Qed.

(** ** Cells *)

Lemma is_shared_string_cell_true (cell : Element) :
  assoc "t" (attrib cell) = Some "s" -> is_shared_string_cell cell = true.
Proof. unfold is_shared_string_cell. intros ->. reflexivity. Qed.

Lemma is_shared_string_cell_false (cell : Element) :
  assoc "t" (attrib cell) <> Some "s" -> is_shared_string_cell cell = false.
Proof.
  unfold is_shared_string_cell. intros H.
  destruct (assoc "t" (attrib cell)) as [t|]; [|reflexivity].
  destruct (String.eqb_spec t "s") as [->|]; [contradiction|reflexivity].
Qed.

(** Concatenation with no separator is joining on the empty string. *)
Lemma join_empty_sep (parts : list string) :
  Py.join "" parts = fold_right String.append "" parts.
Proof.
  induction parts as [|x [|y parts] IH]; [reflexivity| |].
  - cbn. clear IH. induction x; cbn; congruence.
  - change (Py.join "" (x :: y :: parts)) with (x ++ "" ++ Py.join "" (y :: parts))%string.
    rewrite IH. reflexivity.
Qed.

(** ** Rows *)

Lemma append_row_spec (shared_strings rows : list string) (row : Element) :
  append_row shared_strings rows row =
  if Py.nonempty (row_text shared_strings row)
  then rows ++ [row_text shared_strings row] else rows.
Proof. reflexivity. Qed.

(** The loop over the rows of a worksheet appends, in order, the
    non-empty row texts. *)
Lemma fold_append_row (shared_strings : list string) (rs : list Element) :
  forall rows,
    fold_left (append_row shared_strings) rs rows =
    rows ++ filter Py.nonempty (map (row_text shared_strings) rs).
Proof.
  induction rs as [|r rs IH]; intros rows; cbn [fold_left map filter].
  - rewrite app_nil_r. reflexivity.
  - rewrite IH, append_row_spec.
    destruct (Py.nonempty (row_text shared_strings r)); [|reflexivity].
    rewrite <- app_assoc. reflexivity.
Qed.

(** C2: a cell typed as a shared-string reference resolves to the table
    entry at the index its value node spells, when that text is an integer
    for [int] and the index lies within the table; and to the empty string
    in every other case: the text is no integer for [int], the index lies
    outside the table, the value node has no text, or there is no value
    node.  It always resolves to a string: nothing is raised.  A row
    holding a reference to index 99 into a table of two entries and a cell
    that resolves to "X" has the row text "X". *)
Theorem cell_value_shared_string
  (cell : Element) (shared_strings : list string) :
  assoc "t" (attrib cell) = Some "s" ->
  (forall value value_text index,
      find cell (qname SHEET_NS "s" "v") = Some value ->
      text value = Some value_text ->
      Py.int value_text = Some index ->
      (0 <= index < Z.of_nat (List.length shared_strings))%Z ->
      _cell_value cell shared_strings
      = Some (nth (Z.to_nat index) shared_strings ""))
  /\ (forall value value_text,
        find cell (qname SHEET_NS "s" "v") = Some value ->
        text value = Some value_text ->
        (forall index,
            Py.int value_text = Some index ->
            (index < 0 \/ Z.of_nat (List.length shared_strings) <= index)%Z) ->
        _cell_value cell shared_strings = Some "")
  /\ (forall value,
        find cell (qname SHEET_NS "s" "v") = Some value ->
        text value = None ->
        _cell_value cell shared_strings = Some "")
  /\ (find cell (qname SHEET_NS "s" "v") = None ->
      _cell_value cell shared_strings = Some "")
  /\ (exists resolved, _cell_value cell shared_strings = Some resolved)
  /\ (forall other : Element,
         List.length shared_strings = 2%nat ->
         tag other = qname SHEET_NS "s" "c" ->
         _cell_value other shared_strings = Some "X" ->
         append_row shared_strings []
           (Fixture.row_of [Fixture.shared_cell "99"; other]) = ["X"]).
Proof.
  intros Ht.
  assert (Hcell :
    _cell_value cell shared_strings =
    match find cell (qname SHEET_NS "s" "v") with
    | Some value =>
        match text value with
        | Some value_text =>
            match Py.int value_text with
            | Some index =>
                if ((0 <=? index)
                    && (index <? Z.of_nat (List.length shared_strings)))%Z
                then Some (nth (Z.to_nat index) shared_strings "")
                else Some ""
            | None => Some ""
            end
        | None => Some ""
        end
    | None => Some ""
    end).
  { unfold _cell_value. fold (is_shared_string_cell cell).
    rewrite (is_shared_string_cell_true cell Ht). reflexivity. }
  split; [|split; [|split; [|split; [|split]]]].
  - intros value value_text index Hv Htext Hint [Hlo Hhi].
    rewrite Hcell, Hv, Htext, Hint.
    apply Z.leb_le in Hlo. apply Z.ltb_lt in Hhi.
    rewrite Hlo, Hhi. reflexivity.
  - intros value value_text Hv Htext Hout. rewrite Hcell, Hv, Htext.
    destruct (Py.int value_text) as [index|]; [|reflexivity].
    destruct (Hout index eq_refl) as [H|H].
    + apply Z.leb_gt in H. rewrite H. reflexivity.
    + apply Z.ltb_ge in H. rewrite H, andb_false_r. reflexivity.
  - intros value Hv Htext. rewrite Hcell, Hv, Htext. reflexivity.
  - intros Hv. rewrite Hcell, Hv. reflexivity.
  - rewrite Hcell.
    destruct (find cell (qname SHEET_NS "s" "v")) as [value|]; [|eauto].
    destruct (text value) as [value_text|]; [|eauto].
    destruct (Py.int value_text) as [index|]; [|eauto].
    destruct ((0 <=? index)
              && (index <? Z.of_nat (List.length shared_strings)))%Z; eauto.
  - intros other Hlen Htag Hother.
    assert (H99 : _cell_value (Fixture.shared_cell "99") shared_strings
                  = Some "").
    { unfold _cell_value, Fixture.shared_cell.
      cbn [attrib assoc String.eqb Ascii.eqb Bool.eqb].
      replace (find _ (qname SHEET_NS "s" "v"))
        with (Some (Elem (qname SHEET_NS "s" "v") [] (Some "99") []))
        by (vm_compute; reflexivity).
      cbn [text].
      replace (Py.int "99") with (Some 99%Z) by (vm_compute; reflexivity).
      rewrite Hlen. reflexivity. }
    assert (Hcells :
      findall (Fixture.row_of [Fixture.shared_cell "99"; other])
        (qname SHEET_NS "s" "c") = [Fixture.shared_cell "99"; other]).
    { unfold findall, Fixture.row_of. cbn [children filter].
      unfold has_tag at 2. rewrite Htag, String.eqb_refl.
      replace (has_tag (qname SHEET_NS "s" "c") (Fixture.shared_cell "99"))
        with true by (vm_compute; reflexivity).
      reflexivity. }
    rewrite append_row_spec. unfold row_text. rewrite Hcells.
    cbn [map]. rewrite H99, Hother. vm_compute. reflexivity.
Qed.

Lemma cell_value_shared_string_witness :
  let fs_one := String (ascii_of_nat 28) "1" in
  let long_zero := Nat.iter 4301 (String "0"%char) "" in
  let bare := Elem (qname SHEET_NS "s" "c") [("t", "s")] None [] in
  let hollow :=
    Elem (qname SHEET_NS "s" "c") [("t", "s")] None
      [Elem (qname SHEET_NS "s" "v") [] None []] in
  _cell_value (Fixture.shared_cell "1") ["A"; "B"] = Some "B"
  /\ _cell_value (Fixture.shared_cell "x") ["A"; "B"] = Some ""
  /\ _cell_value (Fixture.shared_cell "2") ["A"; "B"] = Some ""
  /\ _cell_value (Fixture.shared_cell "-1") ["A"; "B"] = Some ""
  /\ _cell_value (Fixture.shared_cell fs_one) ["A"; "B"] = Some ""
  /\ _cell_value (Fixture.shared_cell long_zero) ["A"; "B"] = Some ""
  /\ _cell_value hollow ["A"; "B"] = Some ""
  /\ _cell_value bare ["A"; "B"] = Some ""
  /\ append_row ["A"; "B"] []
       (Fixture.row_of [Fixture.shared_cell "99"; Fixture.inline_cell "X"])
     = ["X"].
Proof.
  intros fs_one long_zero bare hollow.
  pose (v := fun t => Elem (qname SHEET_NS "s" "v") [] (Some t) []).
  assert (Hout : forall t,
            (forall index, Py.int t = Some index ->
                           (index < 0 \/ Z.of_nat 2 <= index)%Z) ->
            _cell_value (Fixture.shared_cell t) ["A"; "B"] = Some "").
  { intros t Ht.
    destruct (cell_value_shared_string (Fixture.shared_cell t) ["A"; "B"]
                eq_refl) as (_ & H & _).
    apply (H (v t) t); [reflexivity | reflexivity | exact Ht]. }
  split; [|split; [|split; [|split; [|split; [|split; [|split; [|split]]]]]]].
  - destruct (cell_value_shared_string (Fixture.shared_cell "1") ["A"; "B"]
                eq_refl) as (H & _).
    apply (H (v "1") "1" 1%Z); [reflexivity .. | cbn; lia].
  - apply Hout. intros index Hint. vm_compute in Hint. discriminate.
  - apply Hout. intros index Hint. vm_compute in Hint.
    injection Hint as <-. right. cbn. lia.
  - apply Hout. intros index Hint. vm_compute in Hint.
    injection Hint as <-. left. lia.
  - apply Hout. intros index Hint. vm_compute in Hint. discriminate.
  - apply Hout. intros index Hint. vm_compute in Hint. discriminate.
  - destruct (cell_value_shared_string hollow ["A"; "B"] eq_refl)
      as (_ & _ & H & _).
    apply (H (Elem (qname SHEET_NS "s" "v") [] None [])); reflexivity.
  - destruct (cell_value_shared_string bare ["A"; "B"] eq_refl)
      as (_ & _ & _ & H & _).
    apply H. reflexivity.
  - destruct (cell_value_shared_string (Fixture.shared_cell "1") ["A"; "B"]
                eq_refl) as (_ & _ & _ & _ & _ & H).
    apply (H (Fixture.inline_cell "X")); reflexivity.
Defined.

(** C3, as stated, fails: a cell that is no shared-string reference and
    has an inline-string child without any text node below it does not
    resolve to the (empty) concatenation of those nodes; the value node is
    read instead. *)
Lemma cell_value_inline_counterexample :
  let inline := Elem (qname SHEET_NS "s" "is") [] None [] in
  let cell :=
    Elem (qname SHEET_NS "s" "c") [] None
      [inline; Elem (qname SHEET_NS "s" "v") [] (Some "5") []] in
  assoc "t" (attrib cell) <> Some "s"
  /\ find cell (qname SHEET_NS "s" "is") = Some inline
  /\ fold_right String.append ""
       (map text_or_empty (findall_below inline (qname SHEET_NS "s" "t"))) = ""
  /\ _cell_value cell [] = Some "5".
Proof. cbv zeta. repeat split; try reflexivity. discriminate. Qed.

(** C3 (amended): for a cell that is no shared-string reference and whose
    inline-string child has at least one text node below it, the value is
    the concatenation, with no separator, of the texts of those nodes; the
    plain value node is read when the cell has no inline-string child or
    that child has no text node below it. *)
Theorem cell_value_inline_string
  (cell : Element) (shared_strings : list string) :
  assoc "t" (attrib cell) <> Some "s" ->
  (forall inline,
      find cell (qname SHEET_NS "s" "is") = Some inline ->
      findall_below inline (qname SHEET_NS "s" "t") <> [] ->
      _cell_value cell shared_strings
      = Some (fold_right String.append ""
                (map text_or_empty
                   (findall_below inline (qname SHEET_NS "s" "t")))))
  /\ ((find cell (qname SHEET_NS "s" "is") = None
       \/ exists inline,
            find cell (qname SHEET_NS "s" "is") = Some inline
            /\ findall_below inline (qname SHEET_NS "s" "t") = []) ->
      _cell_value cell shared_strings
      = match find cell (qname SHEET_NS "s" "v") with
        | Some value => text value
        | None => Some ""
        end).
Proof.
  intros Ht. unfold _cell_value. fold (is_shared_string_cell cell).
  rewrite (is_shared_string_cell_false cell Ht).
  split.
  - intros inline Hi Hne. rewrite Hi.
    destruct (findall_below inline (qname SHEET_NS "s" "t")) as [|t ts] eqn:E;
      [contradiction|].
    cbn [map]. rewrite join_empty_sep. reflexivity.
  - intros [Hnone | [inline [Hi He]]].
    + rewrite Hnone. reflexivity.
    + rewrite Hi, He. reflexivity.
Qed.

Lemma cell_value_inline_string_witness :
  _cell_value Fixture.rich_cell [] = Some "Inline"
  /\ _cell_value (Fixture.plain_cell "5") [] = Some "5".
Proof.
  split.
  - refine (proj1 (cell_value_inline_string Fixture.rich_cell [] _)
              Fixture.rich_inline eq_refl _);
      vm_compute; discriminate.
  - refine (proj2 (cell_value_inline_string (Fixture.plain_cell "5") [] _) _).
    + vm_compute; discriminate.
    + left. reflexivity.
Defined.
(** ** Logs and outcomes of composed computations *)

Lemma trace_bind {A B} (m : M A) (k : A -> M B) :
  trace (bind m k) =
  trace m ++ match outcome m with
             | inr a => trace (k a)
             | inl _ => []
             end.
Proof.
  destruct m as [l [e|a]]; cbn.
  - rewrite app_nil_r. reflexivity.
  - destruct (k a); reflexivity.
Qed.

Lemma outcome_bind {A B} (m : M A) (k : A -> M B) :
  outcome (bind m k) =
  match outcome m with
  | inr a => outcome (k a)
  | inl e => inl e
  end.
Proof. destruct m as [l [e|a]]; cbn; [reflexivity|]. destruct (k a); reflexivity. Qed.

Lemma trace_try {A} (m : M A) (handles : exn -> bool) (h : M A) :
  trace (try_except m handles h) =
  trace m ++ match outcome m with
             | inl e => if handles e then trace h else []
             | inr _ => []
             end.
Proof.
  destruct m as [l [e|a]]; cbn.
  - destruct (handles e); [destruct h; reflexivity|].
    cbn. rewrite app_nil_r. reflexivity.
  - rewrite app_nil_r. reflexivity.
Qed.

Lemma outcome_try {A} (m : M A) (handles : exn -> bool) (h : M A) :
  outcome (try_except m handles h) =
  match outcome m with
  | inl e => if handles e then outcome h else inl e
  | inr a => inr a
  end.
Proof.
  destruct m as [l [e|a]]; cbn; [|reflexivity].
  destruct (handles e); [destruct h|]; reflexivity.
Qed.

Lemma parses_app (l1 l2 : list event) :
  parses l1 -> parses l2 -> parses (l1 ++ l2).
Proof. unfold parses. intros H1 H2. rewrite forallb_app, H1, H2. reflexivity. Qed.

Lemma parses_nil : parses [].
Proof. reflexivity. Qed.

Lemma stdout_app (l1 l2 : list event) :
  stdout (l1 ++ l2) = stdout l1 ++ stdout l2.
Proof.
  induction l1 as [|ev l1 IH]; [reflexivity|].
  destruct ev; cbn; rewrite IH; reflexivity.
Qed.

Lemma entered_app (l1 l2 : list event) :
  entered (l1 ++ l2) = entered l1 ++ entered l2.
Proof.
  induction l1 as [|ev l1 IH]; [reflexivity|].
  destruct ev; cbn; rewrite IH; reflexivity.
Qed.

Lemma parses_stdout (l : list event) : parses l -> stdout l = [].
Proof.
  unfold parses. induction l as [|ev l IH]; [reflexivity|].
  destruct ev; cbn; try discriminate. exact IH.
Qed.

Lemma parses_entered (l : list event) : parses l -> entered l = [].
Proof.
  unfold parses. induction l as [|ev l IH]; [reflexivity|].
  destruct ev; cbn; try discriminate. exact IH.
Qed.

Lemma parses_In (l : list event) (ev : event) :
  parses l -> In ev l -> exists data, ev = Ev_fromstring data.
Proof.
  unfold parses. intros H Hin.
  rewrite forallb_forall in H. specialize (H ev Hin).
  destruct ev; try discriminate. eauto.
Qed.

Lemma In_entered (l : list event) (f : extractor) (b : bytes) :
  In (Ev_enter f b) l <-> In (f, b) (entered l).
Proof.
  induction l as [|ev l IH]; [reflexivity|].
  destruct ev; cbn; rewrite <- IH; intuition (try discriminate; try congruence).
Qed.

(** A loop whose body only parses XML only parses XML. *)
Lemma for_each_parses {A S} (body : S -> A -> M S) (xs : list A) :
  (forall s x, parses (trace (body s x))) ->
  forall s, parses (trace (for_each xs body s)).
Proof.
  intros Hbody. induction xs as [|x xs IH]; intros s; cbn [for_each].
  - exact parses_nil.
  - rewrite trace_bind. apply parses_app; [apply Hbody|].
    destruct (outcome (body s x)); [exact parses_nil | apply IH].
Qed.

Lemma read_trace (a : Archive) (name : string) : trace (read a name) = [].
Proof.
  unfold read. destruct (getinfo a name) as [zi|]; [|reflexivity].
  destruct (content zi); reflexivity.
Qed.

Lemma parse_xml_trace (L : Lib) (data : bytes) :
  trace (parse_xml L data) = [Ev_fromstring data].
Proof. unfold parse_xml. destruct (fromstring L data); reflexivity. Qed.

Lemma try_read_trace (a : Archive) (name : string) :
  trace (try_except (d <- read a name ;; ret (Some d)) is_KeyError (ret None))
  = [].
Proof.
  rewrite trace_try, trace_bind, outcome_bind, read_trace.
  destruct (outcome (read a name)) as [e|d]; [|reflexivity].
  destruct (is_KeyError e); reflexivity.
Qed.

Lemma open_archive_trace (L : Lib) (buff : bytes) :
  trace (open_archive L buff) = [Ev_ZipFile buff].
Proof. unfold open_archive. destruct (ZipFile L buff); reflexivity. Qed.

Lemma open_archive_outcome (L : Lib) (buff : bytes) :
  outcome (open_archive L buff) =
  match ZipFile L buff with
  | Some a => inr a
  | None => inl (ZipFile_error L buff)
  end.
Proof. unfold open_archive. destruct (ZipFile L buff); reflexivity. Qed.

Lemma read_member (a : Archive) (name : string) (data : bytes) :
  member a name = Some data -> read a name = ret data.
Proof.
  unfold member, read. destruct (getinfo a name) as [zi|]; [|discriminate].
  destruct (content zi) as [e|b]; [discriminate|].
  intros H. injection H as ->. reflexivity.
Qed.

Lemma outcome_emit_then {A} (ev : event) (m : M A) :
  outcome (emit ev ;;; m) = outcome m.
Proof. rewrite outcome_bind. reflexivity. Qed.

Lemma outcome_parse_xml (L : Lib) (data : bytes) :
  outcome (parse_xml L data) =
  match fromstring L data with
  | Some root => inr root
  | None => inl (fromstring_error L data)
  end.
Proof. unfold parse_xml. destruct (fromstring L data); reflexivity. Qed.

Lemma outcome_try_read (a : Archive) (name : string) (data : bytes) :
  member a name = Some data ->
  outcome (try_except (d <- read a name ;; ret (Some d)) is_KeyError (ret None))
  = inr (Some data).
Proof. intros H. rewrite (read_member a name data H), bind_ret_l. reflexivity. Qed.

(** ** What the extractors log *)

Lemma extract_word_text_trace (L : Lib) (buff : bytes) :
  exists tl,
    trace (extract_word_text L buff)
    = Ev_enter Word buff :: Ev_ZipFile buff :: tl /\ parses tl.
Proof.
  unfold extract_word_text.
  rewrite trace_bind. cbn [emit trace outcome fst snd app].
  rewrite trace_bind, open_archive_trace, open_archive_outcome.
  cbn [app]. eexists; split; [reflexivity|].
  destruct (ZipFile L buff) as [a|]; [|exact parses_nil].
  rewrite trace_bind, try_read_trace. cbn [app].
  destruct (outcome _) as [e|[doc|]]; try exact parses_nil.
  rewrite trace_bind, parse_xml_trace.
  destruct (outcome (parse_xml L doc)); reflexivity.
Qed.

Lemma _load_shared_strings_parses (L : Lib) (a : Archive) :
  parses (trace (_load_shared_strings L a)).
Proof.
  unfold _load_shared_strings.
  rewrite trace_bind, try_read_trace. cbn [app].
  destruct (outcome _) as [e|[doc|]]; try exact parses_nil.
  rewrite trace_bind, parse_xml_trace.
  destruct (outcome (parse_xml L doc)); reflexivity.
Qed.

Lemma extract_excel_text_trace (L : Lib) (buff : bytes) :
  exists tl,
    trace (extract_excel_text L buff)
    = Ev_enter Excel buff :: Ev_ZipFile buff :: tl /\ parses tl.
Proof.
  unfold extract_excel_text.
  rewrite trace_bind. cbn [emit trace outcome fst snd app].
  rewrite trace_bind, open_archive_trace, open_archive_outcome.
  cbn [app]. eexists; split; [reflexivity|].
  destruct (ZipFile L buff) as [a|]; [|exact parses_nil].
  rewrite trace_bind. apply parses_app; [apply _load_shared_strings_parses|].
  destruct (outcome (_load_shared_strings L a)) as [e|ss]; [exact parses_nil|].
  rewrite trace_bind. apply parses_app.
  - apply for_each_parses. intros rows name.
    destruct (negb _ || negb _); [exact parses_nil|].
    rewrite trace_bind, read_trace. cbn [app].
    destruct (outcome (read a name)) as [e|c]; [exact parses_nil|].
    rewrite trace_bind, parse_xml_trace.
    destruct (outcome (parse_xml L c)); reflexivity.
  - destruct (outcome _); reflexivity.
Qed.

Lemma extract_fallback_xml_text_trace (L : Lib) (buff : bytes) :
  trace (extract_fallback_xml_text L buff)
  = [Ev_enter Fallback buff; Ev_ZipFile buff].
Proof.
  unfold extract_fallback_xml_text.
  rewrite trace_bind. cbn [emit trace outcome fst snd app].
  rewrite trace_bind, open_archive_trace, open_archive_outcome.
  cbn [app]. do 2 f_equal.
  destruct (ZipFile L buff) as [a|]; [|reflexivity].
  rewrite trace_bind.
  assert (H : forall names rows,
    trace (for_each names
      (fun rows name =>
         if negb (Py.endswith (Py.lower name) ".xml") then ret rows
         else
           xml_bytes <- try_except (b <- read a name ;; ret (Some b))
                          is_KeyError (ret None) ;;
           match xml_bytes with
           | None => ret rows
           | Some xml_bytes =>
               let flattened :=
                 Py.join " " (_strip_xml_tags (decode_ignore L xml_bytes)) in
               if Py.nonempty (Py.strip flattened)
               then ret (rows ++ [Py.strip flattened])
               else ret rows
           end) rows) = []).
  { induction names as [|name names IH]; intros rows; [reflexivity|].
    cbn [for_each]. rewrite trace_bind.
    destruct (negb (Py.endswith (Py.lower name) ".xml")).
    - cbn [ret trace outcome fst snd app]. apply IH.
    - rewrite trace_bind, try_read_trace, outcome_bind. cbn [app].
      destruct (outcome _) as [e|[b|]]; cbn zeta.
      + reflexivity.
      + destruct (Py.nonempty _); cbn [ret trace outcome fst snd app]; apply IH.
      + cbn [ret trace outcome fst snd app]. apply IH. }
  rewrite H. cbn [app].
  destruct (outcome _); reflexivity.
Qed.
(** ** The coordinator *)

Lemma or_empty_self (t : string) : (if Py.nonempty t then t else "") = t.
Proof. destruct t; reflexivity. Qed.

Lemma nonempty_strip_blank (t : string) :
  negb (Py.nonempty (Py.strip t)) = blank t.
Proof. unfold blank, Py.nonempty. apply negb_involutive. Qed.

Lemma raised_is_blank (m : M string) (e : exn) :
  outcome m = inl e -> blank (text_or_blank m) = true.
Proof. unfold text_or_blank. intros ->. reflexivity. Qed.

Lemma run_extractors_outcome (L : Lib) (kind : string) (raw : bytes) :
  outcome (run_extractors L kind raw) = inr tt.
Proof.
  unfold run_extractors.
  rewrite outcome_bind, outcome_try.
  destruct (outcome _) as [e|t]; cbn [any_exception ret outcome snd];
    rewrite outcome_bind;
    match goal with
    | |- context [if ?c then _ else _] => destruct c
    end;
    rewrite ?outcome_try; cbn [ret outcome snd];
    try reflexivity;
    destruct (outcome _); reflexivity.
Qed.

Lemma run_extractors_trace (L : Lib) (kind : string) (raw : bytes) :
  trace (run_extractors L kind raw) =
  trace (structured L kind raw)
  ++ (if blank (text_or_blank (structured L kind raw))
      then trace (extract_fallback_xml_text L raw) else [])
  ++ [Ev_dump (PDict [("text", PStr (final_text L kind raw))])].
Proof.
  unfold run_extractors, final_text, text_or_blank.
  fold (structured L kind raw).
  rewrite trace_bind, trace_try, outcome_try.
  set (S := structured L kind raw).
  assert (Htail : forall t : string,
    trace
      (text <- (if negb (Py.nonempty (Py.strip t))
                then try_except (extract_fallback_xml_text L raw)
                       any_exception (ret "")
                else ret t) ;;
       dump_text (if Py.nonempty text then text else ""))
    = (if blank t then trace (extract_fallback_xml_text L raw) else [])
      ++ [Ev_dump
            (PDict
               [("text",
                 PStr (if blank t
                       then match outcome (extract_fallback_xml_text L raw) with
                            | inr t' => t'
                            | inl _ => ""
                            end
                       else t))])]).
  { intros t. rewrite trace_bind, nonempty_strip_blank.
    destruct (blank t).
    - rewrite trace_try, outcome_try.
      destruct (outcome (extract_fallback_xml_text L raw)) as [e|t'];
        cbn [any_exception ret trace outcome fst snd];
        rewrite ?app_nil_r, or_empty_self; reflexivity.
    - cbn [ret trace outcome fst snd app]. rewrite or_empty_self.
      reflexivity. }
  destruct (outcome S) as [e|t]; cbn [any_exception ret trace outcome fst snd];
    rewrite Htail, ?app_nil_r; reflexivity.
Qed.

Lemma structured_trace (L : Lib) (kind : string) (raw : bytes) :
  exists tl,
    trace (structured L kind raw)
    = Ev_enter (extractor_of kind) raw :: Ev_ZipFile raw :: tl /\ parses tl.
Proof.
  unfold structured, extractor_of.
  destruct (String.eqb kind "word");
    [apply extract_word_text_trace | apply extract_excel_text_trace].
Qed.

Lemma normalise_str (t : string) :
  _normalise_base64_payload (PStr t) = ret (normalise t).
Proof.
  unfold _normalise_base64_payload, normalise. cbn [truthy].
  unfold Py.nonempty. rewrite negb_involutive.
  destruct (Py.is_empty t); [reflexivity|].
  destruct (negb (Py.startswith (Py.strip t) "data:")); reflexivity.
Qed.

Lemma or_empty_str_text (v : pyval) :
  is_text v = true -> or_empty_str v = PStr (text_of v).
Proof.
  destruct v; try discriminate; intros _; [reflexivity|].
  destruct s; reflexivity.
Qed.

Lemma detect_kind_kind_of (name mime : string) :
  detect_kind (PStr name) (PStr mime) = ret (kind_of name mime).
Proof. apply detect_kind_str. Qed.

(** On an input object, [main] is [serve] on its three strings. *)
Lemma main_string_fields (L : Lib) (stdin : string) (d : list (string * pyval)) :
  _safe_load_json L stdin = PDict d ->
  string_fields (PDict d) ->
  main L stdin =
  serve L (payload_text d) (text_of (field d "name"))
    (text_of (field d "mime")).
Proof.
  intros Hload (Hb & Hd & Hn & Hm).
  unfold main, serve. rewrite Hload. cbn [py_get].
  fold (field d "base64") (field d "data") (field d "name") (field d "mime").
  rewrite !bind_ret_l.
  assert (Hdata :
    (if truthy (field d "base64") then ret (field d "base64")
     else ret (or_empty_str (field d "data")))
    = ret (PStr (payload_text d))).
  { unfold payload_text.
    destruct (truthy (field d "base64")) eqn:E.
    - destruct (field d "base64"); try discriminate. reflexivity.
    - rewrite (or_empty_str_text _ Hd). reflexivity. }
  rewrite Hdata, !bind_ret_l, normalise_str, bind_ret_l.
  rewrite (or_empty_str_text _ Hn), (or_empty_str_text _ Hm).
  unfold Py.nonempty. rewrite negb_involutive.
  destruct (Py.is_empty (normalise (payload_text d))); [reflexivity|].
  rewrite detect_kind_kind_of, bind_ret_l, negb_involutive.
  reflexivity.
Qed.

(** A text that [json.loads] rejects is read as the empty object. *)
Lemma main_invalid_json (L : Lib) (stdin : string) :
  json_loads L stdin = None ->
  main L stdin = ([Ev_dump (PDict [("text", PStr "")])], inr tt).
Proof.
  intros H.
  rewrite (main_string_fields L stdin []).
  - reflexivity.
  - unfold _safe_load_json. rewrite H. reflexivity.
  - repeat split.
Qed.

(** The log and the outcome of [serve]. *)
Lemma serve_cases (L : Lib) (payload name mime : string) :
  (serve L payload name mime = ([Ev_dump (PDict [("text", PStr "")])], inr tt)
   /\ (normalise payload = "" \/ kind_of name mime = ""))
  \/ (normalise payload <> "" /\ kind_of name mime <> ""
      /\ b64decode L (normalise payload) = None
      /\ serve L payload name mime
         = ([Ev_b64decode (normalise payload);
             Ev_dump (PDict [("text", PStr "")])], inr tt))
  \/ (exists raw,
        normalise payload <> "" /\ kind_of name mime <> ""
        /\ b64decode L (normalise payload) = Some raw
        /\ serve L payload name mime
           = (Ev_b64decode (normalise payload)
                :: trace (run_extractors L (kind_of name mime) raw),
              inr tt)).
Proof.
  unfold serve.
  destruct (normalise payload) as [|c p] eqn:Ep; [left; auto|].
  cbn [Py.is_empty].
  destruct (kind_of name mime) as [|c' k] eqn:Ek; [left; auto|].
  cbn [Py.is_empty]. right.
  destruct (b64decode L (String c p)) as [raw|] eqn:Eb.
  - right. exists raw. repeat split; try discriminate.
    rewrite (M_eta (_ ;;; _)), trace_bind, outcome_bind.
    cbn [emit trace outcome fst snd app].
    rewrite run_extractors_outcome. reflexivity.
  - left. repeat split; discriminate.
Qed.
(** ** The run of the extractors *)

Lemma run_extractors_stdout (L : Lib) (kind : string) (raw : bytes) :
  stdout (trace (run_extractors L kind raw))
  = [PDict [("text", PStr (final_text L kind raw))]].
Proof.
  rewrite run_extractors_trace, !stdout_app.
  destruct (structured_trace L kind raw) as (tl & -> & Htl).
  cbn [stdout]. rewrite (parses_stdout _ Htl).
  destruct (blank _); [rewrite extract_fallback_xml_text_trace|]; reflexivity.
Qed.

Lemma run_extractors_entered (L : Lib) (kind : string) (raw : bytes) :
  entered (trace (run_extractors L kind raw))
  = (extractor_of kind, raw)
      :: (if blank (text_or_blank (structured L kind raw))
          then [(Fallback, raw)] else []).
Proof.
  rewrite run_extractors_trace, !entered_app.
  destruct (structured_trace L kind raw) as (tl & -> & Htl).
  cbn [entered]. rewrite (parses_entered _ Htl).
  destruct (blank _); [rewrite extract_fallback_xml_text_trace|]; reflexivity.
Qed.

(** The extractors decode no base64 and open no other buffer than theirs. *)
Lemma run_extractors_events (L : Lib) (kind : string) (raw : bytes) (ev : event) :
  In ev (trace (run_extractors L kind raw)) ->
  match ev with
  | Ev_b64decode _ => False
  | Ev_ZipFile b => b = raw
  | Ev_fromstring _ => True
  | Ev_enter _ b => b = raw
  | Ev_dump o => o = PDict [("text", PStr (final_text L kind raw))]
  end.
Proof.
  rewrite run_extractors_trace.
  destruct (structured_trace L kind raw) as (tl & -> & Htl).
  rewrite !in_app_iff. intros [H | [H | H]].
  - destruct H as [<- | [<- | H]]; try reflexivity.
    destruct (parses_In _ _ Htl H) as [data ->]. exact I.
  - destruct (blank _); [|contradiction].
    rewrite extract_fallback_xml_text_trace in H.
    destruct H as [<- | [<- | []]]; reflexivity.
  - destruct H as [<- | []]. reflexivity.
Qed.

(** An archive that does not open stops each extractor. *)
Lemma extract_word_text_bad_archive (L : Lib) (raw : bytes) :
  ZipFile L raw = None ->
  outcome (extract_word_text L raw) = inl (ZipFile_error L raw).
Proof.
  intros H. unfold extract_word_text.
  rewrite outcome_bind. cbn [emit outcome snd].
  rewrite outcome_bind, open_archive_outcome, H. reflexivity.
Qed.

Lemma extract_excel_text_bad_archive (L : Lib) (raw : bytes) :
  ZipFile L raw = None ->
  outcome (extract_excel_text L raw) = inl (ZipFile_error L raw).
Proof.
  intros H. unfold extract_excel_text.
  rewrite outcome_bind. cbn [emit outcome snd].
  rewrite outcome_bind, open_archive_outcome, H. reflexivity.
Qed.

Lemma extract_fallback_xml_text_bad_archive (L : Lib) (raw : bytes) :
  ZipFile L raw = None ->
  outcome (extract_fallback_xml_text L raw) = inl (ZipFile_error L raw).
Proof.
  intros H. unfold extract_fallback_xml_text.
  rewrite outcome_bind. cbn [emit outcome snd].
  rewrite outcome_bind, open_archive_outcome, H. reflexivity.
Qed.

Lemma final_text_bad_archive (L : Lib) (kind : string) (raw : bytes) :
  ZipFile L raw = None -> final_text L kind raw = "".
Proof.
  intros H. unfold final_text, text_or_blank, structured.
  rewrite (extract_fallback_xml_text_bad_archive L raw H).
  destruct (String.eqb kind "word");
    [rewrite (extract_word_text_bad_archive L raw H)
    |rewrite (extract_excel_text_bad_archive L raw H)]; reflexivity.
Qed.

Lemma final_text_fallback_raises (L : Lib) (kind : string) (raw : bytes) (e : exn) :
  blank (text_or_blank (structured L kind raw)) = true ->
  outcome (extract_fallback_xml_text L raw) = inl e ->
  final_text L kind raw = "".
Proof.
  intros Hb He. unfold final_text. rewrite Hb.
  unfold text_or_blank. rewrite He. reflexivity.
Qed.

(** ** A rejected XML text stops the structured extractors *)

Lemma stops_no_parse {A} (L : Lib) (m : M A) :
  (forall data, ~ In (Ev_fromstring data) (trace m)) -> stops_at_bad_xml L m.
Proof. intros H data Hin. destruct (H data Hin). Qed.

Lemma stops_ret {A} (L : Lib) (a : A) : stops_at_bad_xml L (ret a).
Proof. apply stops_no_parse. intros data []. Qed.

Lemma stops_bind {A B} (L : Lib) (m : M A) (k : A -> M B) :
  stops_at_bad_xml L m ->
  (forall a, stops_at_bad_xml L (k a)) ->
  stops_at_bad_xml L (bind m k).
Proof.
  intros Hm Hk data Hin Hbad.
  rewrite trace_bind in Hin. rewrite outcome_bind.
  apply in_app_iff in Hin as [Hin | Hin].
  - destruct (Hm data Hin Hbad) as [e ->]. eauto.
  - destruct (outcome m) as [e|a]; [eauto|].
    apply (Hk a data Hin Hbad).
Qed.

Lemma stops_parse_xml (L : Lib) (data : bytes) :
  stops_at_bad_xml L (parse_xml L data).
Proof.
  intros d Hin Hbad. rewrite parse_xml_trace in Hin.
  destruct Hin as [Hd | []]. injection Hd as ->.
  rewrite outcome_parse_xml, Hbad. eauto.
Qed.

Lemma stops_try_read (L : Lib) (a : Archive) (name : string) :
  stops_at_bad_xml L
    (try_except (d <- read a name ;; ret (Some d)) is_KeyError (ret None)).
Proof.
  apply stops_no_parse. intros data. rewrite try_read_trace. intros [].
Qed.

Lemma stops_for_each {A S} (L : Lib) (body : S -> A -> M S) (xs : list A) :
  (forall s x, stops_at_bad_xml L (body s x)) ->
  forall s, stops_at_bad_xml L (for_each xs body s).
Proof.
  intros Hbody. induction xs as [|x xs IH]; intros s; cbn [for_each].
  - apply stops_ret.
  - apply stops_bind; [apply Hbody | exact IH].
Qed.

Lemma stops_open_archive (L : Lib) (buff : bytes) :
  stops_at_bad_xml L (open_archive L buff).
Proof.
  apply stops_no_parse. intros data. rewrite open_archive_trace.
  intros [H | []]. discriminate.
Qed.

Lemma stops_emit_enter (L : Lib) (f : extractor) (buff : bytes) :
  stops_at_bad_xml L (emit (Ev_enter f buff)).
Proof. apply stops_no_parse. intros data [H | []]. discriminate. Qed.

Lemma stops_read (L : Lib) (a : Archive) (name : string) :
  stops_at_bad_xml L (read a name).
Proof. apply stops_no_parse. intros data. rewrite read_trace. intros []. Qed.

Lemma extract_word_text_stops (L : Lib) (buff : bytes) :
  stops_at_bad_xml L (extract_word_text L buff).
Proof.
  unfold extract_word_text.
  apply stops_bind; [apply stops_emit_enter|]. intros _.
  apply stops_bind; [apply stops_open_archive|]. intros archive.
  apply stops_bind; [apply (stops_try_read L archive)|].
  intros [document|]; [|apply stops_ret].
  apply stops_bind; [apply stops_parse_xml|]. intros root. apply stops_ret.
Qed.

Lemma _load_shared_strings_stops (L : Lib) (a : Archive) :
  stops_at_bad_xml L (_load_shared_strings L a).
Proof.
  unfold _load_shared_strings.
  apply stops_bind; [apply (stops_try_read L a)|].
  intros [data|]; [|apply stops_ret].
  apply stops_bind; [apply stops_parse_xml|]. intros root. apply stops_ret.
Qed.

Lemma extract_excel_text_stops (L : Lib) (buff : bytes) :
  stops_at_bad_xml L (extract_excel_text L buff).
Proof.
  unfold extract_excel_text.
  apply stops_bind; [apply stops_emit_enter|]. intros _.
  apply stops_bind; [apply stops_open_archive|]. intros archive.
  apply stops_bind; [apply _load_shared_strings_stops|]. intros shared_strings.
  apply stops_bind; [|intros rows; apply stops_ret].
  apply stops_for_each. intros rows name.
  destruct (negb _ || negb _); [apply stops_ret|].
  apply stops_bind; [apply stops_read|]. intros content.
  apply stops_bind; [apply stops_parse_xml|]. intros root. apply stops_ret.
Qed.

Lemma structured_stops (L : Lib) (kind : string) (raw : bytes) :
  stops_at_bad_xml L (structured L kind raw).
Proof.
  unfold structured. destruct (String.eqb kind "word");
    [apply extract_word_text_stops | apply extract_excel_text_stops].
Qed.

(** After a rejected XML text the fallback runs and its text is written. *)
Lemma run_extractors_bad_xml (L : Lib) (kind : string) (raw data : bytes) :
  In (Ev_fromstring data) (trace (run_extractors L kind raw)) ->
  fromstring L data = None ->
  blank (text_or_blank (structured L kind raw)) = true
  /\ final_text L kind raw
     = text_or_blank (extract_fallback_xml_text L raw).
Proof.
  intros Hin Hbad.
  assert (Hs : In (Ev_fromstring data) (trace (structured L kind raw))).
  { rewrite run_extractors_trace, !in_app_iff in Hin.
    destruct Hin as [H | [H | [H | []]]]; [exact H| |discriminate].
    destruct (blank _); [|contradiction].
    rewrite extract_fallback_xml_text_trace in H.
    destruct H as [H | [H | []]]; discriminate. }
  destruct (structured_stops L kind raw data Hs Hbad) as [e He].
  pose proof (raised_is_blank _ e He) as Hb.
  split; [exact Hb|]. unfold final_text. rewrite Hb. reflexivity.
Qed.

(** ** The entry point *)

(** C1, as stated, fails in one of its four cases of degradation: when the
    main document of a Word archive is not well-formed XML, parsing fails,
    the fallback flattens the member, and the text written is not empty.
    The input is a stored archive whose only member, [word/document.xml],
    holds [<w:document>Hello]. *)
Lemma main_malformed_xml_counterexample :
  let stdin := Fixture.request_text Fixture.badxml_b64 "broken.docx" "" in
  let raw := Fixture.decoded Fixture.badxml_b64 in
  fromstring Fixture.lib Fixture.badxml_document_xml = None
  /\ main Fixture.lib stdin
     = ([Ev_b64decode Fixture.badxml_b64;
         Ev_enter Word raw; Ev_ZipFile raw;
         Ev_fromstring Fixture.badxml_document_xml;
         Ev_enter Fallback raw; Ev_ZipFile raw;
         Ev_dump (PDict [("text", PStr "<w:document> Hello")])],
        inr tt).
Proof. cbv zeta. split; vm_compute; reflexivity. Qed.

(** C1 (amended): on every input object (a dictionary whose payload, name
    and MIME fields, where present, are strings; a text that is no JSON is
    read as the empty object) the entry point raises nothing and writes
    exactly one object, with the single field [text] holding a string.  The
    text is empty when base64 decoding fails, when the archive does not
    open, and when the fallback itself raises; when the parser rejects an
    XML text, the fallback runs and the text written is the one it leaves. *)
Theorem main_never_raises (L : Lib) (stdin : string) :
  string_fields (_safe_load_json L stdin) ->
  exists t : string,
    outcome (main L stdin) = inr tt
    /\ stdout (trace (main L stdin)) = [PDict [("text", PStr t)]]
    /\ (forall p, In (Ev_b64decode p) (trace (main L stdin)) ->
                  b64decode L p = None -> t = "")
    /\ (forall raw, In (Ev_ZipFile raw) (trace (main L stdin)) ->
                    ZipFile L raw = None -> t = "")
    /\ (forall raw e, In (Ev_enter Fallback raw) (trace (main L stdin)) ->
                      outcome (extract_fallback_xml_text L raw) = inl e ->
                      t = "")
    /\ (forall data, In (Ev_fromstring data) (trace (main L stdin)) ->
                     fromstring L data = None ->
                     exists raw,
                       In (Ev_enter Fallback raw) (trace (main L stdin))
                       /\ t = text_or_blank
                               (extract_fallback_xml_text L raw)).
Proof.
  intros Hfields.
  destruct (_safe_load_json L stdin) as [| | | | | |d] eqn:Hload;
    try contradiction.
  rewrite (main_string_fields L stdin d Hload Hfields).
  set (payload := payload_text d).
  set (name := text_of (field d "name")).
  set (mime := text_of (field d "mime")).
  destruct (serve_cases L payload name mime)
    as [[-> _] | [(_ & _ & Hb & ->) | (raw & _ & _ & Hb & ->)]].
  - exists "". repeat split; try reflexivity.
    intros data [H | []]. discriminate.
  - exists "". repeat split; try reflexivity.
    intros data [H | [H | []]]; discriminate.
  - exists (final_text L (kind_of name mime) raw).
    cbn [trace outcome fst snd stdout].
    split; [reflexivity|]. split; [apply run_extractors_stdout|].
    split; [|split; [|split]]; cycle 3.
    { intros data [Hp | Hp] Hbad; [discriminate|].
      destruct (run_extractors_bad_xml L _ raw data Hp Hbad) as [Hblank Hfinal].
      exists raw. split; [|exact Hfinal].
      right. apply In_entered. rewrite run_extractors_entered, Hblank.
      right. left. reflexivity. }
    + intros p [Hp | Hp] Hnone.
      * injection Hp as <-. congruence.
      * apply run_extractors_events in Hp. contradiction.
    + intros raw' [Hp | Hp] Hnone; [discriminate|].
      apply run_extractors_events in Hp. subst raw'.
      apply final_text_bad_archive. exact Hnone.
    + intros raw' e [Hp | Hp] He; [discriminate|].
      pose proof (run_extractors_events _ _ _ _ Hp) as Hraw.
      cbn in Hraw. subst raw'.
      apply In_entered in Hp. rewrite run_extractors_entered in Hp.
      destruct (blank (text_or_blank (structured L (kind_of name mime) raw)))
        eqn:Hblank.
      * apply (final_text_fallback_raises L _ raw e Hblank He).
      * destruct Hp as [Hp | []]. injection Hp as Hk.
        unfold extractor_of in Hk. destruct (String.eqb _ _); discriminate.
Qed.

Lemma main_never_raises_witness :
  let stdin := Fixture.request_text Fixture.word_b64 "report.docx" "" in
  exists t : string,
    outcome (main Fixture.lib stdin) = inr tt
    /\ stdout (trace (main Fixture.lib stdin)) = [PDict [("text", PStr t)]]
    /\ (forall p, In (Ev_b64decode p) (trace (main Fixture.lib stdin)) ->
                  b64decode Fixture.lib p = None -> t = "")
    /\ (forall raw, In (Ev_ZipFile raw) (trace (main Fixture.lib stdin)) ->
                    ZipFile Fixture.lib raw = None -> t = "")
    /\ (forall raw e,
          In (Ev_enter Fallback raw) (trace (main Fixture.lib stdin)) ->
          outcome (extract_fallback_xml_text Fixture.lib raw) = inl e ->
          t = "")
    /\ (forall data,
          In (Ev_fromstring data) (trace (main Fixture.lib stdin)) ->
          fromstring Fixture.lib data = None ->
          exists raw,
            In (Ev_enter Fallback raw) (trace (main Fixture.lib stdin))
            /\ t = text_or_blank
                    (extract_fallback_xml_text Fixture.lib raw)).
Proof.
  apply (main_never_raises Fixture.lib
           (Fixture.request_text Fixture.word_b64 "report.docx" "")).
  vm_compute. repeat split; reflexivity.
Defined.




(** C10, at the failing input: a text that is valid JSON and no object
    makes the entry point raise [AttributeError] at the first [.get],
    before anything is written. *)
Theorem main_raises_on_non_object (L : Lib) (stdin : string) (v : pyval) :
  json_loads L stdin = Some v ->
  (forall d, v <> PDict d) ->
  main L stdin = ([], inl AttributeError).
Proof.
  intros Hload Hv. unfold main, _safe_load_json. rewrite Hload.
  destruct v; try reflexivity. exfalso. exact (Hv d eq_refl).
Qed.

Lemma main_raises_on_non_object_witness :
  main Fixture.lib "[]" = ([], inl AttributeError).
Proof.
  apply (main_raises_on_non_object Fixture.lib "[]" (PList [])).
  - vm_compute. reflexivity.
  - intros d. discriminate.
Defined.

(** The rest of C10 holds: a text that is no JSON, and an object without
    the recognised keys, are served as the empty request. *)
Lemma main_no_recognised_keys (L : Lib) (stdin : string) (d : list (string * pyval)) :
  json_loads L stdin = Some (PDict d) ->
  assoc "base64" d = None -> assoc "data" d = None ->
  assoc "name" d = None -> assoc "mime" d = None ->
  main L stdin = ([Ev_dump (PDict [("text", PStr "")])], inr tt).
Proof.
  intros Hload Hb Hd Hn Hm.
  assert (Hsafe : _safe_load_json L stdin = PDict d).
  { unfold _safe_load_json. rewrite Hload. reflexivity. }
  rewrite (main_string_fields L stdin d Hsafe).
  - unfold serve, payload_text, field. rewrite Hb, Hd. reflexivity.
  - unfold string_fields, field. rewrite Hb, Hd, Hn, Hm. repeat split.
Qed.
(** ** Searching a document *)

(** [iter] lists an element and all that lies below it. *)
Lemma In_iter (root e : Element) :
  In e (iter root) <-> e = root \/ below root e.
Proof.
  revert e. induction root as [t a x cs IH] using Element_tree_ind.
  intros e. cbn [iter In]. rewrite in_flat_map. split.
  - intros [H | (c & Hc & He)]; [left; symmetry; exact H|].
    right. rewrite Forall_forall in IH.
    apply (IH c Hc) in He as [-> | He].
    + apply below_child. exact Hc.
    + eapply below_deeper; [exact Hc | exact He].
  - intros [-> | H]; [left; reflexivity|]. right.
    rewrite Forall_forall in IH.
    inversion H as [e' Hc | c e' Hc He]; subst.
    + exists e. split; [exact Hc|]. apply (IH e Hc). left. reflexivity.
    + exists c. split; [exact Hc|]. apply (IH c Hc). right. exact He.
Qed.

(** [findall_below] finds the elements with the tag that lie below the
    root, at any depth. *)
Lemma In_findall_below (root e : Element) (t : string) :
  In e (findall_below root t) <-> below root e /\ tag e = t.
Proof.
  unfold findall_below. rewrite filter_In, in_flat_map.
  unfold has_tag. rewrite String.eqb_eq.
  split; intros [H Ht]; (split; [|exact Ht]).
  - destruct H as (c & Hc & He). apply In_iter in He as [-> | He].
    + apply below_child. exact Hc.
    + eapply below_deeper; [exact Hc | exact He].
  - inversion H as [e' Hc | c e' Hc He]; subst.
    + exists e. split; [exact Hc|]. apply In_iter. left. reflexivity.
    + exists c. split; [exact Hc|]. apply In_iter. right. exact He.
Qed.

(** ** The structured extractors *)

Lemma extract_word_text_outcome
  (L : Lib) (buff : bytes) (a : Archive) (document : bytes) (root : Element) :
  ZipFile L buff = Some a ->
  member a "word/document.xml" = Some document ->
  fromstring L document = Some root ->
  outcome (extract_word_text L buff)
  = inr (Py.join nl (filter (fun t => negb (blank t)) (text_runs root))).
Proof.
  intros Hzip Hdoc Hroot. unfold extract_word_text.
  rewrite outcome_emit_then, outcome_bind, open_archive_outcome, Hzip.
  rewrite outcome_bind, (outcome_try_read a _ document Hdoc).
  rewrite outcome_bind, outcome_parse_xml, Hroot.
  reflexivity.
Qed.

(** C6: when the archive opens and its main document parses, the Word
    extractor returns the texts of the text runs below the root that are
    not blank, in document order, joined by newlines; of [N] runs with [M]
    blank ones, [N - M] are kept, and the texts kept are those of the
    text-run elements, at any depth, whose text is not blank. *)
Theorem extract_word_text_runs
  (L : Lib) (buff : bytes) (a : Archive) (document : bytes) (root : Element) :
  ZipFile L buff = Some a ->
  member a "word/document.xml" = Some document ->
  fromstring L document = Some root ->
  let runs := text_runs root in
  let kept := filter (fun t => negb (blank t)) runs in
  outcome (extract_word_text L buff) = inr (Py.join nl kept)
  /\ List.length kept
     = List.length runs - List.length (filter blank runs)
  /\ (forall t,
        In t kept <->
        exists node,
          below root node /\ tag node = qname WORD_NS "w" "t"
          /\ text_or_empty node = t /\ blank t = false).
Proof.
  intros Hzip Hdoc Hroot runs kept. split; [|split].
  - apply (extract_word_text_outcome L buff a document root Hzip Hdoc Hroot).
  - pose proof (filter_length blank runs) as H. fold kept in H. lia.
  - intros t. unfold kept, runs, text_runs.
    rewrite filter_In, in_map_iff, negb_true_iff. split.
    + intros [(node & Ht & Hin) Hb].
      apply In_findall_below in Hin as [Hbelow Htag]. eauto.
    + intros (node & Hbelow & Htag & Ht & Hb). split; [|exact Hb].
      exists node. split; [exact Ht|].
      apply In_findall_below. split; assumption.
Qed.

Lemma extract_word_text_runs_witness :
  let kept := ["Hello"; "World"] in
  outcome (extract_word_text Fixture.lib (Fixture.decoded Fixture.word_b64))
  = inr (Py.join nl kept)
  /\ List.length kept = 3 - 1
  /\ (forall t,
        In t kept <->
        exists node,
          below Fixture.word_root node /\ tag node = qname WORD_NS "w" "t"
          /\ text_or_empty node = t /\ blank t = false).
Proof.
  apply (extract_word_text_runs Fixture.lib
           (Fixture.decoded Fixture.word_b64) Fixture.word_archive
           Fixture.word_document_xml Fixture.word_root);
    vm_compute; reflexivity.
Defined.


Lemma is_worksheet_name_negb (name : string) :
  negb (Py.startswith name "xl/worksheets/") || negb (Py.endswith name ".xml")
  = negb (is_worksheet_name name).
Proof. unfold is_worksheet_name. rewrite negb_andb. reflexivity. Qed.

(** The loop over the members of a workbook appends, sheet by sheet, the
    non-empty row texts. *)
Lemma worksheets_loop (L : Lib) (a : Archive) (shared_strings : list string) :
  forall (names : list string) (roots : list Element) (rows : list string),
    Forall2 (sheet_parsed L a) (filter is_worksheet_name names) roots ->
    outcome
      (for_each names
         (fun rows name =>
            if negb (Py.startswith name "xl/worksheets/")
               || negb (Py.endswith name ".xml")
            then ret rows
            else
              content <- read a name ;;
              root <- parse_xml L content ;;
              ret (fold_left (append_row shared_strings)
                     (findall_below root (qname SHEET_NS "s" "row")) rows))
         rows)
    = inr (rows
           ++ filter Py.nonempty
                (map (row_text shared_strings) (flat_map sheet_rows roots))).
Proof.
  induction names as [|name names IH]; intros roots rows H.
  - inversion H. cbn. rewrite app_nil_r. reflexivity.
  - cbn [for_each filter] in *.
    rewrite outcome_bind, is_worksheet_name_negb.
    destruct (is_worksheet_name name); cbn [negb].
    + inversion H as [|n root ns roots' (data & Hm & Hp) Hrest]; subst.
      rewrite (read_member a name data Hm), bind_ret_l.
      rewrite outcome_bind, outcome_parse_xml, Hp.
      cbn [ret outcome snd].
      rewrite (IH roots' _ Hrest), fold_append_row.
      cbn [flat_map]. rewrite map_app, filter_app, <- app_assoc.
      reflexivity.
    + cbn [ret outcome snd]. apply IH. exact H.
Qed.

(** No line of a workbook text is empty. *)
Lemma workbook_rows_nonempty (shared_strings : list string) (rows : list Element) :
  Forall (fun line => line <> "")
    (filter Py.nonempty (map (row_text shared_strings) rows)).
Proof.
  apply Forall_forall. intros line Hin.
  apply filter_In in Hin as [_ Hne]. intros ->. discriminate.
Qed.

(** C4: when the archive opens, the shared strings load and every
    worksheet parses, the spreadsheet extractor returns the text the
    specification assembles: in each row the resolved cell values trimmed,
    the non-empty ones joined with one space; the rows with an empty text
    dropped; the others joined with newlines.  With the shared strings A
    and B, the row of a reference to index 0, an inline string C and a
    literal 5 has the text "A C 5". *)
Theorem extract_excel_text_rows
  (L : Lib) (buff : bytes) (a : Archive)
  (shared_strings : list string) (sheets : list Element) :
  ZipFile L buff = Some a ->
  outcome (_load_shared_strings L a) = inr shared_strings ->
  Forall2 (sheet_parsed L a) (filter is_worksheet_name (namelist a)) sheets ->
  outcome (extract_excel_text L buff)
  = inr (workbook_text shared_strings sheets)
  /\ Forall (fun line => line <> "")
       (filter Py.nonempty
          (map (row_text shared_strings) (flat_map sheet_rows sheets)))
  /\ row_text ["A"; "B"]
       (Fixture.row_of [Fixture.shared_cell "0"; Fixture.inline_cell "C";
                        Fixture.plain_cell "5"]) = "A C 5".
Proof.
  intros Hzip Hss Hsheets. split; [|split].
  - unfold extract_excel_text.
    rewrite outcome_emit_then, outcome_bind, open_archive_outcome, Hzip.
    rewrite outcome_bind, Hss, outcome_bind.
    rewrite (worksheets_loop L a shared_strings _ sheets [] Hsheets).
    reflexivity.
  - apply workbook_rows_nonempty.
  - vm_compute. reflexivity.
Qed.

Lemma extract_excel_text_rows_witness :
  outcome (extract_excel_text Fixture.lib (Fixture.decoded Fixture.excel_b64))
  = inr (workbook_text ["A"; "B"] [Fixture.sheet1_root])
  /\ Forall (fun line => line <> "")
       (filter Py.nonempty
          (map (row_text ["A"; "B"])
             (flat_map sheet_rows [Fixture.sheet1_root])))
  /\ row_text ["A"; "B"]
       (Fixture.row_of [Fixture.shared_cell "0"; Fixture.inline_cell "C";
                        Fixture.plain_cell "5"]) = "A C 5".
Proof.
  apply (extract_excel_text_rows Fixture.lib
           (Fixture.decoded Fixture.excel_b64) Fixture.excel_archive
           ["A"; "B"] [Fixture.sheet1_root]).
  - vm_compute. reflexivity.
  - vm_compute. reflexivity.
  - change (filter is_worksheet_name (namelist Fixture.excel_archive))
      with ["xl/worksheets/sheet1.xml"].
    constructor; [|constructor].
    exists Fixture.sheet1_xml. split; vm_compute; reflexivity.
Defined.

(** The text of the example workbook. *)
Lemma workbook_text_example :
  workbook_text ["A"; "B"] [Fixture.sheet1_root] = Py.join nl ["A C 5"; "X"].
Proof. vm_compute. reflexivity. Qed.
(** ** Strings *)

Lemma append_nil_r (s : string) : (s ++ "")%string = s.
Proof. induction s; cbn; congruence. Qed.

Lemma append_assoc (a b c : string) :
  ((a ++ b) ++ c)%string = (a ++ (b ++ c))%string.
Proof. induction a; cbn; congruence. Qed.

Lemma lstrip_no_leading_space (s : string) :
  leading_space s = false -> Py.lstrip s = s.
Proof. destruct s as [|c s]; cbn; [reflexivity|]. intros ->. reflexivity. Qed.

Lemma rstrip_cons_nonspace (c : ascii) (s : string) :
  Py.isspace c = false -> Py.rstrip (String c s) = String c (Py.rstrip s).
Proof. intros H. cbn [Py.rstrip]. rewrite H. reflexivity. Qed.

Lemma rstrip_app (a b : string) :
  Py.rstrip b <> "" -> Py.rstrip (a ++ b) = (a ++ Py.rstrip b)%string.
Proof.
  intros Hb. induction a as [|c a IH]; [reflexivity|].
  cbn [append Py.rstrip]. rewrite IH.
  destruct (a ++ Py.rstrip b)%string eqn:E.
  - destruct a; [contradiction|discriminate].
  - cbn [Py.is_empty]. rewrite andb_false_r. reflexivity.
Qed.

(** What [rstrip] removes is a suffix. *)
Lemma rstrip_prefix (s : string) : exists w, s = (Py.rstrip s ++ w)%string.
Proof.
  induction s as [|c s [w IH]]; [exists ""; reflexivity|].
  cbn [Py.rstrip].
  destruct (Py.isspace c && Py.is_empty (Py.rstrip s)).
  - exists (String c s). reflexivity.
  - exists w. cbn. rewrite <- IH. reflexivity.
Qed.

Lemma prefix_app (p s w : string) :
  prefix p s = true -> prefix p (s ++ w) = true.
Proof.
  revert s. induction p as [|c p IH]; intros s H.
  - destruct (s ++ w)%string; reflexivity.
  - destruct s as [|c' s]; [discriminate|].
    cbn [append prefix] in *.
    destruct (ascii_dec c c'); [|discriminate]. apply IH. exact H.
Qed.

Lemma startswith_rstrip (s p : string) :
  Py.startswith s p = false -> Py.startswith (Py.rstrip s) p = false.
Proof.
  unfold Py.startswith. intros H.
  destruct (prefix p (Py.rstrip s)) eqn:E; [|reflexivity].
  destruct (rstrip_prefix s) as [w Hw].
  rewrite Hw, (prefix_app _ _ w E) in H. discriminate.
Qed.

Lemma prefix_char (c x : ascii) (s : string) :
  prefix (char c) (String x s) = Ascii.eqb c x.
Proof.
  unfold char. cbn [prefix].
  destruct (ascii_dec c x) as [->|Hne].
  - rewrite Ascii.eqb_refl. destruct s; reflexivity.
  - symmetry. apply Ascii.eqb_neq. exact Hne.
Qed.

Lemma contains_char_app (c : ascii) (a b : string) :
  Py.contains (char c) (a ++ b)
  = Py.contains (char c) a || Py.contains (char c) b.
Proof.
  induction a as [|x a IH].
  - cbn [append]. destruct b; reflexivity.
  - cbn [append Py.contains]. rewrite !prefix_char, IH.
    destruct (Ascii.eqb c x); reflexivity.
Qed.

Lemma find_nonneg_or_absent (s sub : string) :
  (Py.find s sub = -1 \/ 0 <= Py.find s sub)%Z.
Proof.
  induction s as [|x s IH]; cbn [Py.find].
  - destruct (prefix sub ""); [right; lia | left; reflexivity].
  - destruct (prefix sub (String x s)); [right; lia|].
    destruct (Z.eqb_spec (Py.find s sub) (-1)); [left; reflexivity|].
    right. lia.
Qed.

(** The first occurrence of a character that the text before it lacks. *)
Lemma find_first_char (c : ascii) (a b : string) :
  Py.contains (char c) a = false ->
  Py.find (a ++ String c b) (char c) = Z.of_nat (String.length a).
Proof.
  induction a as [|x a IH]; intros H.
  - cbn [append Py.find]. rewrite prefix_char, Ascii.eqb_refl. reflexivity.
  - cbn [append Py.find Py.contains String.length] in *.
    rewrite prefix_char in *.
    destruct (Ascii.eqb c x); [discriminate|].
    rewrite (IH H).
    destruct (Z.eqb_spec (Z.of_nat (String.length a)) (-1)); lia.
Qed.

Lemma drop_past (a b : string) (c : ascii) :
  Py.drop (S (String.length a)) (a ++ String c b) = b.
Proof. induction a as [|x a IH]; [reflexivity|]. exact IH. Qed.

Lemma slice_after (a b : string) (c : ascii) :
  Py.slice_from (Z.of_nat (String.length a) + 1) (a ++ String c b) = b.
Proof.
  unfold Py.slice_from.
  destruct (Z.ltb_spec (Z.of_nat (String.length a) + 1) 0); [lia|].
  replace (Z.to_nat (Z.of_nat (String.length a) + 1))
    with (S (String.length a)) by lia.
  apply drop_past.
Qed.

(** ** The payload decoder *)

(** A data URI whose media part has no comma is normalised to the
    payload, trimmed on the right. *)
Lemma normalise_data_uri (media payload : string) :
  Py.contains "," media = false ->
  normalise (data_uri media payload) = Py.rstrip payload.
Proof.
  intros Hmedia.
  assert (Hstrip : Py.strip (data_uri media payload)
                   = (("data:" ++ media ++ ";base64")
                      ++ String "," (Py.rstrip payload))%string).
  { unfold Py.strip, data_uri.
    change (Py.lstrip ("data:" ++ media ++ ";base64," ++ payload)%string)
      with ("data:" ++ media ++ ";base64," ++ payload)%string.
    assert (Hr : Py.rstrip (";base64," ++ payload)
                 = (";base64," ++ Py.rstrip payload)%string).
    { cbn [append]. rewrite !rstrip_cons_nonspace; reflexivity. }
    rewrite rstrip_app.
    - rewrite rstrip_app; rewrite Hr; [|discriminate].
      rewrite !append_assoc. reflexivity.
    - rewrite rstrip_app; rewrite Hr; [|discriminate].
      destruct media; discriminate. }
  unfold normalise.
  change (Py.is_empty (data_uri media payload)) with false. cbv iota zeta.
  rewrite Hstrip.
  replace (Py.startswith
             (("data:" ++ media ++ ";base64") ++ String "," (Py.rstrip payload))
             "data:") with true
    by (symmetry; unfold Py.startswith; rewrite !append_assoc;
        apply prefix_app; reflexivity).
  cbn [negb].
  change ","%string with (char ","%char) in *.
  rewrite find_first_char.
  - destruct (Z.eqb_spec (Z.of_nat (String.length ("data:" ++ media ++ ";base64")))
                (-1)); [lia|].
    apply slice_after.
  - rewrite !contains_char_app, Hmedia. reflexivity.
Qed.

(** A payload that neither begins with white space nor with [data:] is
    normalised to itself, trimmed on the right. *)
Lemma normalise_bare (payload : string) :
  leading_space payload = false ->
  Py.startswith payload "data:" = false ->
  normalise payload = Py.rstrip payload.
Proof.
  intros Hlead Hdata. unfold normalise.
  destruct payload as [|c p]; [reflexivity|].
  cbn [Py.is_empty]. unfold Py.strip.
  rewrite (lstrip_no_leading_space _ Hlead).
  rewrite (startswith_rstrip _ _ Hdata). reflexivity.
Qed.

(** The whole trimmed string is the payload when it does not begin with
    [data:] or holds no comma. *)
Lemma normalise_whole (text : string) :
  (Py.startswith (Py.strip text) "data:" = false
   \/ Py.find (Py.strip text) "," = (-1)%Z) ->
  normalise text = Py.strip text.
Proof.
  intros H. unfold normalise.
  destruct text as [|c t]; [reflexivity|].
  cbn [Py.is_empty].
  destruct H as [H | H]; rewrite H; [reflexivity|].
  destruct (negb _); reflexivity.
Qed.

(** C9, as stated, fails in three ways, each shown on the base64 text of
    a Word archive with the runs Hello and World: a media part with a
    comma in it; a payload that begins with a no-break space, which
    [strip] removes from a bare payload and leaves inside a data URI; and
    a payload that is itself a data URI. *)
Lemma data_uri_counterexample :
  let run b64 :=
    stdout (trace (main Fixture.lib
                     (Fixture.request_text b64 "report.docx" ""))) in
  let hello := [PDict [("text", PStr (Py.join nl ["Hello"; "World"]))]] in
  let nothing := [PDict [("text", PStr "")]] in
  (run Fixture.word_b64 = hello
   /\ run (data_uri "a,b" Fixture.word_b64) = nothing)
  /\ (run (Fixture.nbsp ++ Fixture.word_b64)%string = hello
      /\ run (data_uri "application/msword"
                (Fixture.nbsp ++ Fixture.word_b64)) = nothing)
  /\ (run ("data:a," ++ Fixture.word_b64)%string = hello
      /\ run (data_uri "application/msword"
                ("data:a," ++ Fixture.word_b64)) = nothing).
Proof. cbv zeta. repeat split; vm_compute; reflexivity. Qed.

(** C9 (amended): for every media part without a comma and every payload
    that begins neither with white space nor with [data:], the entry point
    does on the data-URI form of the payload exactly what it does on the
    payload itself: the same library calls and the same object written.
    A trimmed string that does not begin with [data:], or that holds no
    comma, is the base64 payload as a whole. *)
Theorem data_uri_same_run
  (L : Lib) (stdin_uri stdin_bare media payload name mime text : string) :
  _safe_load_json L stdin_uri = request (data_uri media payload) name mime ->
  _safe_load_json L stdin_bare = request payload name mime ->
  Py.contains "," media = false ->
  leading_space payload = false ->
  Py.startswith payload "data:" = false ->
  main L stdin_uri = main L stdin_bare
  /\ ((Py.startswith (Py.strip text) "data:" = false
       \/ Py.find (Py.strip text) "," = (-1)%Z) ->
      _normalise_base64_payload (PStr text) = ret (Py.strip text)).
Proof.
  intros Huri Hbare Hmedia Hlead Hdata. split.
  - rewrite (main_string_fields L stdin_uri _ Huri);
      [|repeat split].
    rewrite (main_string_fields L stdin_bare _ Hbare);
      [|repeat split].
    unfold payload_text, field. cbn [assoc String.eqb Ascii.eqb Bool.eqb].
    cbn [truthy text_of].
    assert (Hu : (if Py.nonempty (data_uri media payload)
                  then data_uri media payload else "")
                 = data_uri media payload) by reflexivity.
    assert (Hp : (if Py.nonempty payload then payload else "") = payload)
      by (destruct payload; reflexivity).
    rewrite Hu, Hp. unfold serve.
    rewrite (normalise_data_uri media payload Hmedia).
    rewrite (normalise_bare payload Hlead Hdata). reflexivity.
  - intros H. rewrite normalise_str, (normalise_whole text H). reflexivity.
Qed.

Lemma data_uri_same_run_witness :
  main Fixture.lib
    (Fixture.request_text (data_uri "application/msword" Fixture.word_b64)
       "report.docx" "")
  = main Fixture.lib (Fixture.request_text Fixture.word_b64 "report.docx" "")
  /\ _normalise_base64_payload (PStr " data:QUJD ") = ret "data:QUJD".
Proof.
  destruct (data_uri_same_run Fixture.lib
              (Fixture.request_text
                 (data_uri "application/msword" Fixture.word_b64)
                 "report.docx" "")
              (Fixture.request_text Fixture.word_b64 "report.docx" "")
              "application/msword" Fixture.word_b64 "report.docx" ""
              " data:QUJD ") as [Hsame Hwhole];
    try (vm_compute; reflexivity).
  split; [exact Hsame|].
  apply Hwhole. right. vm_compute. reflexivity.
Defined.
(** ** Flattening keeps what is not white space *)

Lemma has_nonspace_app (a b : string) :
  has_nonspace (a ++ b) = has_nonspace a || has_nonspace b.
Proof.
  induction a as [|c a IH]; [reflexivity|].
  cbn [append has_nonspace]. rewrite IH, orb_assoc. reflexivity.
Qed.

Lemma replace_from_keeps_nonspace (old new : string) :
  has_nonspace new = true ->
  forall s skip,
    has_nonspace (Py.drop skip s) = true ->
    has_nonspace (Py.replace_from old new skip s) = true.
Proof.
  intros Hnew. induction s as [|c s IH]; intros skip H.
  - destruct skip; discriminate.
  - destruct skip as [|k]; cbn [Py.replace_from].
    + destruct (prefix old (String c s)).
      * rewrite has_nonspace_app, Hnew. reflexivity.
      * cbn [Py.drop has_nonspace] in *.
        destruct (negb (Py.isspace c)); [reflexivity|].
        apply IH. destruct s; exact H.
    + apply IH. exact H.
Qed.

(** Replacing by a text that is not blank. *)
Lemma replace_keeps_nonspace (s old new : string) :
  has_nonspace new = true ->
  has_nonspace s = true -> has_nonspace (Py.replace s old new) = true.
Proof.
  intros Hnew H. apply replace_from_keeps_nonspace; [exact Hnew|].
  destruct s; exact H.
Qed.

(** Replacing one white-space character. *)
Lemma replace_space_keeps_nonspace (s : string) (c0 : ascii) (new : string) :
  Py.isspace c0 = true ->
  has_nonspace s = true ->
  has_nonspace (Py.replace s (char c0) new) = true.
Proof.
  intros Hc0. unfold Py.replace.
  induction s as [|c s IH]; intros H; [discriminate|].
  cbn [Py.replace_from]. rewrite prefix_char.
  cbn [char String.length Nat.sub].
  cbn [has_nonspace] in H.
  destruct (Ascii.eqb_spec c0 c) as [<-|Hne].
  - rewrite Hc0 in H. rewrite has_nonspace_app, (IH H), orb_true_r.
    reflexivity.
  - cbn [has_nonspace].
    destruct (negb (Py.isspace c)); [reflexivity|]. apply IH. exact H.
Qed.

Lemma _decode_entities_keeps_nonspace (text : string) :
  has_nonspace text = true -> has_nonspace (_decode_entities text) = true.
Proof.
  intros H. unfold _decode_entities.
  repeat (apply replace_keeps_nonspace; [reflexivity|]). exact H.
Qed.

Lemma split_from_head (s : string) :
  forall w,
    (w = "" \/ has_nonspace w = true) ->
    (has_nonspace w = true \/ has_nonspace s = true) ->
    exists x l, Py.split_from w s = x :: l /\ has_nonspace x = true.
Proof.
  induction s as [|c s IH]; intros w Hw H; cbn [Py.split_from].
  - destruct H as [H|H]; [|discriminate].
    destruct w; [discriminate|]. exists (String a w), []. auto.
  - destruct (Py.isspace c) eqn:Hc.
    + destruct w as [|a w]; cbn [Py.is_empty].
      * apply IH; [left; reflexivity|].
        destruct H as [H|H]; [discriminate|].
        cbn [has_nonspace] in H. rewrite Hc in H. right. exact H.
      * destruct Hw as [Hw|Hw]; [discriminate|].
        eexists _, _. split; [reflexivity|exact Hw].
    + assert (Hw' : has_nonspace (w ++ String c "") = true).
      { rewrite has_nonspace_app. cbn [has_nonspace]. rewrite Hc.
        apply orb_true_r. }
      apply IH; [right|left]; exact Hw'.
Qed.

Lemma join_head_nonspace (sep x : string) (l : list string) :
  has_nonspace x = true -> has_nonspace (Py.join sep (x :: l)) = true.
Proof.
  intros H. destruct l as [|y l]; [exact H|].
  change (Py.join sep (x :: y :: l))
    with (x ++ sep ++ Py.join sep (y :: l))%string.
  rewrite has_nonspace_app, H. reflexivity.
Qed.

Lemma lstrip_has_nonspace (s : string) :
  has_nonspace (Py.lstrip s) = has_nonspace s.
Proof.
  induction s as [|c s IH]; [reflexivity|].
  cbn [Py.lstrip has_nonspace].
  destruct (Py.isspace c) eqn:Hc; [exact IH|].
  cbn [has_nonspace]. rewrite Hc. reflexivity.
Qed.

Lemma rstrip_nonempty (s : string) :
  has_nonspace s = true -> Py.nonempty (Py.rstrip s) = true.
Proof.
  induction s as [|c s IH]; intros H; [discriminate|].
  cbn [Py.rstrip has_nonspace] in *.
  destruct (Py.isspace c); cbn [negb orb andb] in *; [|reflexivity].
  specialize (IH H). unfold Py.nonempty in IH.
  apply negb_true_iff in IH. rewrite IH. reflexivity.
Qed.

Lemma strip_nonempty (s : string) :
  has_nonspace s = true -> Py.nonempty (Py.strip s) = true.
Proof.
  intros H. unfold Py.strip. apply rstrip_nonempty.
  rewrite lstrip_has_nonspace. exact H.
Qed.

(** ** Entities and tags *)

Lemma drop_nil (k : nat) : Py.drop k "" = "".
Proof. destruct k; reflexivity. Qed.

Lemma contains_char_cons (c0 c : ascii) (s : string) :
  Py.contains (char c0) (String c s)
  = Ascii.eqb c0 c || Py.contains (char c0) s.
Proof.
  cbn [Py.contains]. rewrite prefix_char.
  destruct (Ascii.eqb c0 c); reflexivity.
Qed.

Lemma prefix_head_differs (c0 c : ascii) (old s : string) :
  Ascii.eqb c0 c = false -> prefix (String c0 old) (String c s) = false.
Proof.
  intros H. cbn [prefix]. destruct (ascii_dec c0 c) as [->|]; [|reflexivity].
  rewrite Ascii.eqb_refl in H. discriminate.
Qed.

(** Nothing is replaced in a text that lacks the first character of what
    is looked for. *)
Lemma replace_from_absent (c0 : ascii) (old new : string) :
  forall s k,
    Py.contains (char c0) s = false ->
    Py.replace_from (String c0 old) new k s = Py.drop k s.
Proof.
  induction s as [|c s IH]; intros k H.
  - rewrite drop_nil. reflexivity.
  - rewrite contains_char_cons in H. apply orb_false_iff in H as [Hc Hs].
    destruct k as [|k]; cbn [Py.replace_from Py.drop].
    + rewrite (prefix_head_differs _ _ _ _ Hc), (IH 0 Hs).
      destruct s; reflexivity.
    + apply IH. exact Hs.
Qed.

Lemma replace_absent (c0 : ascii) (old new s : string) :
  Py.contains (char c0) s = false ->
  Py.replace s (String c0 old) new = s.
Proof.
  intros H. unfold Py.replace. rewrite (replace_from_absent c0 old new s 0 H).
  destruct s; reflexivity.
Qed.

Lemma replace_from_cons_nomatch (old new : string) (c : ascii) (s : string) :
  prefix old (String c s) = false ->
  Py.replace_from old new 0 (String c s)
  = String c (Py.replace_from old new 0 s).
Proof. intros H. cbn [Py.replace_from]. rewrite H. reflexivity. Qed.

Lemma _decode_entities_without_ampersand_lemma (text : string) :
  Py.contains "&" text = false -> _decode_entities text = text.
Proof.
  intros H. unfold _decode_entities.
  change "&"%string with (char "&"%char) in H.
  rewrite (replace_absent "&"%char "quot;" dquote text H).
  rewrite (replace_absent "&"%char "apos;" "'" text H).
  rewrite (replace_absent "&"%char "lt;" "<" text H).
  rewrite (replace_absent "&"%char "gt;" ">" text H).
  apply (replace_absent "&"%char "amp;" "&" text H).
Qed.

Lemma replace_from_match (old new : string) (c : ascii) (s : string) :
  prefix old (String c s) = true ->
  Py.replace_from old new 0 (String c s)
  = (new ++ Py.replace_from old new (String.length old - 1) s)%string.
Proof. intros H. cbn [Py.replace_from]. rewrite H. reflexivity. Qed.

(** A replacement passes over a head in which no match can begin. *)
Ltac replace_pass :=
  unfold Py.replace; cbn [append];
  repeat (rewrite replace_from_cons_nomatch by reflexivity);
  reflexivity.

(** A replacement that meets what it looks for at the head. *)
Ltac replace_hit s :=
  unfold Py.replace; cbn [append];
  rewrite replace_from_match by (destruct s; reflexivity);
  cbn [String.length Nat.sub Py.replace_from append]; reflexivity.

Lemma _decode_entities_cons (c : ascii) (s : string) :
  Ascii.eqb "&" c = false ->
  _decode_entities (String c s) = String c (_decode_entities s).
Proof.
  intros H. unfold _decode_entities, Py.replace.
  rewrite !replace_from_cons_nomatch
    by (apply prefix_head_differs; exact H).
  reflexivity.
Qed.

Lemma _decode_entities_quot (s : string) :
  _decode_entities ("&quot;" ++ s) = (dquote ++ _decode_entities s)%string.
Proof.
  unfold _decode_entities.
  replace (Py.replace ("&quot;" ++ s) "&quot;" dquote)
    with (dquote ++ Py.replace s "&quot;" dquote)%string
    by (symmetry; replace_hit s).
  unfold Py.replace, dquote. cbn [append].
  rewrite !replace_from_cons_nomatch by reflexivity. reflexivity.
Qed.

Lemma _decode_entities_apos (s : string) :
  _decode_entities ("&apos;" ++ s) = ("'" ++ _decode_entities s)%string.
Proof.
  unfold _decode_entities.
  replace (Py.replace ("&apos;" ++ s) "&quot;" dquote)
    with ("&apos;" ++ Py.replace s "&quot;" dquote)%string
    by (symmetry; replace_pass).
  replace (Py.replace ("&apos;" ++ Py.replace s "&quot;" dquote) "&apos;" "'")
    with ("'" ++ Py.replace (Py.replace s "&quot;" dquote) "&apos;" "'")%string
    by (symmetry; generalize (Py.replace s "&quot;" dquote); intros s1;
        replace_hit s1).
  unfold Py.replace. cbn [append].
  rewrite !replace_from_cons_nomatch by reflexivity. reflexivity.
Qed.

Lemma _decode_entities_lt (s : string) :
  _decode_entities ("&lt;" ++ s) = ("<" ++ _decode_entities s)%string.
Proof.
  unfold _decode_entities.
  replace (Py.replace ("&lt;" ++ s) "&quot;" dquote)
    with ("&lt;" ++ Py.replace s "&quot;" dquote)%string
    by (symmetry; replace_pass).
  set (s1 := Py.replace s "&quot;" dquote).
  replace (Py.replace ("&lt;" ++ s1) "&apos;" "'")
    with ("&lt;" ++ Py.replace s1 "&apos;" "'")%string
    by (symmetry; replace_pass).
  set (s2 := Py.replace s1 "&apos;" "'").
  replace (Py.replace ("&lt;" ++ s2) "&lt;" "<")
    with ("<" ++ Py.replace s2 "&lt;" "<")%string
    by (symmetry; clearbody s2; replace_hit s2).
  unfold Py.replace. cbn [append].
  rewrite !replace_from_cons_nomatch by reflexivity. reflexivity.
Qed.

Lemma _decode_entities_gt (s : string) :
  _decode_entities ("&gt;" ++ s) = (">" ++ _decode_entities s)%string.
Proof.
  unfold _decode_entities.
  replace (Py.replace ("&gt;" ++ s) "&quot;" dquote)
    with ("&gt;" ++ Py.replace s "&quot;" dquote)%string
    by (symmetry; replace_pass).
  set (s1 := Py.replace s "&quot;" dquote).
  replace (Py.replace ("&gt;" ++ s1) "&apos;" "'")
    with ("&gt;" ++ Py.replace s1 "&apos;" "'")%string
    by (symmetry; replace_pass).
  set (s2 := Py.replace s1 "&apos;" "'").
  replace (Py.replace ("&gt;" ++ s2) "&lt;" "<")
    with ("&gt;" ++ Py.replace s2 "&lt;" "<")%string
    by (symmetry; replace_pass).
  set (s3 := Py.replace s2 "&lt;" "<").
  replace (Py.replace ("&gt;" ++ s3) "&gt;" ">")
    with (">" ++ Py.replace s3 "&gt;" ">")%string
    by (symmetry; clearbody s3; replace_hit s3).
  unfold Py.replace. cbn [append].
  rewrite !replace_from_cons_nomatch by reflexivity. reflexivity.
Qed.

Lemma _decode_entities_amp (s : string) :
  _decode_entities ("&amp;" ++ s) = ("&" ++ _decode_entities s)%string.
Proof.
  unfold _decode_entities.
  replace (Py.replace ("&amp;" ++ s) "&quot;" dquote)
    with ("&amp;" ++ Py.replace s "&quot;" dquote)%string
    by (symmetry; replace_pass).
  set (s1 := Py.replace s "&quot;" dquote).
  replace (Py.replace ("&amp;" ++ s1) "&apos;" "'")
    with ("&amp;" ++ Py.replace s1 "&apos;" "'")%string
    by (symmetry; replace_pass).
  set (s2 := Py.replace s1 "&apos;" "'").
  replace (Py.replace ("&amp;" ++ s2) "&lt;" "<")
    with ("&amp;" ++ Py.replace s2 "&lt;" "<")%string
    by (symmetry; replace_pass).
  set (s3 := Py.replace s2 "&lt;" "<").
  replace (Py.replace ("&amp;" ++ s3) "&gt;" ">")
    with ("&amp;" ++ Py.replace s3 "&gt;" ">")%string
    by (symmetry; replace_pass).
  set (s4 := Py.replace s3 "&gt;" ">").
  clearbody s4. symmetry. replace_hit s4.
Qed.

Lemma has_nonspace_false_cons (c : ascii) (s : string) :
  has_nonspace (String c s) = false ->
  Py.isspace c = true /\ has_nonspace s = false.
Proof.
  cbn [has_nonspace]. intros H. apply orb_false_iff in H as [Hc Hs].
  apply negb_false_iff in Hc. auto.
Qed.

Lemma allspace_lacks (c0 : ascii) (s : string) :
  Py.isspace c0 = false ->
  has_nonspace s = false -> Py.contains (char c0) s = false.
Proof.
  intros Hc0. induction s as [|c s IH]; intros H; [reflexivity|].
  apply has_nonspace_false_cons in H as [Hc Hs].
  rewrite contains_char_cons, (IH Hs), orb_false_r.
  apply Ascii.eqb_neq. intros ->. congruence.
Qed.

Lemma replace_from_allspace (old new : string) :
  has_nonspace new = false ->
  forall s k,
    has_nonspace s = false ->
    has_nonspace (Py.replace_from old new k s) = false.
Proof.
  intros Hnew. induction s as [|c s IH]; intros k H; [reflexivity|].
  pose proof H as H'. apply has_nonspace_false_cons in H' as [Hc Hs].
  destruct k as [|k]; cbn [Py.replace_from]; [|apply IH; exact Hs].
  destruct (prefix old (String c s)).
  - rewrite has_nonspace_app, Hnew, (IH _ Hs). reflexivity.
  - cbn [has_nonspace]. rewrite Hc, (IH _ Hs). reflexivity.
Qed.

Lemma split_from_allspace (s : string) :
  has_nonspace s = false -> Py.split_from "" s = [].
Proof.
  induction s as [|c s IH]; intros H; [reflexivity|].
  apply has_nonspace_false_cons in H as [Hc Hs].
  cbn [Py.split_from Py.is_empty]. rewrite Hc. apply IH. exact Hs.
Qed.

Lemma _strip_xml_tags_blank (text : string) :
  has_nonspace text = false -> _strip_xml_tags text = [].
Proof.
  intros H. unfold _strip_xml_tags.
  rewrite _decode_entities_without_ampersand_lemma by
    (change "&"%string with (char "&"%char);
     apply allspace_lacks; [reflexivity | exact H]).
  set (t1 := Py.replace text cr " ").
  assert (H1 : has_nonspace t1 = false)
    by (apply replace_from_allspace; [reflexivity | exact H]).
  set (t2 := Py.replace t1 nl " ").
  assert (H2 : has_nonspace t2 = false)
    by (apply replace_from_allspace; [reflexivity | exact H1]).
  set (t3 := Py.replace t2 tab " ").
  assert (H3 : has_nonspace t3 = false)
    by (apply replace_from_allspace; [reflexivity | exact H2]).
  rewrite (replace_absent "<"%char "" " <" t3)
    by (apply allspace_lacks; [reflexivity | exact H3]).
  rewrite (replace_absent ">"%char "" "> " t3)
    by (apply allspace_lacks; [reflexivity | exact H3]).
  apply split_from_allspace. exact H3.
Qed.

Lemma _strip_xml_tags_head (text : string) :
  has_nonspace text = true ->
  exists x l, _strip_xml_tags text = x :: l /\ has_nonspace x = true.
Proof.
  intros H. unfold _strip_xml_tags, Py.split.
  apply split_from_head; [left; reflexivity|]. right.
  do 2 (apply replace_keeps_nonspace; [reflexivity|]).
  change tab with (char (ascii_of_nat 9)).
  apply replace_space_keeps_nonspace; [reflexivity|].
  change nl with (char (ascii_of_nat 10)).
  apply replace_space_keeps_nonspace; [reflexivity|].
  change cr with (char (ascii_of_nat 13)).
  apply replace_space_keeps_nonspace; [reflexivity|].
  apply _decode_entities_keeps_nonspace. exact H.
Qed.

Lemma no_space_app (a b : string) :
  no_space (a ++ b) = no_space a && no_space b.
Proof.
  induction a as [|c a IH]; [reflexivity|].
  cbn [append no_space]. rewrite IH, andb_assoc. reflexivity.
Qed.

Lemma split_from_tokens (s : string) :
  forall w, no_space w = true -> Forall is_token (Py.split_from w s).
Proof.
  induction s as [|c s IH]; intros w Hw; cbn [Py.split_from].
  - destruct w as [|a w]; cbn [Py.is_empty]; [constructor|].
    constructor; [split; [reflexivity | exact Hw] | constructor].
  - destruct (Py.isspace c) eqn:Hc.
    + destruct w as [|a w]; cbn [Py.is_empty]; [apply IH; reflexivity|].
      constructor; [split; [reflexivity | exact Hw] | apply IH; reflexivity].
    + apply IH. rewrite no_space_app, Hw. cbn [no_space]. rewrite Hc.
      reflexivity.
Qed.

Lemma lstrip_token (t : string) : is_token t -> forall r, Py.lstrip (t ++ r) = (t ++ r)%string.
Proof.
  intros [Hne Hns] r. destruct t as [|c t]; [discriminate|].
  cbn [no_space] in Hns. apply andb_prop in Hns as [Hc _].
  apply negb_true_iff in Hc. cbn [append Py.lstrip]. rewrite Hc. reflexivity.
Qed.

Lemma rstrip_no_space (t : string) : no_space t = true -> Py.rstrip t = t.
Proof.
  induction t as [|c t IH]; [reflexivity|].
  cbn [no_space]. intros H. apply andb_prop in H as [Hc Ht].
  apply negb_true_iff in Hc.
  rewrite (rstrip_cons_nonspace c t Hc), (IH Ht). reflexivity.
Qed.

Lemma join_tokens_nonempty (x : string) (l : list string) :
  is_token x -> Py.join " " (x :: l) <> "".
Proof.
  intros [Hne _]. destruct x; [discriminate|].
  destruct l; discriminate.
Qed.

Lemma rstrip_join_tokens (toks : list string) :
  Forall is_token toks -> Py.rstrip (Py.join " " toks) = Py.join " " toks.
Proof.
  induction toks as [|x l IH]; intros H; [reflexivity|].
  inversion H as [|x' l' Hx Hl]; subst.
  destruct l as [|y l].
  - apply rstrip_no_space. exact (proj2 Hx).
  - change (Py.join " " (x :: y :: l))
      with (x ++ String " " (Py.join " " (y :: l)))%string.
    specialize (IH Hl).
    assert (Hy : Py.join " " (y :: l) <> "")
      by (apply join_tokens_nonempty; inversion Hl; assumption).
    assert (Hr : Py.rstrip (String " " (Py.join " " (y :: l)))
                 = String " " (Py.join " " (y :: l))).
    { cbn [Py.rstrip]. rewrite IH.
      destruct (Py.join " " (y :: l)); [contradiction|reflexivity]. }
    rewrite rstrip_app; rewrite Hr; [reflexivity|discriminate].
Qed.

(** ** The flattening of the script is the flattening specified *)

Lemma prefix_nil (s : string) : prefix "" s = true.
Proof. destruct s; reflexivity. Qed.

Lemma prefix_cons (a c : ascii) (p s : string) :
  prefix (String a p) (String c s) = Ascii.eqb a c && prefix p s.
Proof.
  cbn [prefix]. destruct (ascii_dec a c) as [->|Hne].
  - rewrite Ascii.eqb_refl. reflexivity.
  - apply Ascii.eqb_neq in Hne. rewrite Hne. reflexivity.
Qed.

Lemma prefix_split (p : string) :
  forall s, prefix p s = true -> exists t, s = (p ++ t)%string.
Proof.
  induction p as [|c p IH]; intros s H.
  - exists s. reflexivity.
  - destruct s as [|x s]; [discriminate|].
    rewrite prefix_cons in H. apply andb_prop in H as [Hc Hp].
    apply Ascii.eqb_eq in Hc. subst x.
    destruct (IH s Hp) as [t ->]. exists t. reflexivity.
Qed.

(** A replacement of an escape by its character brings no new match of
    a text that holds neither an ampersand nor that character. *)
Lemma prefix_kept (w old : string) (x : ascii) :
  Py.contains (char "&") w = false ->
  Py.contains (char x) w = false ->
  forall s,
    prefix w s = false ->
    prefix w (Py.replace_from (String "&" old) (String x "") 0 s) = false.
Proof.
  induction w as [|a w IH]; intros Hamp Hx s H.
  - rewrite prefix_nil in H. discriminate.
  - rewrite contains_char_cons in Hamp, Hx.
    apply orb_false_iff in Hamp as [Ha Hamp].
    apply orb_false_iff in Hx as [Hxa Hx].
    revert H. induction s as [|c s IHs]; intros H; [reflexivity|].
    cbn [Py.replace_from].
    destruct (prefix (String "&" old) (String c s)) eqn:Hm.
    + cbn [append]. rewrite prefix_cons.
      rewrite Ascii.eqb_sym, Hxa. reflexivity.
    + rewrite prefix_cons in H |- *.
      destruct (Ascii.eqb a c) eqn:Hac; [|reflexivity].
      cbn [andb] in H |- *.
      clear IHs. revert H. generalize s. clear Hm s.
      intros s H.
      apply (IH Hamp Hx s H).
Qed.

(** A character that begins no escape is kept, and the rest of the text
    is decoded on its own. *)
Lemma _decode_entities_plain (c : ascii) (s : string) :
  entity_at (String c s) = None ->
  _decode_entities (String c s) = String c (_decode_entities s).
Proof.
  intros E. destruct (Ascii.eqb "&" c) eqn:Hc;
    [|apply _decode_entities_cons; exact Hc].
  apply Ascii.eqb_eq in Hc. subst c.
  unfold entity_at, entities in E. cbn [List.find fst] in E.
  destruct (prefix "&quot;" (String "&" s)) eqn:P1; [discriminate|].
  destruct (prefix "&apos;" (String "&" s)) eqn:P2; [discriminate|].
  destruct (prefix "&lt;" (String "&" s)) eqn:P3; [discriminate|].
  destruct (prefix "&gt;" (String "&" s)) eqn:P4; [discriminate|].
  destruct (prefix "&amp;" (String "&" s)) eqn:P5; [discriminate|].
  clear E. rewrite prefix_cons in P2, P3, P4, P5.
  cbn [Ascii.eqb Bool.eqb andb] in P2, P3, P4, P5.
  unfold _decode_entities, Py.replace, dquote.
  rewrite (replace_from_cons_nomatch _ _ _ _ P1).
  set (s1 := Py.replace_from "&quot;" (String (ascii_of_nat 34) "") 0 s).
  assert (Q2 : prefix "apos;" s1 = false)
    by (apply prefix_kept; [reflexivity | reflexivity | exact P2]).
  assert (Q3 : prefix "lt;" s1 = false)
    by (apply prefix_kept; [reflexivity | reflexivity | exact P3]).
  assert (Q4 : prefix "gt;" s1 = false)
    by (apply prefix_kept; [reflexivity | reflexivity | exact P4]).
  assert (Q5 : prefix "amp;" s1 = false)
    by (apply prefix_kept; [reflexivity | reflexivity | exact P5]).
  clearbody s1.
  rewrite replace_from_cons_nomatch
    by (rewrite prefix_cons, Q2; reflexivity).
  set (s2 := Py.replace_from "&apos;" "'" 0 s1).
  assert (R3 : prefix "lt;" s2 = false)
    by (apply prefix_kept; [reflexivity | reflexivity | exact Q3]).
  assert (R4 : prefix "gt;" s2 = false)
    by (apply prefix_kept; [reflexivity | reflexivity | exact Q4]).
  assert (R5 : prefix "amp;" s2 = false)
    by (apply prefix_kept; [reflexivity | reflexivity | exact Q5]).
  clearbody s2.
  rewrite replace_from_cons_nomatch
    by (rewrite prefix_cons, R3; reflexivity).
  set (s3 := Py.replace_from "&lt;" "<" 0 s2).
  assert (S4 : prefix "gt;" s3 = false)
    by (apply prefix_kept; [reflexivity | reflexivity | exact R4]).
  assert (S5 : prefix "amp;" s3 = false)
    by (apply prefix_kept; [reflexivity | reflexivity | exact R5]).
  clearbody s3.
  rewrite replace_from_cons_nomatch
    by (rewrite prefix_cons, S4; reflexivity).
  set (s4 := Py.replace_from "&gt;" ">" 0 s3).
  assert (T5 : prefix "amp;" s4 = false)
    by (apply prefix_kept; [reflexivity | reflexivity | exact S5]).
  clearbody s4.
  rewrite replace_from_cons_nomatch
    by (rewrite prefix_cons, T5; reflexivity).
  reflexivity.
Qed.

(** The five replacements of [_decode_entities], made one after the
    other over the whole text, decode it as one pass from the left does. *)
Lemma _decode_entities_unescape (text : string) :
  _decode_entities text = unescape text.
Proof.
  assert (H : forall n s, String.length s <= n ->
                          unescape s = _decode_entities s).
  { induction n as [|n IH]; intros s Hn.
    - destruct s; [reflexivity | cbn in Hn; lia].
    - destruct s as [|c s]; [reflexivity|].
      unfold unescape. cbn [unescape_from].
      destruct (entity_at (String c s)) as [[escape character]|] eqn:E.
      + unfold entity_at, entities in E. cbn [List.find fst] in E.
        destruct (prefix "&quot;" (String c s)) eqn:P1;
          [|destruct (prefix "&apos;" (String c s)) eqn:P2;
            [|destruct (prefix "&lt;" (String c s)) eqn:P3;
              [|destruct (prefix "&gt;" (String c s)) eqn:P4;
                [|destruct (prefix "&amp;" (String c s)) eqn:P5;
                  [|discriminate]]]]];
          injection E as <- <-;
          match goal with
          | P : prefix ?p _ = true |- _ =>
              apply prefix_split in P as [t Ht]
          end;
          cbn [append] in Ht; injection Ht as -> ->;
          cbn [String.length Nat.sub unescape_from];
          fold (unescape t);
          rewrite (IH t) by (cbn [String.length] in Hn; lia);
          symmetry.
        * apply _decode_entities_quot.
        * apply _decode_entities_apos.
        * apply _decode_entities_lt.
        * apply _decode_entities_gt.
        * apply _decode_entities_amp.
      + fold (unescape s). rewrite (_decode_entities_plain c s E).
        rewrite (IH s) by (cbn [String.length] in Hn; lia). reflexivity. }
  symmetry. apply (H (String.length text)). apply Nat.le_refl.
Qed.

Lemma replace_char_cons (p c : ascii) (new s : string) :
  Py.replace (String c s) (char p) new
  = ((if Ascii.eqb p c then new else char c)
     ++ Py.replace s (char p) new)%string.
Proof.
  unfold Py.replace. cbn [Py.replace_from]. rewrite prefix_char.
  destruct (Ascii.eqb p c); reflexivity.
Qed.

Lemma replace_char_app (p : ascii) (new a b : string) :
  Py.replace (a ++ b) (char p) new
  = (Py.replace a (char p) new ++ Py.replace b (char p) new)%string.
Proof.
  induction a as [|c a IH]; [reflexivity|].
  cbn [append]. rewrite !replace_char_cons, IH, append_assoc. reflexivity.
Qed.

(** The five replacements of [_strip_xml_tags] set the tags apart. *)
Lemma replace_chain_set_apart (s : string) :
  Py.replace
    (Py.replace
       (Py.replace (Py.replace (Py.replace s cr " ") nl " ") tab " ")
       "<" " <")
    ">" "> "
  = set_apart s.
Proof.
  change cr with (char (ascii_of_nat 13)).
  change nl with (char (ascii_of_nat 10)).
  change tab with (char (ascii_of_nat 9)).
  change "<"%string with (char "<"%char) at 1.
  change ">"%string with (char ">"%char) at 1.
  induction s as [|c s IH]; [reflexivity|].
  rewrite replace_char_cons, !replace_char_app, IH.
  cbn [set_apart]. f_equal.
  destruct c as [[] [] [] [] [] [] [] []]; vm_compute; reflexivity.
Qed.

Lemma words_begin (s : string) :
  begins_word s = true -> exists f r, words s = f :: r.
Proof.
  destruct s as [|c s]; [discriminate|].
  cbn [begins_word words]. intros H. apply negb_true_iff in H. rewrite H.
  destruct (words s) as [|w ws]; [eauto|].
  destruct (begins_word s); eauto.
Qed.

(** [split_from], which reads the text from the left with the run it is
    in, against [words]. *)
Lemma split_from_words :
  forall s w,
    Py.split_from w s
    = if begins_word s
      then match words s with
           | f :: r => (w ++ f)%string :: r
           | [] => []
           end
      else if Py.is_empty w then words s else w :: words s.
Proof.
  induction s as [|c s IH]; intros w; [reflexivity|].
  cbn [Py.split_from begins_word words].
  destruct (Py.isspace c) eqn:Hc; cbn [negb].
  - rewrite (IH ""). cbn [Py.is_empty].
    assert (H : (if begins_word s
                 then match words s with
                      | f :: r => ("" ++ f)%string :: r
                      | [] => []
                      end
                 else words s) = words s).
    { destruct (begins_word s) eqn:B; [|reflexivity].
      destruct (words_begin s B) as (f & r & ->). reflexivity. }
    rewrite H. reflexivity.
  - rewrite (IH (w ++ String c "")%string).
    destruct (begins_word s) eqn:B.
    + destruct (words_begin s B) as (f & r & ->).
      rewrite append_assoc. reflexivity.
    + destruct w; destruct (words s); reflexivity.
Qed.

Lemma split_words (s : string) : Py.split s = words s.
Proof.
  unfold Py.split. rewrite split_from_words. cbn [Py.is_empty].
  destruct (begins_word s) eqn:B; [|reflexivity].
  destruct (words_begin s B) as (f & r & ->). reflexivity.
Qed.

Lemma strip_join_tokens (toks : list string) :
  Forall is_token toks ->
  Py.strip (Py.join " " toks) = Py.join " " toks.
Proof.
  intros H. unfold Py.strip.
  destruct toks as [|x l]; [reflexivity|].
  assert (Hl : Py.lstrip (Py.join " " (x :: l)) = Py.join " " (x :: l)).
  { inversion H as [|x' l' Hx Hrest]; subst.
    destruct l as [|y l].
    - rewrite <- (append_nil_r x) at 1 2. apply lstrip_token. exact Hx.
    - apply (lstrip_token x Hx). }
  rewrite Hl. apply rstrip_join_tokens. exact H.
Qed.

(** What lines 129-130 make of the decoded text of a member is its
    flattened text. *)
Lemma flatten_refines (text : string) :
  Py.strip (Py.join " " (_strip_xml_tags text)) = flatten text.
Proof.
  rewrite strip_join_tokens
    by (unfold _strip_xml_tags, Py.split; apply split_from_tokens;
        reflexivity).
  unfold flatten, _strip_xml_tags.
  rewrite replace_chain_set_apart, split_words, _decode_entities_unescape.
  reflexivity.
Qed.





(** ** The fallback extractor *)

Lemma getinfo_some_In (a : Archive) (name : string) (zi : ZipInfo) :
  getinfo a name = Some zi -> In zi a.
Proof.
  induction a as [|z a IH]; [discriminate|].
  cbn [getinfo]. destruct (getinfo a name) as [r|].
  - intros H. injection H as <-. right. apply IH. reflexivity.
  - destruct (String.eqb (filename z) name); [|discriminate].
    intros H. injection H as <-. left. reflexivity.
Qed.

Lemma getinfo_In (a : Archive) (name : string) :
  In name (namelist a) ->
  exists zi, getinfo a name = Some zi /\ In zi a.
Proof.
  intros Hin.
  assert (H : getinfo a name <> None).
  { induction a as [|z a IH]; [contradiction|].
    cbn [namelist map getinfo In] in *. destruct Hin as [Hn | Hin].
    - destruct (getinfo a name); [discriminate|].
      rewrite Hn, String.eqb_refl. discriminate.
    - specialize (IH Hin). destruct (getinfo a name); [discriminate|].
      contradiction. }
  destruct (getinfo a name) as [zi|] eqn:E; [|contradiction].
  exists zi. split; [reflexivity|]. apply (getinfo_some_In a name zi E).
Qed.

(** Reading a member inside [try: ... except KeyError: continue]. *)
Lemma outcome_try_read_cases (a : Archive) (name : string) :
  outcome (try_except (b <- read a name ;; ret (Some b))
             is_KeyError (ret None))
  = match getinfo a name with
    | Some zi =>
        match content zi with
        | inr data => inr (Some data)
        | inl e => if is_KeyError e then inr None else inl e
        end
    | None => inr None
    end.
Proof.
  unfold read. destruct (getinfo a name) as [zi|]; [|reflexivity].
  destruct (content zi) as [e|data]; [|reflexivity].
  cbn. destruct (is_KeyError e); reflexivity.
Qed.

(** The loop over the members appends the non-empty flattened texts of
    the XML members, and stops at the first of them whose reading raises
    something else than [KeyError]. *)
Lemma fallback_loop (L : Lib) (a : Archive) :
  forall (names : list string) (rows : list string),
    outcome
      (for_each names
         (fun rows name =>
            if negb (Py.endswith (Py.lower name) ".xml") then ret rows
            else
              xml_bytes <- try_except (b <- read a name ;; ret (Some b))
                             is_KeyError (ret None) ;;
              match xml_bytes with
              | None => ret rows
              | Some xml_bytes =>
                  let flattened :=
                    Py.join " " (_strip_xml_tags (decode_ignore L xml_bytes)) in
                  if Py.nonempty (Py.strip flattened)
                  then ret (rows ++ [Py.strip flattened])
                  else ret rows
              end)
         rows)
    = match first_read_error a (filter is_xml_name names) with
      | Some e => inl e
      | None =>
          inr (rows
               ++ filter Py.nonempty
                    (flat_map (fun name =>
                                 match member a name with
                                 | Some data => [flatten_member L data]
                                 | None => []
                                 end)
                       (filter is_xml_name names)))
      end.
Proof.
  induction names as [|name names IH]; intros rows.
  - cbn. rewrite app_nil_r. reflexivity.
  - cbn [for_each filter]. rewrite outcome_bind.
    fold (is_xml_name name).
    destruct (is_xml_name name); cbn [negb];
      [|cbn [ret outcome snd]; apply IH].
    rewrite outcome_bind, outcome_try_read_cases.
    cbn [first_read_error flat_map]. unfold member at 1.
    destruct (getinfo a name) as [zi|];
      [|cbn [ret outcome snd app filter]; apply IH].
    destruct (content zi) as [e|data].
    + destruct (is_KeyError e); [|reflexivity].
      cbn [ret outcome snd app filter]. apply IH.
    + cbv zeta. rewrite flatten_refines. fold (flatten_member L data).
      cbn [app filter].
      destruct (Py.nonempty (flatten_member L data));
        cbn [ret outcome snd]; rewrite IH;
        destruct (first_read_error a (filter is_xml_name names));
        try reflexivity.
      rewrite <- app_assoc. reflexivity.
Qed.

(** What the fallback returns on an archive that opens. *)
Lemma extract_fallback_xml_text_result (L : Lib) (raw : bytes) (a : Archive) :
  ZipFile L raw = Some a ->
  outcome (extract_fallback_xml_text L raw)
  = match first_read_error a (filter is_xml_name (namelist a)) with
    | Some e => inl e
    | None => inr (Py.join nl (fallback_lines L a))
    end.
Proof.
  intros Hzip. unfold extract_fallback_xml_text.
  rewrite outcome_emit_then, outcome_bind, open_archive_outcome, Hzip.
  pose proof (fallback_loop L a (namelist a) []) as Hloop.
  cbv beta iota zeta in *.
  rewrite outcome_bind, Hloop.
  destruct (first_read_error a (filter is_xml_name (namelist a)));
    reflexivity.
Qed.

(** ** Every run of the entry point *)













(** * Further properties *)

(** X1: a text without an ampersand is left as it is by
    [_decode_entities]. *)
Theorem _decode_entities_without_ampersand (text : string) :
  Py.contains "&" text = false -> _decode_entities text = text.
Proof. apply _decode_entities_without_ampersand_lemma. Qed.

Lemma _decode_entities_without_ampersand_witness :
  _decode_entities "<w:t>Tom's 5 > 3</w:t>"%string
  = "<w:t>Tom's 5 > 3</w:t>"%string.
Proof.
  apply (_decode_entities_without_ampersand "<w:t>Tom's 5 > 3</w:t>").
  vm_compute. reflexivity.
Defined.

(** X2: [_decode_entities] works from the head of a text: a character
    other than the ampersand is kept, and each of the five entities is
    replaced by its character, the rest of the text being decoded on its
    own.  The ampersand that [&amp;] leaves is not looked at again: a
    doubly escaped [&amp;lt;] becomes [&lt;], and decoding is not
    idempotent. *)
Theorem _decode_entities_head (c : ascii) (s : string) :
  (Ascii.eqb "&" c = false ->
   _decode_entities (String c s) = String c (_decode_entities s))
  /\ _decode_entities ("&quot;" ++ s) = (dquote ++ _decode_entities s)%string
  /\ _decode_entities ("&apos;" ++ s) = ("'" ++ _decode_entities s)%string
  /\ _decode_entities ("&lt;" ++ s) = ("<" ++ _decode_entities s)%string
  /\ _decode_entities ("&gt;" ++ s) = (">" ++ _decode_entities s)%string
  /\ _decode_entities ("&amp;" ++ s) = ("&" ++ _decode_entities s)%string
  /\ _decode_entities "&amp;lt;" = "&lt;"
  /\ _decode_entities (_decode_entities "&amp;lt;") = "<".
Proof.
  split; [apply _decode_entities_cons|].
  split; [apply _decode_entities_quot|].
  split; [apply _decode_entities_apos|].
  split; [apply _decode_entities_lt|].
  split; [apply _decode_entities_gt|].
  split; [apply _decode_entities_amp|].
  split; vm_compute; reflexivity.
Qed.

Lemma _decode_entities_head_witness :
  _decode_entities "a&lt;b" = String "a" (_decode_entities "&lt;b")
  /\ _decode_entities ("&lt;" ++ "b") = ("<" ++ _decode_entities "b")%string.
Proof.
  destruct (_decode_entities_head "a" "&lt;b") as [H _].
  destruct (_decode_entities_head "a" "b") as (_ & _ & _ & H' & _).
  split; [apply H; reflexivity | exact H'].
Defined.

(** X3: [_strip_xml_tags] returns no token exactly when the text is
    empty or all white space; any other text gives at least one token. *)
Theorem _strip_xml_tags_empty_iff_blank (text : string) :
  _strip_xml_tags text = [] <-> has_nonspace text = false.
Proof.
  split.
  - intros E. destruct (has_nonspace text) eqn:H; [|reflexivity].
    destruct (_strip_xml_tags_head text H) as (x & l & E' & _).
    rewrite E in E'. discriminate.
  - apply _strip_xml_tags_blank.
Qed.

(** X4: the tokens [_strip_xml_tags] returns are not empty and hold no
    white space, so joined with single spaces they form a text that is
    already trimmed: the [strip] of lines 129-130 changes nothing. *)
Theorem _strip_xml_tags_tokens (text : string) :
  Forall is_token (_strip_xml_tags text)
  /\ Py.strip (Py.join " " (_strip_xml_tags text))
     = Py.join " " (_strip_xml_tags text).
Proof.
  assert (H : Forall is_token (_strip_xml_tags text)).
  { unfold _strip_xml_tags, Py.split. apply split_from_tokens. reflexivity. }
  split; [exact H|].
  unfold Py.strip.
  destruct (_strip_xml_tags text) as [|x l]; [reflexivity|].
  assert (Hl : Py.lstrip (Py.join " " (x :: l)) = Py.join " " (x :: l)).
  { inversion H as [|x' l' Hx Hrest]; subst.
    destruct l as [|y l].
    - rewrite <- (append_nil_r x) at 1 2. apply lstrip_token. exact Hx.
    - apply (lstrip_token x Hx). }
  rewrite Hl. apply rstrip_join_tokens. exact H.
Qed.


(** ** The shared-string table *)

Lemma fold_append_texts (ts : list Element) :
  forall acc,
    fold_left (fun values t => values ++ [text_or_empty t]) ts acc
    = acc ++ map text_or_empty ts.
Proof.
  induction ts as [|t ts IH]; intros acc; cbn [fold_left map].
  - rewrite app_nil_r. reflexivity.
  - rewrite IH, <- app_assoc. reflexivity.
Qed.

Lemma _load_shared_strings_parsed
  (L : Lib) (a : Archive) (data : bytes) (root : Element) :
  member a "xl/sharedStrings.xml" = Some data ->
  fromstring L data = Some root ->
  outcome (_load_shared_strings L a)
  = inr (map text_or_empty (findall_below root (qname SHEET_NS "s" "t"))).
Proof.
  intros Hm Hp. unfold _load_shared_strings.
  rewrite outcome_bind, (outcome_try_read a _ data Hm).
  rewrite outcome_bind, outcome_parse_xml, Hp.
  cbn [ret outcome snd]. rewrite fold_append_texts. reflexivity.
Qed.

Lemma _load_shared_strings_rejected (L : Lib) (a : Archive) (data : bytes) :
  member a "xl/sharedStrings.xml" = Some data ->
  fromstring L data = None ->
  outcome (_load_shared_strings L a) = inl (fromstring_error L data).
Proof.
  intros Hm Hp. unfold _load_shared_strings.
  rewrite outcome_bind, (outcome_try_read a _ data Hm).
  rewrite outcome_bind, outcome_parse_xml, Hp. reflexivity.
Qed.

(** X5: without a shared-strings member the table is empty and nothing is
    parsed.  With one that parses, the table holds the text of every [t]
    element found at any depth, in document order, an element without text
    counting as the empty string: one entry per [t] element, so a string
    written in several runs takes several indices.  With one that the
    parser refuses, the exception of the parser is raised, whatever its
    class; with one whose reading raises something else than [KeyError],
    that exception is raised. *)
Theorem _load_shared_strings_table
  (L : Lib) (a : Archive) (data : bytes) (root : Element) :
  (getinfo a "xl/sharedStrings.xml" = None ->
   _load_shared_strings L a = ret [])
  /\ (member a "xl/sharedStrings.xml" = Some data ->
      fromstring L data = Some root ->
      exists table,
        outcome (_load_shared_strings L a) = inr table
        /\ table
           = map text_or_empty (findall_below root (qname SHEET_NS "s" "t"))
        /\ (forall e, below root e -> tag e = qname SHEET_NS "s" "t" ->
                      In (text_or_empty e) table)
        /\ List.length table
           = List.length (findall_below root (qname SHEET_NS "s" "t")))
  /\ (member a "xl/sharedStrings.xml" = Some data ->
      fromstring L data = None ->
      outcome (_load_shared_strings L a) = inl (fromstring_error L data))
  /\ (forall zi e,
        getinfo a "xl/sharedStrings.xml" = Some zi ->
        content zi = inl e ->
        is_KeyError e = false ->
        _load_shared_strings L a = raise e).
Proof.
  split; [|split; [|split]].
  - intros Hnone. unfold _load_shared_strings, read. rewrite Hnone.
    reflexivity.
  - intros Hm Hp. eexists. split; [apply (_load_shared_strings_parsed L a data root Hm Hp)|].
    split; [reflexivity|]. split.
    + intros e Hb Ht. apply in_map. apply In_findall_below. auto.
    + apply length_map.
  - apply _load_shared_strings_rejected.
  - intros zi e Hg Hc He. unfold _load_shared_strings, read.
    rewrite Hg, Hc. cbn. rewrite He. reflexivity.
Qed.

Lemma _load_shared_strings_table_witness :
  outcome (_load_shared_strings Fixture.lib Fixture.excel_archive)
  = inr ["A"; "B"]
  /\ _load_shared_strings Fixture.lib Fixture.word_archive = ret []
  /\ outcome (_load_shared_strings Sample.lib Sample.badshared_archive)
     = inl ParseError
  /\ outcome (_load_shared_strings Sample.lib Sample.oddenc_archive)
     = inl LookupError
  /\ _load_shared_strings Sample.lib
       [{| filename := "xl/sharedStrings.xml"; content := inl ZlibError |}]
     = raise ZlibError.
Proof.
  split; [|split; [|split; [|split]]].
  - destruct (proj1 (proj2 (_load_shared_strings_table Fixture.lib
                  Fixture.excel_archive Fixture.shared_strings_xml
                  Fixture.shared_strings_root)))
      as (table & Hout & Htable & _); [reflexivity | reflexivity |].
    rewrite Hout, Htable. reflexivity.
  - apply (proj1 (_load_shared_strings_table Fixture.lib Fixture.word_archive
                    "" Fixture.word_root)). reflexivity.
  - apply (proj1 (proj2 (proj2 (_load_shared_strings_table Sample.lib
                    Sample.badshared_archive Sample.badshared_xml
                    Fixture.word_root)))); reflexivity.
  - apply (proj1 (proj2 (proj2 (_load_shared_strings_table Sample.lib
                    Sample.oddenc_archive Sample.oddenc_xml
                    Fixture.word_root)))); reflexivity.
  - apply (proj2 (proj2 (proj2 (_load_shared_strings_table Sample.lib
                    [{| filename := "xl/sharedStrings.xml";
                        content := inl ZlibError |}]
                    "" Fixture.word_root)))
             {| filename := "xl/sharedStrings.xml";
                content := inl ZlibError |} ZlibError); reflexivity.
Defined.

(** ** The spreadsheet extractor at its edges *)

Lemma outcome_extract_excel_text (L : Lib) (buff : bytes) (a : Archive) :
  ZipFile L buff = Some a ->
  outcome (extract_excel_text L buff)
  = match outcome (_load_shared_strings L a) with
    | inl e => inl e
    | inr shared_strings =>
        match
          outcome
            (for_each (namelist a)
               (fun rows name =>
                  if negb (Py.startswith name "xl/worksheets/")
                     || negb (Py.endswith name ".xml")
                  then ret rows
                  else
                    content <- read a name ;;
                    root <- parse_xml L content ;;
                    ret (fold_left (append_row shared_strings)
                           (findall_below root (qname SHEET_NS "s" "row"))
                           rows))
               [])
        with
        | inl e => inl e
        | inr rows => inr (Py.join nl rows)
        end
    end.
Proof.
  intros Hzip. unfold extract_excel_text.
  rewrite outcome_emit_then, outcome_bind, open_archive_outcome, Hzip.
  rewrite outcome_bind.
  destruct (outcome (_load_shared_strings L a)) as [e|ss]; [reflexivity|].
  rewrite outcome_bind.
  destruct (outcome (for_each _ _ _)); reflexivity.
Qed.

(** A worksheet that does not parse stops the loop over the members. *)
Lemma worksheets_loop_rejected
  (L : Lib) (a : Archive) (shared_strings : list string)
  (name : string) (data : bytes) :
  is_worksheet_name name = true ->
  member a name = Some data ->
  fromstring L data = None ->
  forall (names : list string) (rows : list string),
    In name names ->
    exists e,
      outcome
        (for_each names
           (fun rows name =>
              if negb (Py.startswith name "xl/worksheets/")
                 || negb (Py.endswith name ".xml")
              then ret rows
              else
                content <- read a name ;;
                root <- parse_xml L content ;;
                ret (fold_left (append_row shared_strings)
                       (findall_below root (qname SHEET_NS "s" "row")) rows))
           rows)
      = inl e.
Proof.
  intros Hws Hm Hp. induction names as [|n names IH]; intros rows Hin;
    [contradiction|].
  cbn [for_each]. rewrite outcome_bind.
  match goal with
  | |- context [outcome ?body] =>
      destruct (outcome body) as [e|rows'] eqn:Hbody
  end; [eauto|].
  destruct Hin as [-> | Hin]; [|apply IH; exact Hin].
  exfalso. rewrite is_worksheet_name_negb, Hws in Hbody. cbn [negb] in Hbody.
  rewrite (read_member a name data Hm), bind_ret_l in Hbody.
  rewrite outcome_bind, outcome_parse_xml, Hp in Hbody. discriminate.
Qed.

(** X6: the spreadsheet extractor returns no partial text.  When the
    parser refuses the shared strings, the extractor raises the exception
    of the parser, whatever the worksheets hold; when the shared strings
    load and the parser refuses some worksheet member, it raises as well,
    the rows of the sheets before it being lost. *)
Theorem extract_excel_text_all_or_nothing
  (L : Lib) (buff : bytes) (a : Archive)
  (shared : bytes) (name : string) (sheet : bytes) :
  ZipFile L buff = Some a ->
  (member a "xl/sharedStrings.xml" = Some shared ->
   fromstring L shared = None ->
   outcome (extract_excel_text L buff) = inl (fromstring_error L shared))
  /\ ((exists table, outcome (_load_shared_strings L a) = inr table) ->
      In name (namelist a) ->
      is_worksheet_name name = true ->
      member a name = Some sheet ->
      fromstring L sheet = None ->
      exists e, outcome (extract_excel_text L buff) = inl e).
Proof.
  intros Hzip. rewrite (outcome_extract_excel_text L buff a Hzip). split.
  - intros Hm Hp. rewrite (_load_shared_strings_rejected L a shared Hm Hp).
    reflexivity.
  - intros [table ->] Hin Hws Hm Hp.
    destruct (worksheets_loop_rejected L a table name sheet Hws Hm Hp
                (namelist a) [] Hin) as [e He].
    exists e. cbv beta iota zeta in *. rewrite He. reflexivity.
Qed.

Lemma extract_excel_text_all_or_nothing_witness :
  outcome (extract_excel_text Sample.lib (Fixture.decoded Sample.badshared_b64))
  = inl ParseError
  /\ outcome (extract_excel_text Sample.lib (Fixture.decoded Sample.oddenc_b64))
     = inl LookupError
  /\ exists e,
       outcome (extract_excel_text Sample.lib
                  (Fixture.decoded Sample.badsheet_b64)) = inl e.
Proof.
  split; [|split].
  - apply (proj1 (extract_excel_text_all_or_nothing Sample.lib
                    (Fixture.decoded Sample.badshared_b64)
                    Sample.badshared_archive Sample.badshared_xml
                    "" "" ltac:(vm_compute; reflexivity)));
      vm_compute; reflexivity.
  - apply (proj1 (extract_excel_text_all_or_nothing Sample.lib
                    (Fixture.decoded Sample.oddenc_b64)
                    Sample.oddenc_archive Sample.oddenc_xml
                    "" "" ltac:(vm_compute; reflexivity)));
      vm_compute; reflexivity.
  - apply (proj2 (extract_excel_text_all_or_nothing Sample.lib
                    (Fixture.decoded Sample.badsheet_b64)
                    Sample.badsheet_archive ""
                    "xl/worksheets/sheet1.xml" Sample.badsheet_xml
                    ltac:(vm_compute; reflexivity))).
    + exists ["A"; "B"]. vm_compute. reflexivity.
    + right. left. reflexivity.
    + vm_compute. reflexivity.
    + vm_compute. reflexivity.
    + vm_compute. reflexivity.
Defined.

(** X7: when the shared strings load and no member is named as a
    worksheet (under [xl/worksheets/] and ending in [.xml], both compared
    with regard to case), the spreadsheet extractor parses no worksheet
    and returns the empty string. *)
Theorem extract_excel_text_no_worksheet
  (L : Lib) (buff : bytes) (a : Archive) (table : list string) :
  ZipFile L buff = Some a ->
  outcome (_load_shared_strings L a) = inr table ->
  filter is_worksheet_name (namelist a) = [] ->
  outcome (extract_excel_text L buff) = inr ""
  /\ is_worksheet_name "XL/WORKSHEETS/SHEET1.XML" = false
  /\ is_worksheet_name "xl/worksheets/sheet1.XML" = false.
Proof.
  intros Hzip Hss Hnone. split; [|split; reflexivity].
  rewrite (outcome_extract_excel_text L buff a Hzip), Hss.
  pose proof (worksheets_loop L a table (namelist a) [] []) as Hloop.
  rewrite Hnone in Hloop. cbv beta iota zeta in *.
  rewrite (Hloop (Forall2_nil _)). reflexivity.
Qed.

Lemma extract_excel_text_no_worksheet_witness :
  outcome (extract_excel_text Fixture.lib (Fixture.decoded Fixture.word_b64))
  = inr ""
  /\ is_worksheet_name "XL/WORKSHEETS/SHEET1.XML" = false
  /\ is_worksheet_name "xl/worksheets/sheet1.XML" = false.
Proof.
  apply (extract_excel_text_no_worksheet Fixture.lib
           (Fixture.decoded Fixture.word_b64) Fixture.word_archive []);
    vm_compute; reflexivity.
Defined.

(** ** The Word extractor at its edges *)

Lemma word_run (L : Lib) (buff : bytes) (a : Archive) :
  ZipFile L buff = Some a ->
  let rest :=
    document <- try_except
                  (d <- read a "word/document.xml" ;; ret (Some d))
                  is_KeyError (ret None) ;;
    match document with
    | None => ret ""
    | Some document =>
        root <- parse_xml L document ;;
        ret (Py.join nl
               (filter (fun t => Py.nonempty (Py.strip t))
                  (map text_or_empty
                     (findall_below root (qname WORD_NS "w" "t")))))
    end in
  extract_word_text L buff
  = (Ev_enter Word buff :: Ev_ZipFile buff :: trace rest, outcome rest).
Proof.
  intros Hzip rest.
  rewrite (M_eta (extract_word_text L buff)). unfold extract_word_text.
  rewrite trace_bind, outcome_bind. cbn [emit trace outcome fst snd app].
  rewrite trace_bind, outcome_bind, open_archive_trace, open_archive_outcome.
  rewrite Hzip. reflexivity.
Qed.

(** X8: on an archive that opens, the Word extractor returns the empty
    string without parsing anything when there is no main document; when
    the parser refuses the main document, it raises the exception of the
    parser, after that one call of it; and when the reading of the main
    document raises something else than [KeyError], it raises that
    exception without parsing anything. *)
Theorem extract_word_text_edges
  (L : Lib) (buff : bytes) (a : Archive) (document : bytes) (zi : ZipInfo)
  (e : exn) :
  ZipFile L buff = Some a ->
  (getinfo a "word/document.xml" = None ->
   extract_word_text L buff
   = ([Ev_enter Word buff; Ev_ZipFile buff], inr ""))
  /\ (member a "word/document.xml" = Some document ->
      fromstring L document = None ->
      extract_word_text L buff
      = ([Ev_enter Word buff; Ev_ZipFile buff; Ev_fromstring document],
         inl (fromstring_error L document)))
  /\ (getinfo a "word/document.xml" = Some zi ->
      content zi = inl e ->
      is_KeyError e = false ->
      extract_word_text L buff
      = ([Ev_enter Word buff; Ev_ZipFile buff], inl e)).
Proof.
  intros Hzip. rewrite (word_run L buff a Hzip). cbv zeta.
  split; [|split].
  - intros Hnone. unfold read. rewrite Hnone. reflexivity.
  - intros Hm Hp. rewrite (read_member a _ document Hm), bind_ret_l.
    change (try_except (ret (Some document)) is_KeyError (ret None))
      with (@ret (option bytes) (Some document)).
    rewrite bind_ret_l. unfold parse_xml. rewrite Hp. reflexivity.
  - intros Hg Hc He. unfold read. rewrite Hg, Hc. cbn. rewrite He.
    reflexivity.
Qed.

Lemma extract_word_text_edges_witness :
  extract_word_text Sample.lib (Fixture.decoded Sample.loose_b64)
  = ([Ev_enter Word (Fixture.decoded Sample.loose_b64);
      Ev_ZipFile (Fixture.decoded Sample.loose_b64)], inr "")
  /\ extract_word_text Fixture.lib (Fixture.decoded Fixture.badxml_b64)
     = ([Ev_enter Word (Fixture.decoded Fixture.badxml_b64);
         Ev_ZipFile (Fixture.decoded Fixture.badxml_b64);
         Ev_fromstring Fixture.badxml_document_xml], inl ParseError)
  /\ extract_word_text Sample.lib (Fixture.decoded Sample.deflate_b64)
     = ([Ev_enter Word (Fixture.decoded Sample.deflate_b64);
         Ev_ZipFile (Fixture.decoded Sample.deflate_b64)], inl ZlibError).
Proof.
  pose (zi := {| filename := "word/document.xml"; content := inl ZlibError |}).
  split; [|split].
  - apply (proj1 (extract_word_text_edges Sample.lib
                    (Fixture.decoded Sample.loose_b64) Sample.loose_archive
                    "" zi ZlibError ltac:(vm_compute; reflexivity))).
    vm_compute. reflexivity.
  - apply (proj1 (proj2 (extract_word_text_edges Fixture.lib
                    (Fixture.decoded Fixture.badxml_b64)
                    Fixture.badxml_archive Fixture.badxml_document_xml
                    zi ZlibError ltac:(vm_compute; reflexivity))));
      vm_compute; reflexivity.
  - apply (proj2 (proj2 (extract_word_text_edges Sample.lib
                    (Fixture.decoded Sample.deflate_b64)
                    Sample.deflate_archive "" zi ZlibError
                    ltac:(vm_compute; reflexivity))));
      vm_compute; reflexivity.
Defined.

(** ** The fallback extractor at its edges *)

Lemma for_each_ext {A S} (body body' : S -> A -> M S) (xs : list A) :
  (forall s x, body s x = body' s x) ->
  forall s, for_each xs body s = for_each xs body' s.
Proof.
  intros H. induction xs as [|x xs IH]; intros s; [reflexivity|].
  cbn [for_each]. rewrite H. destruct (body' s x) as [l [e|s']];
    [reflexivity|].
  cbn [bind]. rewrite IH. reflexivity.
Qed.

(** X9: the fallback opens the archive once and never calls the XML
    parser; what it returns depends on the archive reader (the archive it
    gives, or the exception it raises) and on the decoding of bytes alone,
    so members that are not well-formed XML cannot make it fail. *)
Theorem extract_fallback_xml_text_never_parses (L L' : Lib) (buff : bytes) :
  trace (extract_fallback_xml_text L buff)
  = [Ev_enter Fallback buff; Ev_ZipFile buff]
  /\ (ZipFile L buff = ZipFile L' buff ->
      ZipFile_error L buff = ZipFile_error L' buff ->
      (forall data, decode_ignore L data = decode_ignore L' data) ->
      extract_fallback_xml_text L buff = extract_fallback_xml_text L' buff).
Proof.
  split; [apply extract_fallback_xml_text_trace|].
  intros Hzip Herr Hdec. unfold extract_fallback_xml_text, open_archive.
  rewrite Hzip, Herr. f_equal.
  destruct (ZipFile L' buff) as [a|]; [|reflexivity].
  cbn [emit bind ret app]. 
  rewrite (for_each_ext _
            (fun rows name =>
               if negb (Py.endswith (Py.lower name) ".xml") then ret rows
               else
                 xml_bytes <- try_except (b <- read a name ;; ret (Some b))
                                is_KeyError (ret None) ;;
                 match xml_bytes with
                 | None => ret rows
                 | Some xml_bytes =>
                     let flattened :=
                       Py.join " "
                         (_strip_xml_tags (decode_ignore L' xml_bytes)) in
                     if Py.nonempty (Py.strip flattened)
                     then ret (rows ++ [Py.strip flattened])
                     else ret rows
                 end)); [reflexivity|].
  intros rows name.
  destruct (negb (Py.endswith (Py.lower name) ".xml")); [reflexivity|].
  destruct (try_except _ _ _) as [l [e|[b|]]]; cbn [bind]; try reflexivity.
  rewrite Hdec. reflexivity.
Qed.

Lemma extract_fallback_xml_text_never_parses_witness :
  let buff := Fixture.decoded Fixture.badxml_b64 in
  trace (extract_fallback_xml_text Sample.lib buff)
  = [Ev_enter Fallback buff; Ev_ZipFile buff]
  /\ extract_fallback_xml_text Sample.lib buff
     = extract_fallback_xml_text Fixture.lib buff.
Proof.
  intros buff.
  destruct (extract_fallback_xml_text_never_parses Sample.lib Fixture.lib buff)
    as [Htrace Hsame].
  split; [exact Htrace|].
  apply Hsame; [vm_compute; reflexivity | reflexivity | reflexivity].
Defined.

Lemma no_read_error_members (a : Archive) (names : list string) :
  (forall name, In name names -> exists data, member a name = Some data) ->
  first_read_error a names = None.
Proof.
  induction names as [|name names IH]; intros H; [reflexivity|].
  cbn [first_read_error].
  destruct (H name (or_introl eq_refl)) as [data Hd]. unfold member in Hd.
  destruct (getinfo a name) as [zi|]; [|discriminate].
  destruct (content zi); [discriminate|].
  apply IH. intros n Hn. apply H. right. exact Hn.
Qed.

Lemma read_error_member
  (a : Archive) (names : list string) (name : string) (zi : ZipInfo) (e : exn) :
  In name names ->
  getinfo a name = Some zi -> content zi = inl e -> is_KeyError e = false ->
  exists e', first_read_error a names = Some e'.
Proof.
  intros Hin Hg Hc He. induction names as [|n names IH]; [contradiction|].
  cbn [first_read_error]. destruct Hin as [-> | Hin].
  - rewrite Hg, Hc, He. eauto.
  - destruct (getinfo a n) as [z|]; [|apply IH; exact Hin].
    destruct (content z) as [x|]; [|apply IH; exact Hin].
    destruct (is_KeyError x); [apply IH; exact Hin | eauto].
Qed.

(** X10: the fallback, too, returns no partial text, and looks at the
    members named [*.xml] (in any case) alone.  On an archive that opens,
    when each of those members can be read, it returns their flattened
    texts that are not empty, one per line, whether or not the members
    with other names can be read; when the reading of one of them raises
    something else than [KeyError], the fallback raises, and the lines of
    the members before it are lost. *)
Theorem extract_fallback_xml_text_all_or_nothing
  (L : Lib) (buff : bytes) (a : Archive) :
  ZipFile L buff = Some a ->
  ((forall name, In name (namelist a) -> is_xml_name name = true ->
                 exists data, member a name = Some data) ->
   outcome (extract_fallback_xml_text L buff)
   = inr (Py.join nl (fallback_lines L a)))
  /\ (forall name zi e,
        In name (namelist a) -> is_xml_name name = true ->
        getinfo a name = Some zi -> content zi = inl e ->
        is_KeyError e = false ->
        exists e', outcome (extract_fallback_xml_text L buff) = inl e').
Proof.
  intros Hzip. rewrite (extract_fallback_xml_text_result L buff a Hzip).
  split.
  - intros H. rewrite no_read_error_members; [reflexivity|].
    intros name Hn. apply filter_In in Hn as [Hin Hxml]. auto.
  - intros name zi e Hin Hxml Hg Hc He.
    destruct (read_error_member a (filter is_xml_name (namelist a))
                name zi e) as [e' ->]; eauto.
    apply filter_In. auto.
Qed.

Lemma extract_fallback_xml_text_all_or_nothing_witness :
  (exists e',
      outcome (extract_fallback_xml_text Sample.lib
                 (Fixture.decoded Sample.badcrc_b64)) = inl e')
  /\ outcome (extract_fallback_xml_text Sample.lib
                (Fixture.decoded Sample.loose_b64))
     = inr "<a> hi & bye </a>"
  /\ outcome (extract_fallback_xml_text Sample.lib
                (Fixture.decoded Sample.deflate_b64)) <> inr "".
Proof.
  split; [|split].
  - apply (proj2 (extract_fallback_xml_text_all_or_nothing Sample.lib
                    (Fixture.decoded Sample.badcrc_b64) Sample.badcrc_archive
                    ltac:(vm_compute; reflexivity))
             "docProps/notes.xml"
             {| filename := "docProps/notes.xml"; content := inl BadZipFile |}
             BadZipFile).
    + right. left. reflexivity.
    + vm_compute. reflexivity.
    + vm_compute. reflexivity.
    + reflexivity.
    + reflexivity.
  - rewrite (proj1 (extract_fallback_xml_text_all_or_nothing Sample.lib
                      (Fixture.decoded Sample.loose_b64) Sample.loose_archive
                      ltac:(vm_compute; reflexivity))).
    + vm_compute. reflexivity.
    + intros name [<- | [<- | []]] Hxml.
      * exists Sample.loose_xml. vm_compute. reflexivity.
      * vm_compute in Hxml. discriminate.
  - destruct (proj2 (extract_fallback_xml_text_all_or_nothing Sample.lib
                       (Fixture.decoded Sample.deflate_b64)
                       Sample.deflate_archive ltac:(vm_compute; reflexivity))
                "word/document.xml"
                {| filename := "word/document.xml"; content := inl ZlibError |}
                ZlibError) as [e' ->].
    + left. reflexivity.
    + vm_compute. reflexivity.
    + vm_compute. reflexivity.
    + reflexivity.
    + reflexivity.
    + discriminate.
Defined.

(** ** The lines of a workbook *)

Lemma lstrip_head_nonspace (s : string) (c : ascii) (r : string) :
  Py.lstrip s = String c r -> Py.isspace c = false.
Proof.
  induction s as [|x s IH]; [discriminate|].
  cbn [Py.lstrip]. destruct (Py.isspace x) eqn:Hx; [exact IH|].
  intros H. injection H as <- _. exact Hx.
Qed.

Lemma rstrip_idempotent (s : string) : Py.rstrip (Py.rstrip s) = Py.rstrip s.
Proof.
  induction s as [|c s IH]; [reflexivity|].
  cbn [Py.rstrip].
  destruct (Py.isspace c && Py.is_empty (Py.rstrip s)) eqn:E; [reflexivity|].
  cbn [Py.rstrip]. rewrite IH, E. reflexivity.
Qed.

Lemma rstrip_head (c : ascii) (t : string) :
  Py.isspace c = false ->
  exists r, Py.rstrip (String c t) = String c r.
Proof. intros H. rewrite (rstrip_cons_nonspace c t H). eauto. Qed.

(** A trimmed string that is not empty begins with a character that is
    not white space, and has nothing to trim on the right. *)
Lemma strip_shape (x : string) :
  Py.strip x <> "" ->
  (exists c r, Py.strip x = String c r /\ Py.isspace c = false)
  /\ Py.rstrip (Py.strip x) = Py.strip x.
Proof.
  intros Hne. split; [|apply rstrip_idempotent].
  unfold Py.strip in *.
  destruct (Py.lstrip x) as [|c t] eqn:E; [contradiction Hne; reflexivity|].
  pose proof (lstrip_head_nonspace x c t E) as Hc.
  destruct (rstrip_head c t Hc) as [r Hr]. eauto.
Qed.

Lemma rstrip_join_trimmed (cells : list string) :
  Forall is_trimmed_cell cells ->
  Py.rstrip (Py.join " " cells) = Py.join " " cells.
Proof.
  induction cells as [|x l IH]; intros H; [reflexivity|].
  inversion H as [|x' l' Hx Hl]; subst.
  destruct l as [|y l]; [exact (proj2 Hx)|].
  change (Py.join " " (x :: y :: l))
    with (x ++ String " " (Py.join " " (y :: l)))%string.
  specialize (IH Hl).
  assert (Hy : Py.join " " (y :: l) <> "").
  { inversion Hl as [|y' l'' [(h & r & -> & _) _] _]; subst.
    destruct l; discriminate. }
  assert (Hr : Py.rstrip (String " " (Py.join " " (y :: l)))
               = String " " (Py.join " " (y :: l))).
  { cbn [Py.rstrip]. rewrite IH.
    destruct (Py.join " " (y :: l)); [contradiction|reflexivity]. }
  rewrite rstrip_app; rewrite Hr; [reflexivity|discriminate].
Qed.

Lemma row_cells_trimmed (shared_strings : list string) (cells : list Element) :
  Forall is_trimmed_cell
    (filter Py.nonempty
       (map (fun cell => Py.strip (or_empty (_cell_value cell shared_strings)))
          cells)).
Proof.
  apply Forall_forall. intros c Hin.
  apply filter_In in Hin as [Hin Hne].
  apply in_map_iff in Hin as (cell & <- & _).
  apply strip_shape. intros E. rewrite E in Hne. discriminate.
Qed.

Lemma row_text_shape (shared_strings : list string) (row : Element) :
  Py.strip (row_text shared_strings row) = row_text shared_strings row
  /\ (row_text shared_strings row <> "" ->
      blank (row_text shared_strings row) = false).
Proof.
  assert (Hstrip : Py.strip (row_text shared_strings row)
                   = row_text shared_strings row).
  { unfold row_text.
    pose proof (row_cells_trimmed shared_strings
                  (findall row (qname SHEET_NS "s" "c"))) as H.
    destruct (filter Py.nonempty _) as [|x l]; [reflexivity|].
    unfold Py.strip.
    assert (Hl : Py.lstrip (Py.join " " (x :: l)) = Py.join " " (x :: l)).
    { inversion H as [|x' l' [(h & r & -> & Hh) _] _]; subst.
      destruct l; cbn [Py.join String.concat append Py.lstrip];
        rewrite Hh; reflexivity. }
    rewrite Hl. apply rstrip_join_trimmed. exact H. }
  split; [exact Hstrip|].
  intros Hne. unfold blank. rewrite Hstrip.
  destruct (row_text shared_strings row); [contradiction|reflexivity].
Qed.

(** X11: the text of a row never begins or ends with white space, and a
    row text that is not empty is not blank.  This holds of the text of a
    row, not of each line of the output: a cell that holds newlines gives a
    row text of several lines, and an inner one may be blank. *)
Theorem row_text_trimmed (shared_strings : list string) (row : Element) :
  Py.strip (row_text shared_strings row) = row_text shared_strings row
  /\ (row_text shared_strings row <> "" ->
      blank (row_text shared_strings row) = false)
  /\ row_text shared_strings
       (Fixture.row_of [Fixture.plain_cell ("a" ++ nl ++ " " ++ nl ++ "b ")])
     = ("a" ++ nl ++ " " ++ nl ++ "b")%string.
Proof.
  destruct (row_text_shape shared_strings row) as [H1 H2].
  split; [exact H1|]. split; [exact H2|]. vm_compute. reflexivity.
Qed.

Lemma row_text_trimmed_witness :
  Py.strip (row_text ["A"; "B"]
              (Fixture.row_of [Fixture.plain_cell "  5 "; Fixture.plain_cell " "]))
  = row_text ["A"; "B"]
      (Fixture.row_of [Fixture.plain_cell "  5 "; Fixture.plain_cell " "])
  /\ blank (row_text ["A"; "B"]
              (Fixture.row_of [Fixture.plain_cell "  5 ";
                               Fixture.plain_cell " "])) = false.
Proof.
  destruct (row_text_trimmed ["A"; "B"]
              (Fixture.row_of [Fixture.plain_cell "  5 ";
                               Fixture.plain_cell " "])) as (H1 & H2 & _).
  split; [exact H1|]. apply H2. vm_compute. discriminate.
Defined.

(** ** The entry point on any input *)

Lemma py_lower_cases (v : pyval) :
  (exists s, py_lower v = ret s) \/ py_lower v = raise AttributeError.
Proof.
  destruct v; try (right; reflexivity). left. eexists. reflexivity.
Qed.

Lemma _normalise_base64_payload_cases (v : pyval) :
  (exists s, _normalise_base64_payload v = ret s)
  \/ _normalise_base64_payload v = raise AttributeError.
Proof.
  unfold _normalise_base64_payload.
  destruct (negb (truthy v)); [left; eexists; reflexivity|].
  destruct v; try (right; reflexivity).
  destruct (negb (Py.startswith (Py.strip s) "data:"));
    left; eexists; reflexivity.
Qed.

Lemma detect_kind_cases (name mime : pyval) :
  (exists k, detect_kind name mime = ret k)
  \/ detect_kind name mime = raise AttributeError.
Proof.
  unfold detect_kind.
  destruct (py_lower_cases (or_empty_str name)) as [[ln ->] | ->];
    [|right; reflexivity].
  rewrite bind_ret_l.
  assert (Hret : forall k : string, exists k', @ret string k = ret k')
    by (intros k; exists k; reflexivity).
  destruct (Py.endswith ln ".docx"); [rewrite bind_ret_l; left; apply Hret|].
  destruct (Py.endswith ln ".doc"); [rewrite bind_ret_l; left; apply Hret|].
  destruct (py_lower_cases (or_empty_str mime)) as [[lm ->] | ->];
    [|right; reflexivity].
  rewrite !bind_ret_l.
  destruct (Py.contains "wordprocessingml" lm); [left; apply Hret|].
  destruct (Py.endswith ln ".xlsx"); [rewrite bind_ret_l; left; apply Hret|].
  destruct (Py.endswith ln ".xls"); [rewrite bind_ret_l; left; apply Hret|].
  rewrite !bind_ret_l.
  destruct (Py.contains "spreadsheetml" lm); left; apply Hret.
Qed.

(** [main] once the fields of the input object are fetched. *)
Lemma main_on_dict (L : Lib) (stdin : string) (d : list (string * pyval)) :
  _safe_load_json L stdin = PDict d ->
  main L stdin =
  (normalised_base64 <-
     _normalise_base64_payload
       (if truthy (field d "base64") then field d "base64"
        else or_empty_str (field d "data")) ;;
   if negb (Py.nonempty normalised_base64) then dump_text ""
   else
     kind <- detect_kind (or_empty_str (field d "name"))
               (or_empty_str (field d "mime")) ;;
     if negb (Py.nonempty kind) then dump_text ""
     else
       emit (Ev_b64decode normalised_base64) ;;;
       match b64decode L normalised_base64 with
       | None => dump_text ""
       | Some raw_bytes => run_extractors L kind raw_bytes
       end).
Proof.
  intros Hload. unfold main. rewrite Hload. cbn [py_get].
  fold (field d "base64") (field d "data") (field d "name") (field d "mime").
  rewrite !bind_ret_l.
  destruct (truthy (field d "base64")); rewrite !bind_ret_l; reflexivity.
Qed.

Lemma decode_and_run (L : Lib) (p kind : string) :
  exists t,
    outcome (emit (Ev_b64decode p) ;;;
             match b64decode L p with
             | None => dump_text ""
             | Some raw_bytes => run_extractors L kind raw_bytes
             end) = inr tt
    /\ stdout (trace (emit (Ev_b64decode p) ;;;
                      match b64decode L p with
                      | None => dump_text ""
                      | Some raw_bytes => run_extractors L kind raw_bytes
                      end)) = [PDict [("text", PStr t)]].
Proof.
  rewrite outcome_bind, trace_bind. cbn [emit trace outcome fst snd app stdout].
  destruct (b64decode L p) as [raw|].
  - exists (final_text L kind raw).
    split; [apply run_extractors_outcome | apply run_extractors_stdout].
  - exists "". split; reflexivity.
Qed.

(** X12: a run of the script ends in one of three ways.  The reading of
    standard input raises (line 145 calls [sys.stdin.read()] outside any
    [try]; a [UnicodeDecodeError] on bytes that are no text), and that
    exception ends the run with nothing written.  Or the text is read and
    [AttributeError] is raised, nothing having been written or logged.  Or
    the run returns having written exactly one object, with the single
    field [text] holding a string. *)
Theorem main_raises_or_writes_once (L : Lib) (stdin_read : exn + string) :
  (exists e, stdin_read = inl e /\ run_script L stdin_read = ([], inl e))
  \/ (exists stdin,
        stdin_read = inr stdin
        /\ run_script L stdin_read = ([], inl AttributeError))
  \/ (outcome (run_script L stdin_read) = inr tt
      /\ exists t,
           stdout (trace (run_script L stdin_read))
           = [PDict [("text", PStr t)]]).
Proof.
  destruct stdin_read as [e|stdin]; [left; exists e; split; reflexivity|].
  right. cbn [run_script].
  assert (H : main L stdin = ([], inl AttributeError)
              \/ (outcome (main L stdin) = inr tt
                  /\ exists t, stdout (trace (main L stdin))
                               = [PDict [("text", PStr t)]])).
  { destruct (_safe_load_json L stdin) as [| | | | | |d] eqn:Hload;
      try (left; unfold main; rewrite Hload; reflexivity).
    rewrite (main_on_dict L stdin d Hload).
    destruct (_normalise_base64_payload_cases
                (if truthy (field d "base64") then field d "base64"
                 else or_empty_str (field d "data"))) as [[p ->] | ->];
      [|left; reflexivity].
    rewrite bind_ret_l.
    destruct (negb (Py.nonempty p));
      [right; split; [|exists ""]; reflexivity|].
    destruct (detect_kind_cases (or_empty_str (field d "name"))
                (or_empty_str (field d "mime"))) as [[kind ->] | ->];
      [|left; reflexivity].
    rewrite bind_ret_l.
    destruct (negb (Py.nonempty kind));
      [right; split; [|exists ""]; reflexivity|].
    right. destruct (decode_and_run L p kind) as (t & Ho & Hs). eauto. }
  destruct H as [H | H]; [left; exists stdin; split; [reflexivity|exact H]|].
  right. exact H.
Qed.



Lemma main_on_request (L : Lib) (stdin p name mime : string) :
  _safe_load_json L stdin = request p name mime ->
  main L stdin = serve L p name mime.
Proof.
  intros Hload.
  rewrite (main_string_fields L stdin _ Hload); [|repeat split].
  unfold payload_text, field. cbn [assoc String.eqb Ascii.eqb Bool.eqb].
  cbn [truthy text_of]. rewrite or_empty_self. reflexivity.
Qed.

Lemma serve_on_dict (L : Lib) (stdin : string) (d : list (string * pyval))
  (p : string) :
  _safe_load_json L stdin = PDict d ->
  (if truthy (field d "base64") then field d "base64"
   else or_empty_str (field d "data")) = PStr p ->
  is_text (field d "name") = true ->
  is_text (field d "mime") = true ->
  main L stdin
  = serve L p (text_of (field d "name")) (text_of (field d "mime")).
Proof.
  intros Hload Hp Hn Hm.
  rewrite (main_on_dict L stdin d Hload), Hp, normalise_str, bind_ret_l.
  rewrite (or_empty_str_text _ Hn), (or_empty_str_text _ Hm).
  unfold serve, Py.nonempty. rewrite negb_involutive.
  destruct (Py.is_empty (normalise p)); [reflexivity|].
  rewrite detect_kind_kind_of, bind_ret_l, negb_involutive. reflexivity.
Qed.

(** X14: the payload is taken from [base64] when that field holds a
    string that is not empty, whatever [data] holds (it is not looked at,
    even when it is no string); and from [data] when [base64] is absent,
    null, empty, zero or false.  In both cases the run is the run on the
    object with that payload under [base64]. *)
Theorem main_payload_field
  (L : Lib) (stdin stdin' : string) (d : list (string * pyval)) (p : string) :
  _safe_load_json L stdin = PDict d ->
  is_text (field d "name") = true ->
  is_text (field d "mime") = true ->
  _safe_load_json L stdin'
  = request p (text_of (field d "name")) (text_of (field d "mime")) ->
  (field d "base64" = PStr p -> p <> "" -> main L stdin = main L stdin')
  /\ (truthy (field d "base64") = false -> field d "data" = PStr p ->
      main L stdin = main L stdin').
Proof.
  intros Hload Hn Hm Hload'.
  rewrite (main_on_request L stdin' _ _ _ Hload'). split.
  - intros Hb Hne. apply (serve_on_dict L stdin d p Hload); try assumption.
    rewrite Hb. destruct p; [contradiction|reflexivity].
  - intros Hb Hd. apply (serve_on_dict L stdin d p Hload); try assumption.
    rewrite Hb, Hd. destruct p; reflexivity.
Qed.

Lemma main_payload_field_witness :
  main Sample.lib Sample.both_keys_text
  = main Sample.lib (Fixture.request_text Fixture.word_b64 "report.docx" "")
  /\ main Sample.lib Sample.data_only_text
     = main Sample.lib (Fixture.request_text Fixture.word_b64 "report.docx" "").
Proof.
  split.
  - apply (proj1 (main_payload_field Sample.lib Sample.both_keys_text
                    (Fixture.request_text Fixture.word_b64 "report.docx" "")
                    [("base64", PStr Fixture.word_b64); ("data", PInt 7);
                     ("name", PStr "report.docx")]
                    Fixture.word_b64
                    ltac:(vm_compute; reflexivity) eq_refl eq_refl
                    ltac:(vm_compute; reflexivity)));
      [reflexivity | vm_compute; discriminate].
  - apply (proj2 (main_payload_field Sample.lib Sample.data_only_text
                    (Fixture.request_text Fixture.word_b64 "report.docx" "")
                    [("data", PStr Fixture.word_b64);
                     ("name", PStr "report.docx")]
                    Fixture.word_b64
                    ltac:(vm_compute; reflexivity) eq_refl eq_refl
                    ltac:(vm_compute; reflexivity))); reflexivity.
Defined.

Lemma lstrip_allspace (s : string) :
  has_nonspace s = false -> Py.lstrip s = "".
Proof.
  induction s as [|c s IH]; intros H; [reflexivity|].
  apply has_nonspace_false_cons in H as [Hc Hs].
  cbn [Py.lstrip]. rewrite Hc. apply IH. exact Hs.
Qed.

Lemma blank_iff_no_nonspace (s : string) :
  blank s = negb (has_nonspace s).
Proof.
  unfold blank. destruct (has_nonspace s) eqn:H.
  - pose proof (strip_nonempty s H) as Hn. unfold Py.nonempty in Hn.
    apply negb_true_iff in Hn. exact Hn.
  - unfold Py.strip. rewrite (lstrip_allspace s H). reflexivity.
Qed.

Lemma normalise_blank (s : string) : blank s = true -> normalise s = "".
Proof.
  unfold blank, normalise. intros H.
  destruct (Py.is_empty s); [reflexivity|].
  destruct (Py.strip s); [reflexivity|discriminate].
Qed.

(** X15: a payload that is missing, empty or all white space ends the run
    at once with the empty text: the kind is not worked out, so even a
    name or a MIME value that is no string raises nothing, and nothing is
    decoded. *)
Theorem main_blank_payload
  (L : Lib) (stdin : string) (d : list (string * pyval)) :
  _safe_load_json L stdin = PDict d ->
  is_text (field d "base64") = true ->
  is_text (field d "data") = true ->
  blank (payload_text d) = true ->
  main L stdin = ([Ev_dump (PDict [("text", PStr "")])], inr tt).
Proof.
  intros Hload Hb Hd Hblank.
  rewrite (main_on_dict L stdin d Hload).
  assert (Hp : (if truthy (field d "base64") then field d "base64"
                else or_empty_str (field d "data")) = PStr (payload_text d)).
  { unfold payload_text. destruct (truthy (field d "base64")) eqn:E.
    - destruct (field d "base64"); try discriminate. reflexivity.
    - apply or_empty_str_text. exact Hd. }
  rewrite Hp, normalise_str, bind_ret_l, (normalise_blank _ Hblank).
  reflexivity.
Qed.

Lemma main_blank_payload_witness :
  main Sample.lib Sample.blank_payload_text
  = ([Ev_dump (PDict [("text", PStr "")])], inr tt).
Proof.
  apply (main_blank_payload Sample.lib Sample.blank_payload_text
           [("base64", PStr "  "); ("name", PInt 5)]);
    vm_compute; reflexivity.
Defined.

(** X16: how [detect_kind] treats values that are no strings.  A name
    with a Word extension decides alone: the MIME value is not looked at,
    whatever it is.  A name that is empty, null, zero or false counts as no
    name.  A name that is neither empty nor a string raises
    [AttributeError]; so does such a MIME value once the name has no Word
    extension. *)
Theorem detect_kind_dynamic_typing (name : string) (v mime : pyval) :
  (Py.endswith (Py.lower name) ".docx" || Py.endswith (Py.lower name) ".doc"
   = true ->
   detect_kind (PStr name) mime = ret "word")
  /\ (truthy v = false -> detect_kind v mime = detect_kind (PStr "") mime)
  /\ (truthy v = true -> (forall s, v <> PStr s) ->
      detect_kind v mime = raise AttributeError
      /\ (Py.endswith (Py.lower name) ".docx"
          || Py.endswith (Py.lower name) ".doc" = false ->
          detect_kind (PStr name) v = raise AttributeError)).
Proof.
  split; [|split].
  - intros H. unfold detect_kind.
    rewrite py_lower_or_empty, bind_ret_l.
    destruct (Py.endswith (Py.lower name) ".docx");
      [rewrite bind_ret_l; reflexivity|].
    cbn [orb] in H. rewrite H, bind_ret_l. reflexivity.
  - intros H. unfold detect_kind, or_empty_str at 1 3. rewrite H.
    reflexivity.
  - intros Ht Hns.
    assert (Hlow : py_lower (or_empty_str v) = raise AttributeError).
    { unfold or_empty_str. rewrite Ht.
      destruct v as [| | | |s| |]; try reflexivity. destruct (Hns s eq_refl). }
    split.
    + unfold detect_kind. rewrite Hlow. reflexivity.
    + intros H. apply orb_false_iff in H as [H1 H2].
      unfold detect_kind.
      rewrite py_lower_or_empty, bind_ret_l, H1, H2, Hlow. reflexivity.
Qed.

Lemma detect_kind_dynamic_typing_witness :
  detect_kind (PStr "Report.DOCX") (PInt 5) = ret "word"
  /\ detect_kind (PInt 0) (PInt 5) = detect_kind (PStr "") (PInt 5)
  /\ detect_kind (PInt 5) (PInt 5) = raise AttributeError
  /\ detect_kind (PStr "notes.txt") (PInt 5) = raise AttributeError.
Proof.
  destruct (detect_kind_dynamic_typing "Report.DOCX" (PInt 0) (PInt 5))
    as (H1 & H2 & _).
  destruct (detect_kind_dynamic_typing "notes.txt" (PInt 5) (PInt 5))
    as (_ & _ & H3).
  split; [apply H1; vm_compute; reflexivity|].
  split; [apply H2; reflexivity|].
  destruct H3 as [H3 H4]; [reflexivity | intros s; discriminate |].
  split; [exact H3 | apply H4; vm_compute; reflexivity].
Defined.

(** X17: in a data URI the payload is exactly what follows the first
    comma of the trimmed string, further commas included. *)
Theorem _normalise_base64_payload_after_first_comma (text a b : string) :
  Py.strip text = (a ++ "," ++ b)%string ->
  Py.startswith a "data:" = true ->
  Py.contains "," a = false ->
  _normalise_base64_payload (PStr text) = ret b.
Proof.
  intros Hstrip Hdata Hcomma.
  rewrite normalise_str. unfold normalise.
  destruct text as [|c t].
  { exfalso. destruct a; discriminate. }
  cbn [Py.is_empty]. rewrite Hstrip.
  unfold Py.startswith in *. rewrite (prefix_app _ _ _ Hdata).
  cbn [negb append].
  change ","%string with (char ","%char) in *.
  rewrite (find_first_char _ a b Hcomma).
  destruct (Z.eqb_spec (Z.of_nat (String.length a)) (-1)); [lia|].
  rewrite (slice_after a b). reflexivity.
Qed.

Lemma _normalise_base64_payload_after_first_comma_witness :
  _normalise_base64_payload
    (PStr "  data:text/plain;charset=utf-8;base64,QUJD,REVG  ")
  = ret "QUJD,REVG".
Proof.
  apply (_normalise_base64_payload_after_first_comma
           "  data:text/plain;charset=utf-8;base64,QUJD,REVG  "
           "data:text/plain;charset=utf-8;base64" "QUJD,REVG");
    vm_compute; reflexivity.
Defined.

(** ** Whole runs *)

Lemma has_nonspace_join_head (sep x : string) (l : list string) :
  blank x = false -> blank (Py.join sep (x :: l)) = false.
Proof.
  rewrite !blank_iff_no_nonspace, !negb_false_iff.
  apply join_head_nonspace.
Qed.

Lemma serve_run (L : Lib) (payload name mime : string) (raw : bytes) :
  normalise payload <> "" ->
  kind_of name mime <> "" ->
  b64decode L (normalise payload) = Some raw ->
  serve L payload name mime
  = (Ev_b64decode (normalise payload)
       :: trace (run_extractors L (kind_of name mime) raw), inr tt).
Proof.
  intros Hp Hk Hb. unfold serve.
  destruct (normalise payload) as [|c p]; [contradiction|].
  destruct (kind_of name mime) as [|c' k]; [contradiction|].
  cbn [Py.is_empty]. rewrite Hb.
  rewrite (M_eta (_ ;;; _)), trace_bind, outcome_bind.
  cbn [emit trace outcome fst snd app].
  rewrite run_extractors_outcome. reflexivity.
Qed.

(** X18: the whole run on a Word document.  When the payload decodes,
    the archive opens, the main document parses and some text run is not
    blank, the entry point decodes once, enters the Word extractor alone,
    opens the archive once, parses the main document once, and writes the
    runs that are not blank, one per line; the fallback is not entered. *)
Theorem main_word_run
  (L : Lib) (stdin : string) (d : list (string * pyval))
  (raw : bytes) (a : Archive) (document : bytes) (root : Element) :
  _safe_load_json L stdin = PDict d ->
  string_fields (PDict d) ->
  normalise (payload_text d) <> "" ->
  kind_of (text_of (field d "name")) (text_of (field d "mime")) = "word" ->
  b64decode L (normalise (payload_text d)) = Some raw ->
  ZipFile L raw = Some a ->
  member a "word/document.xml" = Some document ->
  fromstring L document = Some root ->
  existsb (fun t => negb (blank t)) (text_runs root) = true ->
  main L stdin
  = ([Ev_b64decode (normalise (payload_text d));
      Ev_enter Word raw; Ev_ZipFile raw; Ev_fromstring document;
      Ev_dump
        (PDict
           [("text",
             PStr (Py.join nl
                     (filter (fun t => negb (blank t)) (text_runs root))))])],
     inr tt).
Proof.
  intros Hload Hfields Hp Hk Hb Hzip Hdoc Hroot Hsome.
  rewrite (main_string_fields L stdin d Hload Hfields).
  rewrite (serve_run L _ _ _ raw Hp); [|rewrite Hk; discriminate|exact Hb].
  rewrite Hk, run_extractors_trace.
  assert (Hw : structured L "word" raw
               = ([Ev_enter Word raw; Ev_ZipFile raw; Ev_fromstring document],
                  inr (Py.join nl
                         (filter (fun t => negb (blank t)) (text_runs root))))).
  { unfold structured. cbn [String.eqb Ascii.eqb Bool.eqb].
    rewrite (word_run L raw a Hzip). cbv zeta.
    rewrite (read_member a _ document Hdoc), bind_ret_l.
    change (try_except (ret (Some document)) is_KeyError (ret None))
      with (@ret (option bytes) (Some document)).
    rewrite bind_ret_l. unfold parse_xml. rewrite Hroot. reflexivity. }
  assert (Hnb : blank (Py.join nl
                         (filter (fun t => negb (blank t)) (text_runs root)))
                = false).
  { apply existsb_exists in Hsome as (t & Hin & Ht).
    assert (Hin' : In t (filter (fun t => negb (blank t)) (text_runs root)))
      by (apply filter_In; split; assumption).
    destruct (filter (fun t => negb (blank t)) (text_runs root)) as [|x l] eqn:E;
      [contradiction|].
    apply has_nonspace_join_head.
    assert (Hx : In x (filter (fun t => negb (blank t)) (text_runs root)))
      by (rewrite E; left; reflexivity).
    apply filter_In in Hx as [_ Hx]. apply negb_true_iff. exact Hx. }
  unfold final_text, text_or_blank. rewrite Hw.
  cbn [trace outcome fst snd]. rewrite Hnb. reflexivity.
Qed.

Lemma main_word_run_witness :
  main Fixture.lib (Fixture.request_text Fixture.word_b64 "report.docx" "")
  = ([Ev_b64decode Fixture.word_b64;
      Ev_enter Word (Fixture.decoded Fixture.word_b64);
      Ev_ZipFile (Fixture.decoded Fixture.word_b64);
      Ev_fromstring Fixture.word_document_xml;
      Ev_dump (PDict [("text", PStr (Py.join nl ["Hello"; "World"]))])],
     inr tt).
Proof.
  apply (main_word_run Fixture.lib
           (Fixture.request_text Fixture.word_b64 "report.docx" "")
           [("base64", PStr Fixture.word_b64); ("name", PStr "report.docx");
            ("mime", PStr "")]
           (Fixture.decoded Fixture.word_b64) Fixture.word_archive
           Fixture.word_document_xml Fixture.word_root);
    try (vm_compute; reflexivity).
  - vm_compute. repeat split; reflexivity.
  - vm_compute. discriminate.
Defined.

Lemma workbook_text_not_blank (shared_strings : list string)
  (sheets : list Element) :
  workbook_text shared_strings sheets <> "" ->
  blank (workbook_text shared_strings sheets) = false.
Proof.
  unfold workbook_text. intros Hne.
  destruct (filter Py.nonempty
              (map (row_text shared_strings) (flat_map sheet_rows sheets)))
    as [|x l] eqn:E; [contradiction Hne; reflexivity|].
  apply has_nonspace_join_head.
  assert (Hx : In x (filter Py.nonempty
                       (map (row_text shared_strings)
                          (flat_map sheet_rows sheets))))
    by (rewrite E; left; reflexivity).
  apply filter_In in Hx as [Hin Hx].
  apply in_map_iff in Hin as (row & <- & _).
  apply row_text_shape. intros E'. rewrite E' in Hx. discriminate.
Qed.

(** X19: the whole run on a workbook.  When the payload decodes, the
    archive opens, the shared strings load, every worksheet parses and some
    row has a text, the entry point writes the spreadsheet text and enters
    the spreadsheet extractor alone: neither the Word extractor nor the
    fallback runs, and only one base64 text is decoded. *)
Theorem main_excel_run
  (L : Lib) (stdin : string) (d : list (string * pyval))
  (raw : bytes) (a : Archive) (table : list string) (sheets : list Element) :
  _safe_load_json L stdin = PDict d ->
  string_fields (PDict d) ->
  normalise (payload_text d) <> "" ->
  kind_of (text_of (field d "name")) (text_of (field d "mime")) = "excel" ->
  b64decode L (normalise (payload_text d)) = Some raw ->
  ZipFile L raw = Some a ->
  outcome (_load_shared_strings L a) = inr table ->
  Forall2 (sheet_parsed L a) (filter is_worksheet_name (namelist a)) sheets ->
  workbook_text table sheets <> "" ->
  outcome (main L stdin) = inr tt
  /\ stdout (trace (main L stdin))
     = [PDict [("text", PStr (workbook_text table sheets))]]
  /\ entered (trace (main L stdin)) = [(Excel, raw)]
  /\ (forall p, In (Ev_b64decode p) (trace (main L stdin)) ->
                p = normalise (payload_text d)).
Proof.
  intros Hload Hfields Hp Hk Hb Hzip Hss Hsheets Hne.
  rewrite (main_string_fields L stdin d Hload Hfields).
  rewrite (serve_run L _ _ _ raw Hp); [|rewrite Hk; discriminate|exact Hb].
  rewrite Hk. cbn [trace outcome fst snd stdout entered].
  assert (Hout : outcome (structured L "excel" raw)
                 = inr (workbook_text table sheets)).
  { unfold structured. cbn [String.eqb Ascii.eqb Bool.eqb].
    rewrite (outcome_extract_excel_text L raw a Hzip), Hss.
    pose proof (worksheets_loop L a table (namelist a) sheets [] Hsheets)
      as Hloop.
    cbv beta iota zeta in *. rewrite Hloop. reflexivity. }
  assert (Hfinal : final_text L "excel" raw = workbook_text table sheets).
  { unfold final_text, text_or_blank. rewrite Hout.
    rewrite (workbook_text_not_blank table sheets Hne). reflexivity. }
  split; [reflexivity|].
  split; [rewrite run_extractors_stdout, Hfinal; reflexivity|].
  split.
  - rewrite run_extractors_entered. unfold text_or_blank. rewrite Hout.
    rewrite (workbook_text_not_blank table sheets Hne). reflexivity.
  - intros p [H | H]; [injection H as <-; reflexivity|].
    apply run_extractors_events in H. contradiction.
Qed.

Lemma main_excel_run_witness :
  let stdin := Fixture.request_text Fixture.excel_b64 "book.xlsx" "" in
  outcome (main Fixture.lib stdin) = inr tt
  /\ stdout (trace (main Fixture.lib stdin))
     = [PDict [("text", PStr (Py.join nl ["A C 5"; "X"]))]]
  /\ entered (trace (main Fixture.lib stdin))
     = [(Excel, Fixture.decoded Fixture.excel_b64)].
Proof.
  intros stdin.
  assert (Hsheets :
    Forall2 (sheet_parsed Fixture.lib Fixture.excel_archive)
      (filter is_worksheet_name (namelist Fixture.excel_archive))
      [Fixture.sheet1_root]).
  { change (filter is_worksheet_name (namelist Fixture.excel_archive))
      with ["xl/worksheets/sheet1.xml"].
    constructor; [|constructor].
    exists Fixture.sheet1_xml. split; vm_compute; reflexivity. }
  destruct (main_excel_run Fixture.lib stdin
              [("base64", PStr Fixture.excel_b64); ("name", PStr "book.xlsx");
               ("mime", PStr "")]
              (Fixture.decoded Fixture.excel_b64) Fixture.excel_archive
              ["A"; "B"] [Fixture.sheet1_root]
              ltac:(vm_compute; reflexivity)
              ltac:(vm_compute; repeat split; reflexivity)
              ltac:(vm_compute; discriminate)
              ltac:(vm_compute; reflexivity)
              ltac:(vm_compute; reflexivity)
              ltac:(vm_compute; reflexivity)
              ltac:(vm_compute; reflexivity)
              Hsheets
              ltac:(vm_compute; discriminate))
    as (H1 & H2 & H3 & _).
  split; [exact H1|]. split; [|exact H3].
  rewrite H2. vm_compute. reflexivity.
Defined.
